(** * elizaOS/mcp-gateway: payment mediation and dispatch, modelled in Rocq

    Shallow embedding of
    - [src/core/payment-middleware.ts]  (class [PaymentMiddleware]),
    - [src/core/gateway.ts]             (class [GatewayServer], CallTool handler),
    - [src/paywall-guard.ts]            (class [PaywallGuard]),
    - the HTTP front-end                (class [GatewayHttpServer]),
    together with the ECMAScript built-ins these sources call.

    Conventions.
    - A JavaScript string is a [string]; its characters are the code units
      below 256, so the only non-ASCII white space is U+00A0.
    - A JavaScript object used as a dictionary ([Record<string,string>],
      [Map]) is a [gmap string _]; lookups are own-property lookups.
    - An optional field [f?: T] is an [option T]; [bigint] is [Z].
    - A JavaScript number is an IEEE 754 binary64 value, a [spec_float]
      operated on with precision 53 and maximal exponent 1024.
    - Logger calls are not modelled: no modelled function reads the log. *)

From Stdlib Require Import ZArith QArith Qround String Ascii List Bool Lia SpecFloat DecimalString.
From stdpp Require Import base gmap strings list.

Local Open Scope Z_scope.
Set Warnings "-register-all".

(* ===================================================================== *)
(** * ECMAScript built-ins                                                *)
(* ===================================================================== *)

Module JS.

(** ** Strings *)

Definition code (c : ascii) : Z := Z.of_N (N_of_ascii c).

Definition isDecimalDigit (c : ascii) : bool :=
  (48 <=? code c) && (code c <=? 57).

Definition digitValue (c : ascii) : Z := code c - 48.

(** [StrWhiteSpaceChar]: TAB, LF, VT, FF, CR, SP and NBSP. *)
Definition isStrWhiteSpaceChar (c : ascii) : bool :=
  ((9 <=? code c) && (code c <=? 13)) || (code c =? 32) || (code c =? 160).

(** Truthiness of a possibly undefined string: [undefined] and [""] are falsy. *)
Definition truthy (o : option string) : option string :=
  match o with
  | Some EmptyString => None
  | _ => o
  end.

(** [a || b] on possibly undefined strings, when the result is only tested
    for truthiness or used as a string afterwards. *)
Definition or_else (a b : option string) : option string :=
  match truthy a with
  | Some s => Some s
  | None => b
  end.

Fixpoint trimStart (s : string) : string :=
  match s with
  | String c r => if isStrWhiteSpaceChar c then trimStart r else s
  | EmptyString => EmptyString
  end.

Fixpoint trimEnd (s : string) : string :=
  match s with
  | EmptyString => EmptyString
  | String c r =>
      match trimEnd r with
      | EmptyString => if isStrWhiteSpaceChar c then EmptyString else String c EmptyString
      | r' => String c r'
      end
  end.

Definition trim (s : string) : string := trimEnd (trimStart s).

(** [s.startsWith(p)], returning the rest of [s] on success. *)
Fixpoint stripPrefix (p s : string) : option string :=
  match p, s with
  | EmptyString, _ => Some s
  | String a p', String b s' => if Ascii.eqb a b then stripPrefix p' s' else None
  | String _ _, EmptyString => None
  end.

Definition startsWith (s p : string) : bool :=
  match stripPrefix p s with Some _ => true | None => false end.

(** [s.replace(pat, rep)] with a string pattern: the first occurrence only.
    The replacements used by the sources contain no [$]. *)
Fixpoint replace (pat rep s : string) : string :=
  match stripPrefix pat s with
  | Some rest => rep +:+ rest
  | None =>
      match s with
      | EmptyString => EmptyString
      | String c r => String c (replace pat rep r)
      end
  end.

(** [s.includes(c)] for a one-character needle. *)
Fixpoint includesChar (c : ascii) (s : string) : bool :=
  match s with
  | EmptyString => false
  | String a r => Ascii.eqb a c || includesChar c r
  end.

(** [s.replace(/[^0-9.]/g, '')]. *)
Fixpoint stripNonNumeric (s : string) : string :=
  match s with
  | EmptyString => EmptyString
  | String c r =>
      if isDecimalDigit c || Ascii.eqb c "."
      then String c (stripNonNumeric r)
      else stripNonNumeric r
  end.

(** Decimal rendering of a non-negative integer, as [Number] and [BigInt]
    print it: no leading zero, ["0"] for zero. *)
Definition decimalOfN (n : N) : string := NilZero.string_of_uint (N.to_uint n).

Definition decimalOfZ (z : Z) : string :=
  match z with
  | Zneg p => "-" +:+ decimalOfN (Npos p)
  | _ => decimalOfN (Z.to_N z)
  end.

Definition newline : string := String (ascii_of_N 10) EmptyString.

(** [s.split(sep)] for a one-character separator. *)
Fixpoint split (sep : ascii) (s : string) : list string :=
  match s with
  | EmptyString => [EmptyString]
  | String c r =>
      if Ascii.eqb c sep then EmptyString :: split sep r
      else match split sep r with
           | piece :: pieces => String c piece :: pieces
           | [] => [String c EmptyString]
           end
  end.

(** [l.indexOf(x)], [-1] when absent. *)
Fixpoint indexOf (x : string) (l : list string) : Z :=
  match l with
  | [] => -1
  | y :: r => if String.eqb y x then 0
              else let i := indexOf x r in if i <? 0 then -1 else i + 1
  end.

(** ** Thrown values *)

(** An [Error] object, by its [name] and [message]. *)
Record Error := mkError { err_name : string; err_message : string }.

(** [Error.prototype.toString], which is what [`${error}`] evaluates. *)
Definition errorToString (e : Error) : string :=
  match err_name e, err_message e with
  | EmptyString, m => m
  | n, EmptyString => n
  | n, m => n +:+ ": " +:+ m
  end.

(** ** JSON values *)

Inductive Json :=
| JNull
| JBool (b : bool)
| JNum (z : Z)
| JStr (s : string)
| JArr (items : list Json)
| JObj (fields : list (string * Json)).

Fixpoint assoc {A} (k : string) (l : list (string * A)) : option A :=
  match l with
  | [] => None
  | (k', v) :: r => if String.eqb k k' then Some v else assoc k r
  end.

(** Own-property read [j.k]; [None] when [j] is not an object with that key. *)
Definition field (k : string) (j : Json) : option Json :=
  match j with
  | JObj fs => assoc k fs
  | _ => None
  end.

(** Truthiness of a JSON value. *)
Definition truthyJson (j : Json) : bool :=
  match j with
  | JNull => false
  | JBool b => b
  | JNum z => negb (z =? 0)
  | JStr s => negb (String.eqb s "")
  | JArr _ | JObj _ => true
  end.

(** ** BigInt(string) *)

Definition digitInBase (base : Z) (c : ascii) : option Z :=
  let n := code c in
  let v := if (48 <=? n) && (n <=? 57) then n - 48
           else if (97 <=? n) && (n <=? 122) then n - 87
           else if (65 <=? n) && (n <=? 90) then n - 55
           else base in
  if v <? base then Some v else None.

Fixpoint parseDigitsFrom (base acc : Z) (s : string) : option Z :=
  match s with
  | EmptyString => Some acc
  | String c r =>
      match digitInBase base c with
      | Some v => parseDigitsFrom base (acc * base + v) r
      | None => None
      end
  end.

(** A non-empty run of digits of the base, and nothing else. *)
Definition parseDigits (base : Z) (s : string) : option Z :=
  match s with
  | EmptyString => None
  | _ => parseDigitsFrom base 0 s
  end.

(** [StringToBigInt]: [None] is the [SyntaxError] that [BigInt(s)] throws.
    White space is trimmed, the empty literal is [0n], a sign is
    accepted on decimal literals only. *)
Definition StringToBigInt (s : string) : option Z :=
  match trim s with
  | EmptyString => Some 0
  | String "0" (String "x" r) | String "0" (String "X" r) => parseDigits 16 r
  | String "0" (String "o" r) | String "0" (String "O" r) => parseDigits 8 r
  | String "0" (String "b" r) | String "0" (String "B" r) => parseDigits 2 r
  | String "+" r => parseDigits 10 r
  | String "-" r => Z.opp <$> parseDigits 10 r
  | t => parseDigits 10 t
  end.

(** ** Numbers (IEEE 754 binary64) *)

Definition number := spec_float.

Definition prec : Z := 53.
Definition emax : Z := 1024.

Definition NaN : number := S754_nan.
Definition mul : number -> number -> number := SFmul prec emax.
Definition add : number -> number -> number := SFadd prec emax.
Definition div : number -> number -> number := SFdiv prec emax.

(** The number value of a mathematical integer (round to nearest, ties to even). *)
Definition numberOfZ (z : Z) : number := binary_normalize prec emax z 0 false.

(** The number value of [(-1)^neg * m * 10^e10]. *)
Definition numberOfDecimal (neg : bool) (m e10 : Z) : number :=
  match m with
  | Zpos p =>
      if 0 <=? e10
      then binary_normalize prec emax ((if neg then - m else m) * 10 ^ e10) 0 neg
      else div (S754_finite neg p 0) (S754_finite false (Z.to_pos (10 ^ (- e10))) 0)
  | _ => S754_zero neg
  end.

(** What [parseFloat] reads: the longest prefix that is a [StrDecimalLiteral]. *)
Inductive StrDecimalLiteral :=
| LitNone
| LitInfinity (neg : bool)
| LitDecimal (neg : bool) (mantissa exp10 : Z).

(** Reads a run of decimal digits: the accumulated value, how many digits
    were read, and the rest of the string. *)
Fixpoint readDigits (acc : Z) (s : string) : Z * Z * string :=
  match s with
  | String c r =>
      if isDecimalDigit c
      then let '(v, n, rest) := readDigits (acc * 10 + digitValue c) r in (v, n + 1, rest)
      else (acc, 0, s)
  | EmptyString => (acc, 0, s)
  end.

Definition readSign (s : string) : bool * string :=
  match s with
  | String "+" r => (false, r)
  | String "-" r => (true, r)
  | _ => (false, s)
  end.

Definition readExponent (s : string) : Z :=
  match s with
  | String "e" r | String "E" r =>
      let '(eneg, r1) := readSign r in
      let '(ev, ne, _) := readDigits 0 r1 in
      if ne =? 0 then 0 else if eneg then - ev else ev
  | _ => 0
  end.

Definition scanDecimalLiteral (s : string) : StrDecimalLiteral :=
  let '(neg, s2) := readSign (trimStart s) in
  if startsWith s2 "Infinity" then LitInfinity neg else
  let '(ip, ni, s3) := readDigits 0 s2 in
  let '(m, nf, s4) :=
    match s3 with
    | String "." r => readDigits ip r
    | _ => (ip, 0, s3)
    end in
  if ni + nf =? 0 then LitNone
  else LitDecimal neg m (readExponent s4 - nf).

Definition numberOfLiteral (l : StrDecimalLiteral) : number :=
  match l with
  | LitNone => NaN
  | LitInfinity neg => S754_infinity neg
  | LitDecimal neg m e10 => numberOfDecimal neg m e10
  end.

(** [parseFloat(s)].  Literals of more than 20 significant digits are
    rounded correctly, which the language allows and engines do. *)
Definition parseFloat (s : string) : number := numberOfLiteral (scanDecimalLiteral s).

Definition isNaN (x : number) : bool :=
  match x with S754_nan => true | _ => false end.

(** [Math.floor(x)] *)
Definition floor (x : number) : number :=
  match x with
  | S754_finite s m e =>
      if 0 <=? e then x
      else numberOfZ ((if s then Zneg m else Zpos m) / 2 ^ (- e))
  | _ => x
  end.

(** The exact value of a positive finite number [m * 2^e], as a fraction. *)
Definition fraction (m : positive) (e : Z) : Z * Z :=
  if 0 <=? e then (Zpos m * 2 ^ e, 1) else (Zpos m, 2 ^ (- e)).

(** The least [j >= from] with [p * 10^j >= q], searched for [fuel] steps. *)
Fixpoint leadingZeros (fuel : nat) (from p q : Z) : Z :=
  match fuel with
  | O => from
  | S fuel' => if q <=? p * 10 ^ from then from else leadingZeros fuel' (from + 1) p q
  end.

(** The [n] of [Number::toString]: [10^(n-1) <= p/q < 10^n]. *)
Definition decimalExponent (p q : Z) : Z :=
  if q <=? p
  then Z.of_nat (String.length (decimalOfN (Z.to_N (p / q))))
  else 1 - leadingZeros 400 1 p q.

(** The [s] and [n] of [Number::toString] for a given digit count [k], if
    any: [s] has [k] digits and [s * 10^(n-k)] is the number [x].  [n0] is
    the decimal exponent of the exact value [p/q] of [x]; a number just
    below a power of ten is also written with [n0 + 1].  Of two
    candidates the closest to [x] is taken, the even one on a tie. *)
Definition shortestAt (x : number) (p q n0 k : Z) : option (Z * Z) :=
  let '(num, den) :=
    if 0 <=? k - n0 then (p * 10 ^ (k - n0), q) else (p, q * 10 ^ (n0 - k)) in
  let lo := num / den in
  let r := num mod den in
  let hi := if lo + 1 =? 10 ^ k then (10 ^ (k - 1), n0 + 1) else (lo + 1, n0) in
  let ok (c : Z * Z) : bool :=
    (10 ^ (k - 1) <=? c.1) && (c.1 <? 10 ^ k) &&
    SFeqb (numberOfDecimal false c.1 (c.2 - k)) x in
  match ok (lo, n0), ok hi with
  | true, true =>
      Some (match 2 * r ?= den with
            | Lt => (lo, n0)
            | Gt => hi
            | Eq => if Z.even lo then (lo, n0) else hi
            end)
  | true, false => Some (lo, n0)
  | false, true => Some hi
  | false, false => None
  end.

Fixpoint shortestFrom (fuel : nat) (x : number) (p q n0 k : Z) : Z * Z * Z :=
  match fuel with
  | O => (p * 10 ^ (k - n0) / q, n0, k)
  | S fuel' =>
      match shortestAt x p q n0 k with
      | Some (s, n) => (s, n, k)
      | None => shortestFrom fuel' x p q n0 (k + 1)
      end
  end.

Fixpoint zeros (n : nat) : string :=
  match n with O => EmptyString | S n' => String "0" (zeros n') end.

Definition takeStr (n : Z) (s : string) : string := String.substring 0 (Z.to_nat n) s.
Definition dropStr (n : Z) (s : string) : string :=
  String.substring (Z.to_nat n) (String.length s - Z.to_nat n) s.

(** [Number::toString(x, 10)] for positive finite [x = m * 2^e]. *)
Definition positiveToString (m : positive) (e : Z) : string :=
  let '(p, q) := fraction m e in
  let '(s, n, k) := shortestFrom 17 (S754_finite false m e) p q (decimalExponent p q) 1 in
  let ds := decimalOfN (Z.to_N s) in
  if (k <=? n) && (n <=? 21) then ds +:+ zeros (Z.to_nat (n - k))
  else if (0 <? n) && (n <=? 21) then takeStr n ds +:+ "." +:+ dropStr n ds
  else if (-6 <? n) && (n <=? 0) then "0." +:+ zeros (Z.to_nat (- n)) +:+ ds
  else
    let ex := (if 0 <? n - 1 then "+" else "-") +:+ decimalOfN (Z.to_N (Z.abs (n - 1))) in
    if k =? 1 then ds +:+ "e" +:+ ex
    else takeStr 1 ds +:+ "." +:+ dropStr 1 ds +:+ "e" +:+ ex.

(** [x.toString()] *)
Definition numberToString (x : number) : string :=
  match x with
  | S754_nan => "NaN"
  | S754_zero _ => "0"
  | S754_infinity false => "Infinity"
  | S754_infinity true => "-Infinity"
  | S754_finite false m e => positiveToString m e
  | S754_finite true m e => "-" +:+ positiveToString m e
  end.

(** The digits of [n >= 0] with a decimal point before the last [f > 0]
    of them, padded with zeros to at least one integer digit. *)
Definition fixedPoint (f : Z) (n : Z) : string :=
  let ds := decimalOfN (Z.to_N n) in
  let k := Z.of_nat (String.length ds) in
  let ds := if k <=? f then zeros (Z.to_nat (f + 1 - k)) +:+ ds else ds in
  let k := Z.of_nat (String.length ds) in
  if f =? 0 then ds else takeStr (k - f) ds +:+ "." +:+ dropStr (k - f) ds.

(** [x.toFixed(f)] for [0 <= f <= 100]: the integer [n] nearest to
    [x * 10^f], the larger one on a tie, printed with [f] fraction digits. *)
Definition toFixed (f : Z) (x : number) : string :=
  match x with
  | S754_finite s m e =>
      let '(p, q) := fraction m e in
      if 10 ^ 21 * q <=? p then numberToString x else
      let n := (2 * p * 10 ^ f + q) / (2 * q) in
      (if s then "-" else "") +:+ fixedPoint f n
  | S754_zero _ => fixedPoint f 0
  | _ => numberToString x
  end.

(** [s.toLowerCase()] on the code units below 256. *)
Definition lowerChar (c : ascii) : ascii :=
  let n := code c in
  if ((65 <=? n) && (n <=? 90)) || ((192 <=? n) && (n <=? 222) && negb (n =? 215))
  then ascii_of_N (Z.to_N (n + 32)) else c.

Fixpoint toLowerCase (s : string) : string :=
  match s with
  | EmptyString => EmptyString
  | String c r => String (lowerChar c) (toLowerCase r)
  end.

(** ** [`${v}`] for a value parsed from JSON *)

(** The [TypeError] of converting an object with a [toString] property
    of its own: a parsed value is not callable, and
    [Object.prototype.valueOf] gives the object back. *)
Definition notPrimitiveError : Error :=
  mkError "TypeError" "Cannot convert object to primitive value".

(** An array is joined with commas, its [null] elements written as
    empty strings; an object is "[object Object]". *)
Fixpoint ToString (v : Json) : Error + string :=
  match v with
  | JNull => inr "null"
  | JBool b => inr (if b then "true" else "false")
  | JNum z => inr (numberToString (numberOfZ z))
  | JStr s => inr s
  | JArr items =>
      (fix join (items : list Json) : Error + string :=
         match items with
         | [] => inr ""
         | x :: rest =>
             match match x with JNull => inr "" | _ => ToString x end with
             | inl e => inl e
             | inr a =>
                 match rest with
                 | [] => inr a
                 | _ => match join rest with
                        | inl e => inl e
                        | inr b => inr (a +:+ "," +:+ b)
                        end
                 end
             end
         end) items
  | JObj fields =>
      match assoc "toString" fields with
      | Some _ => inl notPrimitiveError
      | None => inr "[object Object]"
      end
  end.

(** ** Property reads on plain objects *)

(** The own property names of [Object.prototype].  An object written as
    a literal or produced by [JSON.parse] inherits them, so a read
    [obj[key]] with one of these keys finds a value although [obj] has no
    such property of its own. *)
Definition objectPrototype : list string :=
  [ "constructor"; "__defineGetter__"; "__defineSetter__"; "hasOwnProperty";
    "__lookupGetter__"; "__lookupSetter__"; "isPrototypeOf";
    "propertyIsEnumerable"; "toString"; "valueOf"; "__proto__";
    "toLocaleString" ].

(** [key in Object.prototype] *)
Definition inherited (key : string) : bool := bool_decide (key ∈ objectPrototype).

(** What [obj[key]] yields on an object whose own properties hold
    strings: such a string, or the member of [Object.prototype] named
    [key].  That member is a function, except for ["__proto__"], which
    reads as [Object.prototype] itself. *)
Inductive Value :=
| Str (s : string)
| Member (key : string).

#[global] Instance Value_eq_dec : EqDecision Value.
Proof. solve_decision. Defined.

(** [obj[key]]: an own property first, then the prototype chain. *)
Definition get (obj : gmap string string) (key : string) : option Value :=
  match obj !! key with
  | Some s => Some (Str s)
  | None => if inherited key then Some (Member key) else None
  end.

(** Truthiness of such a read: [undefined] and [""] are falsy, functions
    and objects are truthy. *)
Definition truthyValue (o : option Value) : option Value :=
  match o with
  | Some (Str EmptyString) => None
  | _ => o
  end.

(** [o === s] for a string constant [s]. *)
Definition strictEq (o : option Value) (s : string) : bool :=
  match o with
  | Some (Str t) => String.eqb t s
  | _ => false
  end.

(** [BigInt(v)]: a function or [Object.prototype] is first converted to
    a string (its source text, or "[object Object]"), which is no integer
    literal, so the conversion throws. *)
Definition ValueToBigInt (v : Value) : option Z :=
  match v with
  | Str s => StringToBigInt s
  | Member _ => None
  end.

(** What [JSON.stringify] makes of a property holding [v]: a function is
    left out, [Object.prototype] has no enumerable property and is
    written as an empty object. *)
Definition property (name : string) (v : Value) : list (string * Json) :=
  match v with
  | Str s => [ (name, JStr s) ]
  | Member key => if String.eqb key "__proto__" then [ (name, JObj []) ] else []
  end.

End JS.

(** A string is used where a property read is expected. *)
Coercion JS.Str : string >-> JS.Value.

(* ===================================================================== *)
(** * [PaywallGuard] (src/paywall-guard.ts)                               *)
(* ===================================================================== *)

Module PaywallGuard.

(** [PaywallPricingSchema], [PaywallConfigSchema] and the part of
    [McpServerConfigSchema] the guard reads (src/types.ts). *)
Record PaywallPricing := mkPaywallPricing {
  defaultPriceMicroUSDC : option string;
  perTool : option (gmap string string);
  perResource : option (gmap string string);
  perPrompt : option (gmap string string)
}.

Record PaywallConfig := mkPaywallConfig {
  enabled : bool;
  maxValueMicroUSDC : option string;
  pricing : PaywallPricing
}.

Record McpServerConfig := mkMcpServerConfig {
  name : string;
  paywall : option PaywallConfig
}.

Inductive Kind := tool | resource | prompt.

(** [config.paywall?.enabled === true] *)
Definition isPaywallEnabled (config : McpServerConfig) : bool :=
  match paywall config with
  | Some pw => enabled pw
  | None => false
  end.

(** The [switch (kind)] of [getRequiredPriceMicroUSDC]:
    [pricing.perTool?.[id]] and its two siblings. *)
Definition specificPrice (kind : Kind) (id : string) (pr : PaywallPricing)
  : option JS.Value :=
  match kind with
  | tool => perTool pr ≫= (fun prices => JS.get prices id)
  | resource => perResource pr ≫= (fun prices => JS.get prices id)
  | prompt => perPrompt pr ≫= (fun prices => JS.get prices id)
  end.

(** Price in micro-USDC, or [None] ([null]) if free. *)
Definition getRequiredPriceMicroUSDC (kind : Kind) (id : string)
    (config : McpServerConfig) : option Z :=
  if negb (isPaywallEnabled config) then None else
  match paywall config with
  | None => None
  | Some pw =>
      let pricing := pricing pw in
      let priceStr := specificPrice kind id pricing in
      (* if (!priceStr) priceStr = pricing.defaultPriceMicroUSDC *)
      let priceStr :=
        match JS.truthyValue priceStr with
        | Some v => Some v
        | None => JS.Str <$> defaultPriceMicroUSDC pricing
        end in
      (* if (!priceStr) return null *)
      match JS.truthyValue priceStr with
      | None => None
      | Some v =>
          (* try { BigInt(priceStr) } catch { return null } *)
          match JS.ValueToBigInt v with
          | Some price => if 0 <? price then Some price else None
          | None => None
          end
      end
  end.

(** [PaywallSession] (src/types.ts); [expiresAt] in epoch milliseconds,
    a receipt by its amount. *)
Record PaywallSession := mkPaywallSession {
  sessionId : string;
  authorizedAmount : Z;
  remainingBalance : Z;
  receipts : list Z;
  expiresAt : Z
}.

Definition setRemainingBalance (b : Z) (s : PaywallSession) : PaywallSession :=
  {| sessionId := sessionId s;
     authorizedAmount := authorizedAmount s;
     remainingBalance := b;
     receipts := receipts s;
     expiresAt := expiresAt s |}.

(** [deductFromSession]: the returned boolean and the [sessions] map after
    the call.  The session object is mutated in place, so the map entry
    under [sessionId] sees the new balance. *)
Definition deductFromSession (sessions : gmap string PaywallSession)
    (sessionId : string) (amount : Z) : bool * gmap string PaywallSession :=
  if amount <=? 0 then (true, sessions) else
  match sessions !! sessionId with
  | None => (false, sessions)
  | Some session =>
      if remainingBalance session <? amount then (false, sessions)
      else (true, <[sessionId := setRemainingBalance
                                   (remainingBalance session - amount) session]>
                    sessions)
  end.

(** ** Limits, sessions and their expiry

    The [stats] counters, which only [getStats] reads, are left out: the
    state of a guard is its [sessions] map. *)

Definition DEFAULT_MAX : Z := 100000.

(** [getMaxValueMicroUSDC] *)
Definition getMaxValueMicroUSDC (config : McpServerConfig) : Z :=
  if negb (isPaywallEnabled config) then DEFAULT_MAX else
  match paywall config with
  | None => DEFAULT_MAX
  | Some pw =>
      match JS.truthy (maxValueMicroUSDC pw) with
      | None => DEFAULT_MAX
      | Some maxValueStr =>
          match JS.StringToBigInt maxValueStr with
          | Some parsed => if 0 <? parsed then parsed else DEFAULT_MAX
          | None => DEFAULT_MAX
          end
      end
  end.

(** [VerifiedPaymentReceipt] (src/types.ts); [timestamp] in epoch milliseconds. *)
Record VerifiedPaymentReceipt := mkReceipt {
  paymentId : string;
  amount : Z;
  network : string;
  recipient : string;
  timestamp : Z;
  txHash : option string
}.

(** [24 * 60 * 60 * 1000] *)
Definition DAY : Z := 24 * 60 * 60 * 1000.

(** [isSessionAuthorized] at the time [now = new Date()]: the answer and the
    sessions after the call (an expired session is deleted). *)
Definition isSessionAuthorized (now : Z) (sessions : gmap string PaywallSession)
    (sessionId : string) (price : Z) : bool * gmap string PaywallSession :=
  if price <=? 0 then (true, sessions) else
  match sessions !! sessionId with
  | None => (false, sessions)
  | Some session =>
      if expiresAt session <? now then (false, delete sessionId sessions)
      else (price <=? remainingBalance session, sessions)
  end.

(** The session [recordAuthorization] creates when there is none. *)
Definition newSession (now : Z) (id : string) (receipt : VerifiedPaymentReceipt)
  : PaywallSession :=
  {| sessionId := id;
     authorizedAmount := amount receipt;
     remainingBalance := amount receipt;
     receipts := [amount receipt];
     expiresAt := now + DAY |}.

(** The in-place update [recordAuthorization] makes to an existing session. *)
Definition creditSession (now : Z) (session : PaywallSession)
    (receipt : VerifiedPaymentReceipt) : PaywallSession :=
  {| sessionId := sessionId session;
     authorizedAmount := authorizedAmount session + amount receipt;
     remainingBalance := remainingBalance session + amount receipt;
     receipts := receipts session ++ [amount receipt];
     expiresAt := now + DAY |}.

(** [recordAuthorization] at the time [now = Date.now()]: the sessions after
    the call.  [used] is the parameter the source calls [amount]. *)
Definition recordAuthorization (now : Z) (sessions : gmap string PaywallSession)
    (sessionId : string) (receipt : VerifiedPaymentReceipt) (used : Z)
  : gmap string PaywallSession :=
  let session :=
    match sessions !! sessionId with
    | None => newSession now sessionId receipt
    | Some session => creditSession now session receipt
    end in
  let session :=
    if 0 <? used
    then setRemainingBalance (remainingBalance session - used) session
    else session in
  <[sessionId := session]> sessions.

(** [getSessionBalance] at the time [now]. *)
Definition getSessionBalance (now : Z) (sessions : gmap string PaywallSession)
    (sessionId : string) : Z :=
  match sessions !! sessionId with
  | None => 0
  | Some session => if expiresAt session <? now then 0 else remainingBalance session
  end.

(** [cleanupExpiredSessions] at the time [now]: the sessions left. *)
Definition cleanupExpiredSessions (now : Z) (sessions : gmap string PaywallSession)
  : gmap string PaywallSession :=
  filter (fun kv => ~ (expiresAt kv.2 < now)) sessions.

(** The receipt [verifyX402Payment] builds from the values [crypto] draws
    ([uuid], 32 random bytes in hex) and the time [now]: the payment data
    is logged, not inspected. *)
Definition verifyX402Payment (uuid randomHex : string) (now : Z)
    (paymentData : JS.Json) (expectedAmount : Z) (network recipient : string)
  : VerifiedPaymentReceipt :=
  {| paymentId := uuid;
     amount := expectedAmount;
     network := network;
     recipient := recipient;
     timestamp := now;
     txHash := Some ("0x" +:+ randomHex) |}.

(** The calls that change the sessions of a guard. *)
Inductive Call :=
| CallIsSessionAuthorized (now : Z) (sessionId : string) (price : Z)
| CallRecordAuthorization (now : Z) (sessionId : string)
    (receipt : VerifiedPaymentReceipt) (used : Z)
| CallDeductFromSession (sessionId : string) (amount : Z)
| CallCleanupExpiredSessions (now : Z).

Definition perform (sessions : gmap string PaywallSession) (c : Call)
  : gmap string PaywallSession :=
  match c with
  | CallIsSessionAuthorized now id price => (isSessionAuthorized now sessions id price).2
  | CallRecordAuthorization now id receipt used =>
      recordAuthorization now sessions id receipt used
  | CallDeductFromSession id amount => (deductFromSession sessions id amount).2
  | CallCleanupExpiredSessions now => cleanupExpiredSessions now sessions
  end.

(** The sessions of a new guard after a sequence of calls. *)
Definition after (calls : list Call) : gmap string PaywallSession :=
  foldl perform ∅ calls.

Definition sumZ (l : list Z) : Z := fold_right Z.add 0 l.

(** What holds of every session of a guard. *)
Definition wellFormed (sessions : gmap string PaywallSession) : Prop :=
  forall sid s, sessions !! sid = Some s ->
    sessionId s = sid
    /\ remainingBalance s <= authorizedAmount s
    /\ authorizedAmount s = sumZ (receipts s).

End PaywallGuard.


(* ===================================================================== *)
(** * Gateway configuration read by the payment middleware               *)
(* ===================================================================== *)

Module Config.

(** Modelled from the spec: the pricing descriptor [ToolPricing] of
    src/types/index.ts, whose declaration is not among the sources; the
    fields are the ones the middleware reads ([free], [x402], [apiKeyTiers]). *)
Record ToolPricing := mkToolPricing {
  free : bool;
  x402 : option string;
  apiKeyTiers : option (gmap string string)
}.

(** Modelled from the spec: one entry of [payment.apiKeys] ([ApiKeyConfig]). *)
Record ApiKeyConfig := mkApiKeyConfig {
  key : string;
  tier : string;
  rateLimit : option Z
}.

(** Modelled from the spec: the gateway-wide payment policy [config.payment]. *)
Record PaymentConfig := mkPaymentConfig {
  enabled : bool;
  recipient : option string;
  network : option string;
  facilitator : option string;
  apiKeys : option (list ApiKeyConfig);
  outboundWallet : option string
}.

Inductive PaymentMode := passthrough | markup | absorb.

(** Modelled from the spec: an entry of [server.tools]. *)
Record ToolConfig := mkToolConfig {
  tool_name : string;
  tool_pricing : option ToolPricing
}.

(** Modelled from the spec: the payment fields of a [servers] entry. *)
Record ServerConfig := mkServerConfig {
  name : string;
  tools : option (list ToolConfig);
  defaultPricing : option ToolPricing;
  paymentMode : option PaymentMode
}.

(** Modelled from the spec: the fields of [GatewayConfig] the middleware reads. *)
Record GatewayConfig := mkGatewayConfig {
  payment : option PaymentConfig;
  servers : list ServerConfig
}.

End Config.

(* ===================================================================== *)
(** * [PaymentMiddleware] (src/core/payment-middleware.ts)                *)
(* ===================================================================== *)

Module PaymentMiddleware.
Import Config.

Inductive Method := method_x402 | method_apiKey | method_free.

(** [amount] is declared a string; [verifyApiKey] fills it with what it
    read from [apiKeyTiers]. *)
Record Pricing := mkPricing { amount : JS.Value; method : Method }.

Record PaymentVerificationResult := mkResult {
  authorized : bool;
  error : option string;
  pricing : option Pricing
}.

Record Accept := mkAccept {
  scheme : string;
  network : string;
  maxAmountRequired : string;
  resource : string;
  description : string;
  mimeType : option string;
  payTo : string;
  maxTimeoutSeconds : Z;
  asset : JS.Value        (* declared a string; read from [USDC_ADDRESSES] *)
}.

Record PaymentRequirements := mkPaymentRequirements {
  x402Version : Z;
  accepts : list Accept;
  requirementsError : option string
}.

(** ** The facilitator round trip

    [await fetch(url, { method: 'POST', body })] suspends the caller until
    the environment answers; a computation is either finished or waiting
    on one such request. *)
Record FetchRequest := mkFetchRequest { url : string; requestBody : JS.Json }.

Record Response := mkResponse {
  ok : bool;
  status : Z;
  statusText : string;
  json : JS.Error + JS.Json        (* [await response.json()] *)
}.

Inductive Async (A : Type) :=
| Return (a : A)
| Fetch (req : FetchRequest) (k : JS.Error + Response -> Async A).
Arguments Return {A} a.
Arguments Fetch {A} req k.

Fixpoint bind {A B} (m : Async A) (f : A -> Async B) : Async B :=
  match m with
  | Return a => f a
  | Fetch req k => Fetch req (fun r => bind (k r) f)
  end.

(** The facilitator requests a computation issues when the environment
    answers each with [env]. *)
Fixpoint requests {A} (env : FetchRequest -> JS.Error + Response) (m : Async A)
  : list FetchRequest :=
  match m with
  | Return _ => []
  | Fetch req k => req :: requests env (k (env req))
  end.

Fixpoint run {A} (env : FetchRequest -> JS.Error + Response) (m : Async A) : A :=
  match m with
  | Return a => a
  | Fetch req k => run env (k (env req))
  end.

(** ** The class *)

Definition USDC_ADDRESSES : gmap string string :=
  list_to_map
    [ ("base-sepolia", "0x036CbD53842c5426634e7929541eC2318f3dCF7e");
      ("base", "0x833589fCD6eDb6E08f4c7C32D4f71b54bdA02913");
      ("ethereum", "0xA0b86991c6218b36c1d19D4a2e9Eb0cE3606eB48");
      ("optimism", "0x0b2C639c533813f4Aa9D7837CAf62653d097Ff85");
      ("polygon", "0x3c499c542cEF5E3811e1192ce70d8cC03d5c3359") ].

(** The [apiKeyCache] the constructor fills: a later entry with the same
    key replaces an earlier one. *)
Definition apiKeyCache (config : GatewayConfig) : gmap string ApiKeyConfig :=
  match payment config ≫= apiKeys with
  | Some ks => foldl (fun m kc => <[key kc := kc]> m) ∅ ks
  | None => ∅
  end.

(** [this.config.payment?.enabled] *)
Definition paymentEnabled (config : GatewayConfig) : bool :=
  match payment config with
  | Some p => enabled p
  | None => false
  end.

Definition getToolPricing (config : GatewayConfig) (toolName serverId : string)
  : option ToolPricing :=
  match List.find (fun s => String.eqb (name s) serverId) (servers config) with
  | None => None
  | Some serverConfig =>
      let toolConfig :=
        tools serverConfig ≫= List.find (fun t => String.eqb (tool_name t) toolName) in
      match toolConfig ≫= tool_pricing with
      | Some p => Some p
      | None => defaultPricing serverConfig
      end
  end.

Definition parseAmountToAtomicUnits (amount : string) : string :=
  let cleanAmount := JS.stripNonNumeric amount in
  let value := JS.parseFloat cleanAmount in
  if JS.isNaN value then "10000"
  else
    let atomicUnits := JS.floor (JS.mul value (JS.numberOfZ 1000000)) in
    JS.numberToString atomicUnits.

(** [USDC_ADDRESSES[network] || USDC_ADDRESSES['base-sepolia']!].  The
    table is an object literal, so the first read goes through the
    prototype chain; the second finds the table's own entry. *)
Definition getUsdcAddress (network : string) : JS.Value :=
  match JS.truthyValue (JS.get USDC_ADDRESSES network) with
  | Some address => address
  | None => default (JS.Str "") (JS.get USDC_ADDRESSES "base-sepolia")
  end.

(** [this.config.payment?.network || 'base-sepolia'] *)
Definition paymentNetwork (config : GatewayConfig) : string :=
  default "base-sepolia" (JS.truthy (payment config ≫= Config.network)).

Definition generatePaymentRequiredResponse (config : GatewayConfig)
    (toolName serverId : string) : PaymentRequirements :=
  let pricing := getToolPricing config toolName serverId in
  let amount := default "$0.01" (JS.truthy (pricing ≫= x402)) in
  let network := paymentNetwork config in
  {| x402Version := 1;
     accepts :=
       [ {| scheme := "exact";
            network := network;
            maxAmountRequired := parseAmountToAtomicUnits amount;
            resource := "/tools/" +:+ toolName;
            description := "Payment for MCP tool: " +:+ toolName;
            mimeType := Some "application/json";
            payTo := default "" (JS.truthy (payment config ≫= recipient));
            maxTimeoutSeconds := 30;
            asset := getUsdcAddress network |} ];
     requirementsError :=
       Some ("Payment required for tool '" +:+ toolName +:+ "'. Amount: " +:+ amount
             +:+ ". Use X-PAYMENT header (x402) or X-ELIZA-API-KEY.") |}.

(** The header expression of [verifyApiKey]:
    [headers['x-eliza-api-key'] || headers['X-ELIZA-API-KEY'] ||
     headers['authorization']?.replace('Bearer ', '') ||
     headers['Authorization']?.replace('Bearer ', '')], tested with [!apiKey]. *)
Definition apiKeyOfHeaders (headers : gmap string string) : option string :=
  JS.truthy
    (JS.or_else (headers !! "x-eliza-api-key")
       (JS.or_else (headers !! "X-ELIZA-API-KEY")
          (JS.or_else (JS.replace "Bearer " "" <$> headers !! "authorization")
             (JS.replace "Bearer " "" <$> headers !! "Authorization")))).

Definition unauthorized : PaymentVerificationResult :=
  {| authorized := false; error := None; pricing := None |}.

Definition verifyApiKey (config : GatewayConfig)
    (headers : option (gmap string string)) (pricing : option ToolPricing)
  : PaymentVerificationResult :=
  match headers, pricing with
  | Some headers, Some pricing =>
      match apiKeyOfHeaders headers with
      | None => unauthorized
      | Some apiKey =>
          match apiKeyCache config !! apiKey with
          | None => {| authorized := false; error := Some "Invalid API key"; pricing := None |}
          | Some keyConfig =>
              (* pricing.apiKeyTiers?.[keyConfig.tier] *)
              let tierPrice :=
                apiKeyTiers pricing ≫= (fun tiers => JS.get tiers (tier keyConfig)) in
              if JS.strictEq tierPrice "free" || JS.strictEq tierPrice "$0.00"
                 || JS.strictEq tierPrice "$0"
              then {| authorized := true; error := None;
                      pricing := Some {| amount := "0"; method := method_apiKey |} |}
              else
                (* if (tierPrice) *)
                match JS.truthyValue tierPrice with
                | Some tp => {| authorized := true; error := None;
                                pricing := Some {| amount := tp; method := method_apiKey |} |}
                | None => unauthorized
                end
          end
      end
  | _, _ => unauthorized
  end.

(** The header expression of [verifyX402Payment]:
    [headers['x-payment'] || headers['X-PAYMENT']], tested with [!paymentHeader]. *)
Definition paymentHeaderOf (headers : gmap string string) : option string :=
  JS.truthy (JS.or_else (headers !! "x-payment") (headers !! "X-PAYMENT")).

(** The [TypeError] of reading [verified] off a [null] response body. *)
Definition nullResultError : JS.Error :=
  JS.mkError "TypeError" "Cannot read properties of null (reading 'verified')".

Definition verificationFailed : PaymentVerificationResult :=
  {| authorized := false; error := Some "Payment verification failed"; pricing := None |}.

(** The [catch (error)] clause of [verifyX402Payment]. *)
Definition verificationError (e : JS.Error) : PaymentVerificationResult :=
  {| authorized := false;
     error := Some ("Payment verification error: " +:+ JS.errorToString e);
     pricing := None |}.

Section Verification.

(** [JSON.parse(Buffer.from(h, 'base64').toString('utf-8'))]: the decoded
    payment payload, or the error [JSON.parse] throws. *)
Variable decodePayment : string -> JS.Error + JS.Json.

Definition facilitatorRequest (config : GatewayConfig) (paymentData : JS.Json)
    (price : string) : FetchRequest :=
  let expectedAmount := parseAmountToAtomicUnits price in
  let facilitatorUrl :=
    default "https://x402.org/facilitator" (JS.truthy (payment config ≫= facilitator)) in
  {| url := facilitatorUrl +:+ "/verify";
     requestBody :=
       JS.JObj
         [ ("paymentPayload", paymentData);
           ("paymentRequirements",
            JS.JObj
              ([ ("scheme", JS.JStr "exact");
                 ("network", JS.JStr (paymentNetwork config));
                 ("maxAmountRequired", JS.JStr expectedAmount) ]
               ++ match payment config ≫= recipient with
                  | Some r => [ ("payTo", JS.JStr r) ]
                  | None => []
                  end
               ++ JS.property "asset" (getUsdcAddress (paymentNetwork config)))) ] |}.

Definition verifyX402Payment (config : GatewayConfig)
    (headers : option (gmap string string)) (pricing : option ToolPricing)
  : Async PaymentVerificationResult :=
  match headers, JS.truthy (pricing ≫= x402) with
  | Some headers, Some price =>
      match paymentHeaderOf headers with
      | None => Return unauthorized
      | Some paymentHeader =>
          match decodePayment paymentHeader with
          | inl e => Return (verificationError e)
          | inr paymentData =>
              Fetch (facilitatorRequest config paymentData price)
                (fun answer =>
                   Return
                     match answer with
                     | inl e => verificationError e
                     | inr response =>
                         if negb (ok response) then verificationFailed
                         else
                           match json response with
                           | inl e => verificationError e
                           | inr JS.JNull => verificationError nullResultError
                           | inr result =>
                               match JS.field "verified" result with
                               | Some (JS.JBool true) =>
                                   {| authorized := true; error := None;
                                      pricing := Some {| amount := price;
                                                         method := method_x402 |} |}
                               | _ => verificationFailed
                               end
                           end
                     end)
          end
      end
  | _, _ => Return unauthorized
  end.

Definition freeAccess : PaymentVerificationResult :=
  {| authorized := true; error := None;
     pricing := Some {| amount := "0"; method := method_free |} |}.

(** The "No valid payment found" result of [verifyPayment]. *)
Definition paymentRequired (pricing : ToolPricing) : PaymentVerificationResult :=
  let amount := default "$0.01" (JS.truthy (x402 pricing)) in
  {| authorized := false;
     error := Some ("Payment required: " +:+ amount
                    +:+ ". Provide X-PAYMENT header (x402) or X-ELIZA-API-KEY.");
     pricing := Some {| amount := amount; method := method_x402 |} |}.

Definition verifyPayment (config : GatewayConfig) (toolName serverId : string)
    (headers : option (gmap string string)) : Async PaymentVerificationResult :=
  if negb (paymentEnabled config) then Return freeAccess else
  match getToolPricing config toolName serverId with
  | None => Return freeAccess
  | Some pricing =>
      if free pricing then Return freeAccess else
      let apiKeyResult := verifyApiKey config headers (Some pricing) in
      if authorized apiKeyResult then Return apiKeyResult else
      bind (verifyX402Payment config headers (Some pricing))
        (fun x402Result =>
           if authorized x402Result then Return x402Result
           else Return (paymentRequired pricing))
  end.

End Verification.

Definition getServerPaymentMode (config : GatewayConfig) (serverId : string)
  : option PaymentMode :=
  List.find (fun s => String.eqb (name s) serverId) (servers config) ≫= paymentMode.

Definition calculateMarkup (downstreamPrice markup : string) : string :=
  let downstreamValue := JS.parseFloat (JS.stripNonNumeric downstreamPrice) in
  if JS.includesChar "%" markup then
    let percentage := JS.parseFloat (JS.replace "%" "" markup) in
    let markupValue := JS.mul downstreamValue (JS.div percentage (JS.numberOfZ 100)) in
    "$" +:+ JS.toFixed 6 (JS.add downstreamValue markupValue)
  else
    let markupValue := JS.parseFloat (JS.stripNonNumeric markup) in
    "$" +:+ JS.toFixed 6 (JS.add downstreamValue markupValue).

(** [if (headers[k]) paymentHeaders[k] = headers[k]] *)
Definition forward (k : string) (headers paymentHeaders : gmap string string)
  : gmap string string :=
  match JS.truthy (headers !! k) with
  | Some v => <[k := v]> paymentHeaders
  | None => paymentHeaders
  end.

Definition extractPaymentHeaders (headers : option (gmap string string))
  : gmap string string :=
  match headers with
  | None => ∅
  | Some headers =>
      let paymentHeaders : gmap string string := ∅ in
      let paymentHeaders := forward "x-payment" headers paymentHeaders in
      let paymentHeaders := forward "X-Payment" headers paymentHeaders in
      let paymentHeaders := forward "x-eliza-api-key" headers paymentHeaders in
      let paymentHeaders := forward "X-ELIZA-API-KEY" headers paymentHeaders in
      let paymentHeaders := forward "authorization" headers paymentHeaders in
      let paymentHeaders := forward "Authorization" headers paymentHeaders in
      paymentHeaders
  end.

(** The header recognition as section 6 of the specification words it:
    whatever the casing of the three header names, the API-key check and
    the x402 check find the header, and it is forwarded under the name
    the client used. *)
Definition headersCaseInsensitive : Prop :=
  forall (headers : gmap string string) (k v : string),
    headers !! k = Some v -> v <> "" ->
    (JS.toLowerCase k = "x-eliza-api-key" \/ JS.toLowerCase k = "authorization" ->
       is_Some (apiKeyOfHeaders headers)
       /\ extractPaymentHeaders (Some headers) !! k = Some v)
    /\ (JS.toLowerCase k = "x-payment" ->
         is_Some (paymentHeaderOf headers)
         /\ extractPaymentHeaders (Some headers) !! k = Some v).

End PaymentMiddleware.

(* ===================================================================== *)
(** * [GatewayServer] (src/core/gateway.ts): the CallTool handler         *)
(* ===================================================================== *)

Module GatewayServer.

(** [AggregatedTool] and [ServerConnection] (src/types/index.ts). *)
Record AggregatedTool := mkAggregatedTool {
  name : string;
  originalName : string;
  serverId : string;
  namespace : option string;
  description : option string;
  inputSchema : JS.Json
}.

Inductive Status := connecting | connected | disconnected | error.

(** The upstream MCP client, by its [callTool({ name, arguments })]: the
    response, or the error the call rejects with. *)
Record Client := mkClient {
  callTool : string -> JS.Json -> JS.Error + JS.Json
}.

Record ServerConnection := mkServerConnection {
  client : option Client;
  status : Status
}.

(** [ErrorCode] and [McpError] of the MCP SDK, by the constructor arguments. *)
Inductive ErrorCode := MethodNotFound | InternalError.

Record McpError := mkMcpError { code : ErrorCode; message : string }.

Definition Status_eqb (a b : Status) : bool :=
  match a, b with
  | connecting, connecting | connected, connected
  | disconnected, disconnected | error, error => true
  | _, _ => false
  end.

(** The [TypeError] of calling [callTool] on a [null] client. *)
Definition nullClientError : JS.Error :=
  JS.mkError "TypeError" "Cannot read properties of null (reading 'callTool')".

Section Handlers.

(** [this.registry.findTool] and [this.serverManager.getConnection]. *)
Variable findTool : string -> option AggregatedTool.
Variable getConnection : string -> option ServerConnection.

(** The handler registered for [CallToolRequestSchema]: the response it
    resolves with, or the [McpError] it throws.  [args] is
    [request.params.arguments], an object when present. *)
Definition callToolHandler (name : string) (args : option (list (string * JS.Json)))
  : McpError + JS.Json :=
  match findTool name with
  | None => inl {| code := MethodNotFound; message := "Tool '" +:+ name +:+ "' not found" |}
  | Some tool =>
      let notConnected :=
        inl {| code := InternalError;
               message := "Server '" +:+ serverId tool +:+ "' is not connected" |} in
      match getConnection (serverId tool) with
      | None => notConnected
      | Some connection =>
          if negb (Status_eqb (status connection) connected) then notConnected
          else
            let outcome :=
              match client connection with
              | Some c => callTool c (originalName tool) (JS.JObj (default [] args))
              | None => inl nullClientError
              end in
            match outcome with
            | inr response => inr response
            | inl e =>
                inl {| code := InternalError;
                       message := "Tool execution failed: " +:+ JS.errorToString e |}
            end
      end
  end.

End Handlers.

(** The handler registered for [ListToolsRequestSchema], given
    [this.registry.getTools()]. *)
Definition listedTool (tool : AggregatedTool) : JS.Json :=
  JS.JObj
    [ ("name", JS.JStr (name tool));
      ("description",
       JS.JStr (default
                  ("Tool from " +:+ serverId tool
                   +:+ match JS.truthy (namespace tool) with
                       | Some ns => " (" +:+ ns +:+ ")"
                       | None => ""
                       end)
                  (JS.truthy (description tool))));
      ("inputSchema", inputSchema tool) ].

Definition listToolsHandler (tools : list AggregatedTool) : JS.Json :=
  JS.JObj [ ("tools", JS.JArr (map listedTool tools)) ].

End GatewayServer.

(** ** Resources *)

Module Resources.

(** [AggregatedResource] (src/types/index.ts) *)
Record AggregatedResource := mkAggregatedResource {
  uri : string;
  originalUri : string;
  serverId : string;
  namespace : option string;
  name : option string;
  description : option string;
  mimeType : option string
}.

(** The upstream MCP client, by its [readResource({ uri })]. *)
Record Client := mkClient {
  readResource : string -> JS.Error + JS.Json
}.

Record ServerConnection := mkServerConnection {
  client : option Client;
  status : GatewayServer.Status
}.

(** The [TypeError] of calling [readResource] on a [null] client. *)
Definition nullClientError : JS.Error :=
  JS.mkError "TypeError" "Cannot read properties of null (reading 'readResource')".

(** An entry of the [ListResourcesRequestSchema] answer; an undefined
    [mimeType] leaves no property. *)
Definition listedResource (resource : AggregatedResource) : JS.Json :=
  JS.JObj
    ([ ("uri", JS.JStr (uri resource));
       ("name", JS.JStr (default (originalUri resource) (JS.truthy (name resource))));
       ("description",
        JS.JStr (default
                   ("Resource from " +:+ serverId resource
                    +:+ match JS.truthy (namespace resource) with
                        | Some ns => " (" +:+ ns +:+ ")"
                        | None => ""
                        end)
                   (JS.truthy (description resource)))) ]
     ++ match mimeType resource with
        | Some m => [ ("mimeType", JS.JStr m) ]
        | None => []
        end).

Definition listResourcesHandler (resources : list AggregatedResource) : JS.Json :=
  JS.JObj [ ("resources", JS.JArr (map listedResource resources)) ].

Section Handlers.

(** [this.registry.findResource] and [this.serverManager.getConnection]. *)
Variable findResource : string -> option AggregatedResource.
Variable getConnection : string -> option ServerConnection.

(** The handler registered for [ReadResourceRequestSchema]. *)
Definition readResourceHandler (uri : string) : GatewayServer.McpError + JS.Json :=
  match findResource uri with
  | None =>
      inl {| GatewayServer.code := GatewayServer.MethodNotFound;
             GatewayServer.message := "Resource '" +:+ uri +:+ "' not found" |}
  | Some resource =>
      let notConnected :=
        inl {| GatewayServer.code := GatewayServer.InternalError;
               GatewayServer.message :=
                 "Server '" +:+ serverId resource +:+ "' is not connected" |} in
      match getConnection (serverId resource) with
      | None => notConnected
      | Some connection =>
          if negb (GatewayServer.Status_eqb (status connection) GatewayServer.connected)
          then notConnected
          else
            let outcome :=
              match client connection with
              | Some c => readResource c (originalUri resource)
              | None => inl nullClientError
              end in
            match outcome with
            | inr response => inr response
            | inl e =>
                inl {| GatewayServer.code := GatewayServer.InternalError;
                       GatewayServer.message :=
                         "Resource read failed: " +:+ JS.errorToString e |}
            end
      end
  end.

End Handlers.

End Resources.

(** ** Prompts *)

Module Prompts.

(** [AggregatedPrompt] (src/types/index.ts); [arguments] as a JSON array. *)
Record AggregatedPrompt := mkAggregatedPrompt {
  name : string;
  originalName : string;
  serverId : string;
  namespace : option string;
  description : option string;
  arguments : option JS.Json
}.

(** The upstream MCP client, by its [getPrompt({ name, arguments })]. *)
Record Client := mkClient {
  getPrompt : string -> JS.Json -> JS.Error + JS.Json
}.

Record ServerConnection := mkServerConnection {
  client : option Client;
  status : GatewayServer.Status
}.

(** The [TypeError] of calling [getPrompt] on a [null] client. *)
Definition nullClientError : JS.Error :=
  JS.mkError "TypeError" "Cannot read properties of null (reading 'getPrompt')".

(** An entry of the [ListPromptsRequestSchema] answer; undefined
    [arguments] leave no property. *)
Definition listedPrompt (prompt : AggregatedPrompt) : JS.Json :=
  JS.JObj
    ([ ("name", JS.JStr (name prompt));
       ("description",
        JS.JStr (default
                   ("Prompt from " +:+ serverId prompt
                    +:+ match JS.truthy (namespace prompt) with
                        | Some ns => " (" +:+ ns +:+ ")"
                        | None => ""
                        end)
                   (JS.truthy (description prompt)))) ]
     ++ match arguments prompt with
        | Some a => [ ("arguments", a) ]
        | None => []
        end).

Definition listPromptsHandler (prompts : list AggregatedPrompt) : JS.Json :=
  JS.JObj [ ("prompts", JS.JArr (map listedPrompt prompts)) ].

Section Handlers.

(** [this.registry.findPrompt] and [this.serverManager.getConnection]. *)
Variable findPrompt : string -> option AggregatedPrompt.
Variable getConnection : string -> option ServerConnection.

(** The handler registered for [GetPromptRequestSchema]. *)
Definition getPromptHandler (name : string) (args : option (list (string * JS.Json)))
  : GatewayServer.McpError + JS.Json :=
  match findPrompt name with
  | None =>
      inl {| GatewayServer.code := GatewayServer.MethodNotFound;
             GatewayServer.message := "Prompt '" +:+ name +:+ "' not found" |}
  | Some prompt =>
      let notConnected :=
        inl {| GatewayServer.code := GatewayServer.InternalError;
               GatewayServer.message :=
                 "Server '" +:+ serverId prompt +:+ "' is not connected" |} in
      match getConnection (serverId prompt) with
      | None => notConnected
      | Some connection =>
          if negb (GatewayServer.Status_eqb (status connection) GatewayServer.connected)
          then notConnected
          else
            let outcome :=
              match client connection with
              | Some c => getPrompt c (originalName prompt) (JS.JObj (default [] args))
              | None => inl nullClientError
              end in
            match outcome with
            | inr response => inr response
            | inl e =>
                inl {| GatewayServer.code := GatewayServer.InternalError;
                       GatewayServer.message :=
                         "Prompt get failed: " +:+ JS.errorToString e |}
            end
      end
  end.

End Handlers.

End Prompts.

(* ===================================================================== *)
(** * [GatewayHttpServer]: the HTTP front-end                             *)
(* ===================================================================== *)

Module GatewayHttpServer.

Record HttpServerConfig := mkHttpServerConfig {
  port : Z;
  host : option string;
  corsEnabled : bool
}.

(** [class PaymentRequiredError extends Error] *)
Record PaymentRequiredError := mkPaymentRequiredError {
  network : string;
  token : string;
  amountMicroUSDC : string;
  recipient : string;
  nonce : string;
  howToPayUrl : string
}.

(** What a route handler can throw. *)
Inductive Thrown :=
| ThrowPaymentRequired (e : PaymentRequiredError)
| ThrowOther (e : JS.Error).

(** What is written to the [ServerResponse]: the status and headers of
    [writeHead] merged with the earlier [setHeader] calls, and the value
    whose [JSON.stringify] is passed to [end]. *)
Record HttpResponse := mkHttpResponse {
  statusCode : Z;
  headers : gmap string string;
  body : option JS.Json
}.

Definition corsHeaders (config : HttpServerConfig) : gmap string string :=
  if corsEnabled config
  then list_to_map
         [ ("Access-Control-Allow-Origin", "*");
           ("Access-Control-Allow-Methods", "GET, POST, OPTIONS");
           ("Access-Control-Allow-Headers", "Content-Type, Authorization, X-Payment") ]
  else ∅.

Definition jsonHeaders : gmap string string :=
  {[ "Content-Type" := "application/json" ]}.

(** The [catch (error)] clause of [handleRequest]. *)
Definition respondToError (error : Thrown) : HttpResponse :=
  match error with
  | ThrowPaymentRequired error =>
      {| statusCode := 402;
         headers :=
           list_to_map
             [ ("Content-Type", "application/json");
               ("X-Payment-Required", "true");
               ("X-Payment-Network", network error);
               ("X-Payment-Token", token error);
               ("X-Payment-Amount", amountMicroUSDC error);
               ("X-Payment-Recipient", recipient error) ];
         body :=
           Some (JS.JObj
             [ ("error", JS.JStr "Payment Required");
               ("paymentRequired", JS.JBool true);
               ("network", JS.JStr (network error));
               ("token", JS.JStr (token error));
               ("amountMicroUSDC", JS.JStr (amountMicroUSDC error));
               ("recipient", JS.JStr (recipient error));
               ("nonce", JS.JStr (nonce error));
               ("howToPay", JS.JStr (howToPayUrl error)) ]) |}
  | ThrowOther _ =>
      {| statusCode := 500;
         headers := jsonHeaders;
         body := Some (JS.JObj [ ("error", JS.JStr "Internal server error") ]) |}
  end.

(** [handleRequest], given what the route selected by [path] and [method]
    does: it writes a response, or throws. *)
Definition handleRequest (config : HttpServerConfig) (method : string)
    (route : Thrown + HttpResponse) : HttpResponse :=
  if corsEnabled config && String.eqb method "OPTIONS"
  then {| statusCode := 200; headers := corsHeaders config; body := None |}
  else
    let written :=
      match route with
      | inr response => response
      | inl error => respondToError error
      end in
    {| statusCode := statusCode written;
       headers := headers written ∪ corsHeaders config;
       body := body written |}.

(** ** Routing and the MCP endpoint *)

Inductive Endpoint :=
| PayEndpoint
| PricingEndpoint
| HealthEndpoint
| McpEndpoint (endpoint : string)
| NotFound.

(** The [switch (true)] of [handleRequest]. *)
Definition selectEndpoint (path method : string) : Endpoint :=
  if String.eqb path "/pay" && String.eqb method "POST" then PayEndpoint
  else if String.eqb path "/pricing" && String.eqb method "GET" then PricingEndpoint
  else if String.eqb path "/health" && String.eqb method "GET" then HealthEndpoint
  else if JS.startsWith path "/mcp/" && String.eqb method "POST"
  then McpEndpoint (JS.dropStr 5 path)
  else NotFound.

Definition jsonResponse (statusCode : Z) (body : JS.Json) : HttpResponse :=
  {| statusCode := statusCode; headers := jsonHeaders; body := Some body |}.

(** The [default:] case. *)
Definition notFound : HttpResponse :=
  jsonResponse 404 (JS.JObj [ ("error", JS.JStr "Not found") ]).

Section Tokens.

(** [JSON.parse(Buffer.from(token, 'base64').toString())] *)
Variable parseToken : string -> JS.Error + JS.Json.

(** [JSON.stringify] followed by base64, as [generateSessionToken] applies them. *)
Variable encodeToken : JS.Json -> string.

(** [generateSessionToken], with the two readings [iat] and [later] of [Date.now()]. *)
Definition generateSessionToken (iat later : Z) (sessionId : string) (amount : Z) : string :=
  let payload :=
    JS.JObj [ ("sessionId", JS.JStr sessionId);
              ("amount", JS.JStr (JS.decimalOfZ amount));
              ("iat", JS.JNum iat);
              ("exp", JS.JNum (later + 24 * 60 * 60 * 1000)) ] in
  encodeToken payload.

(** [extractSessionFromAuth]: [payload.sessionId], or [None] for [null]
    and [undefined]. *)
Definition extractSessionFromAuth (authHeader : option string) : option JS.Json :=
  match JS.truthy authHeader with
  | None => None
  | Some authHeader =>
      if negb (JS.startsWith authHeader "Bearer ") then None
      else
        match parseToken (JS.dropStr 7 authHeader) with
        | inl _ => None
        | inr JS.JNull => None
        | inr payload => JS.field "sessionId" payload
        end
  end.

(** [handleMcpEndpoint], given [req.headers.authorization]. *)
Definition handleMcpEndpoint (authHeader : option string) : HttpResponse :=
  match extractSessionFromAuth authHeader with
  | Some sessionId =>
      if JS.truthyJson sessionId
      then jsonResponse 501 (JS.JObj [ ("error", JS.JStr "MCP over HTTP not yet fully implemented") ])
      else jsonResponse 401 (JS.JObj [ ("error", JS.JStr "Authorization required") ])
  | None => jsonResponse 401 (JS.JObj [ ("error", JS.JStr "Authorization required") ])
  end.

End Tokens.

(** ** The payment endpoint *)

(** The [TypeError] of reading [xPayment] off a [null] body. *)
Definition nullBodyError : JS.Error :=
  JS.mkError "TypeError" "Cannot read properties of null (reading 'xPayment')".

Section Pay.

(** [JSON.stringify] followed by base64, [JSON.parse(body)], and
    [new Date(t).toISOString()]. *)
Variable encodeToken : JS.Json -> string.
Variable parseBody : string -> JS.Error + JS.Json.
Variable toISOString : Z -> string.

(** [handlePayEndpoint], given [req.headers['x-payment']] and the body
    read from the request: the response written or the error thrown, and
    the sessions of the server's guard afterwards.  [uuid] and
    [randomHex] are the values [crypto] draws, [sessionId] is the result
    of [PaywallGuard.generateSessionId('http-session')], and [stamp],
    [iat], [later], [now] and [expiry] are the clock readings in the
    order the code takes them. *)
Definition handlePayEndpoint (uuid randomHex sessionId : string)
    (stamp iat later now expiry : Z)
    (xPaymentHeader : option string) (body : string)
    (sessions : gmap string PaywallGuard.PaywallSession)
  : (Thrown + HttpResponse) * gmap string PaywallGuard.PaywallSession :=
  let badRequest (message : string) :=
    (inr (jsonResponse 400 (JS.JObj [ ("error", JS.JStr message) ])), sessions) in
  let verified (paymentData : JS.Json) :=
    let expectedAmount := 100000 in
    let network := "base-sepolia" in
    let recipient := "placeholder-recipient" in
    let receipt :=
      PaywallGuard.verifyX402Payment uuid randomHex stamp paymentData
        expectedAmount network recipient in
    let token :=
      generateSessionToken encodeToken iat later sessionId (PaywallGuard.amount receipt) in
    let sessions := PaywallGuard.recordAuthorization now sessions sessionId receipt 0 in
    (inr (jsonResponse 200
            (JS.JObj [ ("success", JS.JBool true);
                       ("token", JS.JStr token);
                       ("sessionId", JS.JStr sessionId);
                       ("amount", JS.JStr (JS.decimalOfZ (PaywallGuard.amount receipt)));
                       ("expiresAt",
                        JS.JStr (toISOString (expiry + 24 * 60 * 60 * 1000))) ])),
     sessions) in
  match JS.truthy xPaymentHeader with
  | Some xPaymentHeader => verified (JS.JStr xPaymentHeader)
  | None =>
      if negb (String.eqb body "") then
        match parseBody body with
        | inl e => (inl (ThrowOther e), sessions)
        | inr JS.JNull => (inl (ThrowOther nullBodyError), sessions)
        | inr parsed =>
            (* parsed.xPayment || parsed.payment *)
            let paymentData :=
              match JS.field "xPayment" parsed with
              | Some x => if JS.truthyJson x then Some x else JS.field "payment" parsed
              | None => JS.field "payment" parsed
              end in
            match paymentData with
            | Some paymentData =>
                if negb (JS.truthyJson paymentData) then badRequest "Invalid payment data"
                else verified paymentData
            | None => badRequest "Invalid payment data"
            end
        end
      else badRequest "No payment data provided"
  end.

End Pay.

End GatewayHttpServer.

(* ===================================================================== *)
(** * The HTTP wrapper (src/transports/http-wrapper.ts)                    *)
(* ===================================================================== *)

Module HttpWrapper.
Import PaymentMiddleware.

(** What [JSON.stringify] writes of an [accepts] entry and of the
    [PaymentRequirements] that [generatePaymentRequiredResponse] builds,
    property by property, in the order of the object literals. *)
Definition acceptJson (a : Accept) : JS.Json :=
  JS.JObj
    ([ ("scheme", JS.JStr (scheme a));
       ("network", JS.JStr (network a));
       ("maxAmountRequired", JS.JStr (maxAmountRequired a));
       ("resource", JS.JStr (resource a));
       ("description", JS.JStr (description a)) ]
     ++ match mimeType a with
        | Some m => [ ("mimeType", JS.JStr m) ]
        | None => []
        end
     ++ [ ("payTo", JS.JStr (payTo a));
          ("maxTimeoutSeconds", JS.JNum (maxTimeoutSeconds a)) ]
     ++ JS.property "asset" (asset a)).

Definition requirementsJson (requirements : PaymentRequirements) : JS.Json :=
  JS.JObj
    ([ ("x402Version", JS.JNum (x402Version requirements));
       ("accepts", JS.JArr (map acceptJson (accepts requirements))) ]
     ++ match requirementsError requirements with
        | Some e => [ ("error", JS.JStr e) ]
        | None => []
        end).

(** Modelled from the spec: an HTTP response, by its status, its headers
    and its JSON body. *)
Record Response := mkResponse {
  status : Z;
  headers : gmap string string;
  body : JS.Json
}.

Section Binding.

(** [JSON.stringify] *)
Variable stringify : JS.Json -> string.

(** Modelled from the spec: the HTTP wrapper binding of a payment
    challenge, "respond HTTP/1.1 402 Payment Required with Content-Type:
    application/json, X-Accept-Payment: set to the serialized
    requirements, and the PaymentRequirements as the body".  The README
    shows the same response for [POST /message]. *)
Definition paymentChallenge (requirements : PaymentRequirements) : Response :=
  {| status := 402;
     headers := {[ "Content-Type" := "application/json";
                   "X-Accept-Payment" := stringify (requirementsJson requirements) ]};
     body := requirementsJson requirements |}.

End Binding.

End HttpWrapper.

(* ===================================================================== *)
(** * [GatewayServer] with paywall enforcement (src/paywall-guard.ts,      *)
(**   second part): the CallTool handler and the paywall tools            *)
(* ===================================================================== *)

Module PaywallGateway.

Inductive ErrorCode := MethodNotFound | InternalError | InvalidParams.

(** [McpError] of the MCP SDK, by the constructor arguments. *)
Record McpError := mkMcpError {
  code : ErrorCode;
  message : string;
  data : option JS.Json
}.

Definition kindName (kind : PaywallGuard.Kind) : string :=
  match kind with
  | PaywallGuard.tool => "tool"
  | PaywallGuard.resource => "resource"
  | PaywallGuard.prompt => "prompt"
  end.

(** [(Number(requiredPrice) / 1_000_000).toFixed(6)] *)
Definition dollarsOfMicroUSDC (requiredPrice : Z) : string :=
  JS.toFixed 6 (JS.div (JS.numberOfZ requiredPrice) (JS.numberOfZ 1000000)).

(** Reads an optional string argument of a tool call. *)
Definition stringArg (k : string) (args : list (string * JS.Json)) : option string :=
  match JS.assoc k args with
  | Some (JS.JStr v) => Some v
  | _ => None
  end.

(** An argument of a tool call when it is truthy. *)
Definition truthyArg (k : string) (args : list (string * JS.Json)) : option JS.Json :=
  match JS.assoc k args with
  | Some v => if JS.truthyJson v then Some v else None
  | None => None
  end.

Definition textContent (text : string) : JS.Json :=
  JS.JObj [ ("content", JS.JArr [ JS.JObj [ ("type", JS.JStr "text");
                                           ("text", JS.JStr text) ] ]) ].

(** The text [handleAuthorizePayment] answers with:
    [`Payment authorized successfully!\n\nSession: ${targetSessionId}\n
    Amount: ${receipt.amount} micro-USDC\nRemaining balance:
    ${remainingBalance} micro-USDC\n\nYou can now use ...`]. *)
Definition authorizedText (session : string) (amount remainingBalance : Z) : string :=
  "Payment authorized successfully!" +:+ JS.newline +:+ JS.newline
  +:+ "Session: " +:+ session +:+ JS.newline
  +:+ "Amount: " +:+ JS.decimalOfZ amount +:+ " micro-USDC" +:+ JS.newline
  +:+ "Remaining balance: " +:+ JS.decimalOfZ remainingBalance
  +:+ " micro-USDC" +:+ JS.newline +:+ JS.newline
  +:+ "You can now use paywall-protected tools, resources, and prompts.".

Section Handlers.

(** [this.registry.findTool], [this.serverManager.getConnection],
    [this.config.servers] and [this.currentSessionId]. *)
Variable findTool : string -> option GatewayServer.AggregatedTool.
Variable getConnection : string -> option GatewayServer.ServerConnection.
Variable servers : list PaywallGuard.McpServerConfig.
Variable currentSessionId : string.

(** [serverConfig.paywall!.wallet.network] *)
Variable walletNetwork : PaywallGuard.McpServerConfig -> string.

(** [this.handleGetPricing()] *)
Variable handleGetPricing : JS.Json.

(** [`${error}`] for an [McpError], as the SDK renders it. *)
Variable renderMcpError : McpError -> string.

(** The sessions of [this.paywallGuard] are a [Map], and a [Map] takes
    any value as a key.  The sessions under string keys are the handlers'
    argument and result; [otherBalance] gives, for a key that is no
    string, the remaining balance of the session the guard holds there,
    if it holds one.  Only [handleAuthorizePayment] reaches such a
    session, and nothing but this balance decides what it answers. *)
Variable otherBalance : JS.Json -> option Z.

(** [createPaymentRequiredError], with [stamp = Date.now()]. *)
Definition createPaymentRequiredError (stamp : Z) (kind : PaywallGuard.Kind)
    (id : string) (requiredPrice : Z) (serverConfig : PaywallGuard.McpServerConfig)
  : McpError :=
  let network := walletNetwork serverConfig in
  let nonce := JS.decimalOfZ stamp in
  let howToPayUrl := "https://docs.x402.org/how-to-pay" in
  let errorData :=
    JS.JObj
      [ ("paymentRequired", JS.JBool true);
        ("kind", JS.JStr (kindName kind));
        ("id", JS.JStr id);
        ("amountMicroUSDC", JS.JStr (JS.decimalOfZ requiredPrice));
        ("network", JS.JStr network);
        ("token", JS.JStr "USDC");
        ("recipient", JS.JStr "wallet-address-placeholder");
        ("nonce", JS.JStr nonce);
        ("howToPay", JS.JStr howToPayUrl);
        ("instructions",
         JS.JStr ("This " +:+ kindName kind +:+ " requires payment of "
                  +:+ JS.decimalOfZ requiredPrice +:+ " micro-USDC ($"
                  +:+ dollarsOfMicroUSDC requiredPrice
                  +:+ "). Use the 'gateway:paywall:authorize' tool with an x402 payment, or visit "
                  +:+ howToPayUrl +:+ " for instructions."));
        ("paywallTools",
         JS.JArr
           [ JS.JStr "gateway:paywall:get-pricing - Get pricing information";
             JS.JStr "gateway:paywall:authorize - Authorize payment with x402 payment or token" ]) ] in
  {| code := InternalError;
     message := "Payment required for " +:+ kindName kind +:+ " '" +:+ id +:+ "': "
                +:+ JS.decimalOfZ requiredPrice +:+ " micro-USDC";
     data := Some errorData |}.

(** [sessionId || this.currentSessionId]: the key of the session an
    authorization is recorded under.  A truthy [sessionId] is that key
    whatever its type. *)
Definition targetSessionId (args : list (string * JS.Json)) : JS.Json :=
  match truthyArg "sessionId" args with
  | Some sessionId => sessionId
  | None => JS.JStr currentSessionId
  end.

(** [recordAuthorization(key, receipt, 0n)] followed by
    [getSessionBalance(key)] for a key that is no string: the receipt is
    added to what the session under the key holds, the expiry is set to
    a day after [now], and the balance is read at [later].  A number or a
    boolean finds the session recorded under the same value; an array or
    an object is a new key every time a request is parsed. *)
Definition balanceUnder (now later : Z) (key : JS.Json)
    (receipt : PaywallGuard.VerifiedPaymentReceipt) : Z :=
  let stored :=
    match key with
    | JS.JNum _ | JS.JBool _ => default 0 (otherBalance key)
    | _ => 0
    end in
  if now + PaywallGuard.DAY <? later then 0 else stored + PaywallGuard.amount receipt.

(** [handleAuthorizePayment].  [xPayment], [token] and [sessionId] are
    tested for truthiness whatever their type.  [uuid] and [randomHex]
    are the values [crypto] draws; [stamp], [now] and [later] are the
    clock readings of [verifyX402Payment], [recordAuthorization] and
    [getSessionBalance].  The [try] block also catches the [TypeError] of
    writing a session key that has no string form into the answer. *)
Definition handleAuthorizePayment (uuid randomHex : string) (stamp now later : Z)
    (args : list (string * JS.Json)) (sessions : gmap string PaywallGuard.PaywallSession)
  : (McpError + JS.Json) * gmap string PaywallGuard.PaywallSession :=
  let xPayment := truthyArg "xPayment" args in
  let token := truthyArg "token" args in
  let targetSessionId := targetSessionId args in
  match xPayment, token with
  | None, None =>
      (inl {| code := InvalidParams;
              message := "Either xPayment or token must be provided";
              data := None |}, sessions)
  | _, Some _ =>
      let thrown :=
        {| code := InvalidParams;
           message := "Token-based authorization not yet implemented. Use xPayment instead.";
           data := None |} in
      (inl {| code := InternalError;
              message := "Payment authorization failed: " +:+ renderMcpError thrown;
              data := None |}, sessions)
  | Some xPayment, None =>
      let receipt :=
        PaywallGuard.verifyX402Payment uuid randomHex stamp xPayment
          100000 "base-sepolia" "placeholder-recipient" in
      let '(remainingBalance, sessions) :=
        match targetSessionId with
        | JS.JStr id =>
            let sessions := PaywallGuard.recordAuthorization now sessions id receipt 0 in
            (PaywallGuard.getSessionBalance later sessions id, sessions)
        | key => (balanceUnder now later key receipt, sessions)
        end in
      match JS.ToString targetSessionId with
      | inr session =>
          (inr (textContent
                  (authorizedText session (PaywallGuard.amount receipt) remainingBalance)),
           sessions)
      | inl e =>
          (inl {| code := InternalError;
                  message := "Payment authorization failed: " +:+ JS.errorToString e;
                  data := None |}, sessions)
      end
  end.

(** [handlePaywallTool] *)
Definition handlePaywallTool (uuid randomHex : string) (stamp now later : Z)
    (name : string) (args : list (string * JS.Json))
    (sessions : gmap string PaywallGuard.PaywallSession)
  : (McpError + JS.Json) * gmap string PaywallGuard.PaywallSession :=
  if String.eqb name "gateway:paywall:get-pricing" then (inr handleGetPricing, sessions)
  else if String.eqb name "gateway:paywall:authorize"
  then handleAuthorizePayment uuid randomHex stamp now later args sessions
  else (inl {| code := MethodNotFound;
               message := "Unknown paywall tool: " +:+ name;
               data := None |}, sessions).

(** The paywall check of the handler: the error to throw, if any, and the
    sessions after the check. *)
Definition enforcePaywall (now stamp : Z) (tool : GatewayServer.AggregatedTool)
    (sessions : gmap string PaywallGuard.PaywallSession)
  : option McpError * gmap string PaywallGuard.PaywallSession :=
  match List.find (fun s => String.eqb (PaywallGuard.name s) (GatewayServer.serverId tool))
          servers with
  | None => (None, sessions)
  | Some serverConfig =>
      match PaywallGuard.getRequiredPriceMicroUSDC PaywallGuard.tool
              (GatewayServer.originalName tool) serverConfig with
      | Some requiredPrice =>
          if 0 <? requiredPrice then
            let '(isAuthorized, sessions) :=
              PaywallGuard.isSessionAuthorized now sessions currentSessionId requiredPrice in
            if negb isAuthorized
            then (Some (createPaymentRequiredError stamp PaywallGuard.tool
                          (GatewayServer.originalName tool) requiredPrice serverConfig),
                  sessions)
            else (None,
                  (PaywallGuard.deductFromSession sessions currentSessionId requiredPrice).2)
          else (None, sessions)
      | None => (None, sessions)
      end
  end.

(** The handler registered for [CallToolRequestSchema]: what it resolves
    with or throws, and the sessions of the guard after the call. *)
Definition callToolHandler (uuid randomHex : string) (now stamp later : Z)
    (name : string) (args : option (list (string * JS.Json)))
    (sessions : gmap string PaywallGuard.PaywallSession)
  : (McpError + JS.Json) * gmap string PaywallGuard.PaywallSession :=
  if JS.startsWith name "gateway:paywall:"
  then handlePaywallTool uuid randomHex stamp now later name (default [] args) sessions
  else
  match findTool name with
  | None =>
      (inl {| code := MethodNotFound; message := "Tool '" +:+ name +:+ "' not found";
              data := None |}, sessions)
  | Some tool =>
      let notConnected :=
        (inl {| code := InternalError;
                message := "Server '" +:+ GatewayServer.serverId tool
                           +:+ "' is not connected";
                data := None |}, sessions) in
      match getConnection (GatewayServer.serverId tool) with
      | None => notConnected
      | Some connection =>
          if negb (GatewayServer.Status_eqb (GatewayServer.status connection)
                     GatewayServer.connected)
          then notConnected
          else
            match enforcePaywall now stamp tool sessions with
            | (Some paymentRequired, sessions) => (inl paymentRequired, sessions)
            | (None, sessions) =>
                let outcome :=
                  match GatewayServer.client connection with
                  | Some c => GatewayServer.callTool c (GatewayServer.originalName tool)
                                (JS.JObj (default [] args))
                  | None => inl GatewayServer.nullClientError
                  end in
                match outcome with
                | inr response => (inr response, sessions)
                | inl e =>
                    (inl {| code := InternalError;
                            message := "Tool execution failed: " +:+ JS.errorToString e;
                            data := None |}, sessions)
                end
            end
      end
  end.

(** [getPaywallTools] *)
Definition getPaywallTools : list JS.Json :=
  let hasPaywallServers := existsb PaywallGuard.isPaywallEnabled servers in
  if negb hasPaywallServers then []
  else
    let stringProperty (description : string) :=
      JS.JObj [ ("type", JS.JStr "string"); ("description", JS.JStr description) ] in
    [ JS.JObj
        [ ("name", JS.JStr "gateway:paywall:get-pricing");
          ("description",
           JS.JStr "Get pricing information for all paywall-enabled servers and their tools/resources/prompts");
          ("inputSchema",
           JS.JObj [ ("type", JS.JStr "object");
                     ("properties", JS.JObj []);
                     ("additionalProperties", JS.JBool false) ]) ];
      JS.JObj
        [ ("name", JS.JStr "gateway:paywall:authorize");
          ("description",
           JS.JStr "Authorize payment for paywall-enabled services using x402 payment or token");
          ("inputSchema",
           JS.JObj
             [ ("type", JS.JStr "object");
               ("properties",
                JS.JObj
                  [ ("xPayment",
                     stringProperty "Raw x402 payment envelope (optional if token is provided)");
                    ("token",
                     stringProperty "JWT token from HTTP /pay endpoint (optional if xPayment is provided)");
                    ("sessionId",
                     stringProperty "Optional session ID (defaults to current session)") ]);
               ("additionalProperties", JS.JBool false) ]) ] ].

(** The handler registered for [ListToolsRequestSchema], given
    [this.registry.getTools()]. *)
Definition listToolsHandler (tools : list GatewayServer.AggregatedTool) : JS.Json :=
  let tools := map GatewayServer.listedTool tools in
  let paywallTools := getPaywallTools in
  JS.JObj [ ("tools", JS.JArr (tools ++ paywallTools)) ].

(** The paywall check the resource and prompt handlers repeat, for an
    item [id] of [kind] on the server [serverId]. *)
Definition enforcePaywallFor (kind : PaywallGuard.Kind) (id serverId : string)
    (now stamp : Z) (sessions : gmap string PaywallGuard.PaywallSession)
  : option McpError * gmap string PaywallGuard.PaywallSession :=
  match List.find (fun s => String.eqb (PaywallGuard.name s) serverId) servers with
  | None => (None, sessions)
  | Some serverConfig =>
      match PaywallGuard.getRequiredPriceMicroUSDC kind id serverConfig with
      | Some requiredPrice =>
          if 0 <? requiredPrice then
            let '(isAuthorized, sessions) :=
              PaywallGuard.isSessionAuthorized now sessions currentSessionId requiredPrice in
            if negb isAuthorized
            then (Some (createPaymentRequiredError stamp kind id requiredPrice serverConfig),
                  sessions)
            else (None,
                  (PaywallGuard.deductFromSession sessions currentSessionId requiredPrice).2)
          else (None, sessions)
      | None => (None, sessions)
      end
  end.

(** The handler registered for [ReadResourceRequestSchema]. *)
Definition readResourceHandler
    (findResource : string -> option Resources.AggregatedResource)
    (getConnection : string -> option Resources.ServerConnection)
    (now stamp : Z) (uri : string) (sessions : gmap string PaywallGuard.PaywallSession)
  : (McpError + JS.Json) * gmap string PaywallGuard.PaywallSession :=
  match findResource uri with
  | None =>
      (inl {| code := MethodNotFound; message := "Resource '" +:+ uri +:+ "' not found";
              data := None |}, sessions)
  | Some resource =>
      let notConnected :=
        (inl {| code := InternalError;
                message := "Server '" +:+ Resources.serverId resource
                           +:+ "' is not connected";
                data := None |}, sessions) in
      match getConnection (Resources.serverId resource) with
      | None => notConnected
      | Some connection =>
          if negb (GatewayServer.Status_eqb (Resources.status connection)
                     GatewayServer.connected)
          then notConnected
          else
            match enforcePaywallFor PaywallGuard.resource (Resources.originalUri resource)
                    (Resources.serverId resource) now stamp sessions with
            | (Some paymentRequired, sessions) => (inl paymentRequired, sessions)
            | (None, sessions) =>
                let outcome :=
                  match Resources.client connection with
                  | Some c => Resources.readResource c (Resources.originalUri resource)
                  | None => inl Resources.nullClientError
                  end in
                match outcome with
                | inr response => (inr response, sessions)
                | inl e =>
                    (inl {| code := InternalError;
                            message := "Resource read failed: " +:+ JS.errorToString e;
                            data := None |}, sessions)
                end
            end
      end
  end.

(** The handler registered for [GetPromptRequestSchema]. *)
Definition getPromptHandler
    (findPrompt : string -> option Prompts.AggregatedPrompt)
    (getConnection : string -> option Prompts.ServerConnection)
    (now stamp : Z) (name : string) (args : option (list (string * JS.Json)))
    (sessions : gmap string PaywallGuard.PaywallSession)
  : (McpError + JS.Json) * gmap string PaywallGuard.PaywallSession :=
  match findPrompt name with
  | None =>
      (inl {| code := MethodNotFound; message := "Prompt '" +:+ name +:+ "' not found";
              data := None |}, sessions)
  | Some prompt =>
      let notConnected :=
        (inl {| code := InternalError;
                message := "Server '" +:+ Prompts.serverId prompt
                           +:+ "' is not connected";
                data := None |}, sessions) in
      match getConnection (Prompts.serverId prompt) with
      | None => notConnected
      | Some connection =>
          if negb (GatewayServer.Status_eqb (Prompts.status connection)
                     GatewayServer.connected)
          then notConnected
          else
            match enforcePaywallFor PaywallGuard.prompt (Prompts.originalName prompt)
                    (Prompts.serverId prompt) now stamp sessions with
            | (Some paymentRequired, sessions) => (inl paymentRequired, sessions)
            | (None, sessions) =>
                let outcome :=
                  match Prompts.client connection with
                  | Some c => Prompts.getPrompt c (Prompts.originalName prompt)
                                (JS.JObj (default [] args))
                  | None => inl Prompts.nullClientError
                  end in
                match outcome with
                | inr response => (inr response, sessions)
                | inl e =>
                    (inl {| code := InternalError;
                            message := "Prompt get failed: " +:+ JS.errorToString e;
                            data := None |}, sessions)
                end
            end
      end
  end.

End Handlers.

(** An error of the handler without paywall (src/core/gateway.ts), as an
    error of this one. *)
Definition plainError (e : GatewayServer.McpError) : McpError :=
  {| code := match GatewayServer.code e with
             | GatewayServer.MethodNotFound => MethodNotFound
             | GatewayServer.InternalError => InternalError
             end;
     message := GatewayServer.message e;
     data := None |}.

End PaywallGateway.

(* ===================================================================== *)
(** * [TransportFactory] (src/transport-factory.ts)                        *)
(* ===================================================================== *)

Module TransportFactory.

(** [TransportConfig] (src/types.ts), a union discriminated by [type]. *)
Inductive TransportConfig :=
| stdio (command : string) (args : option (list string))
    (env : option (gmap string string)) (cwd : option string)
| http (url : string) (headers : option (gmap string string)) (apiKey : option string)
| sse (sseUrl postUrl : string) (headers : option (gmap string string))
    (apiKey : option string)
| websocket (url : string) (headers : option (gmap string string))
    (apiKey : option string).

(** The fields of [McpServerConfig] the factory reads. *)
Record McpServerConfig := mkMcpServerConfig {
  name : string;
  transport : option TransportConfig;
  command : option string;
  args : option (list string);
  env : option (gmap string string);
  cwd : option string
}.

(** [normalizeTransportConfig]: the transport, or the [Error] thrown. *)
Definition normalizeTransportConfig (config : McpServerConfig)
  : JS.Error + TransportConfig :=
  match transport config with
  | Some t => inr t
  | None =>
      match JS.truthy (command config) with
      | Some c => inr (stdio c (args config) (env config) (cwd config))
      | None =>
          inl (JS.mkError "Error"
                 ("Server " +:+ name config +:+ " has no transport configuration"))
      end
  end.

Definition validateConfig (config : McpServerConfig) : list string :=
  match normalizeTransportConfig config with
  | inr (stdio command _ _ _) =>
      if String.eqb command "" then ["STDIO transport requires 'command' field"] else []
  | inr (http url _ _) =>
      if String.eqb url "" then ["HTTP transport requires 'url' field"] else []
  | inr (sse sseUrl postUrl _ _) =>
      if String.eqb sseUrl "" || String.eqb postUrl ""
      then ["SSE transport requires both 'sseUrl' and 'postUrl' fields"] else []
  | inr (websocket url _ _) =>
      if String.eqb url "" then ["WebSocket transport requires 'url' field"] else []
  | inl error => ["Transport configuration error: " +:+ JS.errorToString error]
  end.

Definition getTransportDisplayName (config : McpServerConfig) : string :=
  match normalizeTransportConfig config with
  | inr (stdio command _ _ _) => "STDIO (" +:+ command +:+ ")"
  | inr (http url _ _) => "HTTP (" +:+ url +:+ ")"
  | inr (sse sseUrl _ _ _) => "SSE (" +:+ sseUrl +:+ ")"
  | inr (websocket url _ _) => "WebSocket (" +:+ url +:+ ")"
  | inl _ => "Invalid"
  end.

(** What [create] constructs, by the constructor arguments. *)
Inductive Transport :=
| StdioClientTransport (command : string) (args : list string)
    (env : gmap string string) (cwd : option string)
| StreamableHTTPClientTransport (url : string)
| SSEClientTransport (url : string)
| WebSocketClientTransport (url : string).

Section Create.

(** [process.env] and [new URL(s)], which throws on a string that is not
    a URL. *)
Variable processEnv : gmap string string.
Variable URL : string -> JS.Error + string.

Definition create (config : McpServerConfig) : JS.Error + Transport :=
  match normalizeTransportConfig config with
  | inl error => inl error
  | inr (stdio command args env cwd) =>
      inr (StdioClientTransport command (default [] args)
             (default ∅ env ∪ processEnv) (JS.truthy cwd))
  | inr (http url _ _) =>
      match URL url with
      | inr u => inr (StreamableHTTPClientTransport u)
      | inl e => inl e
      end
  | inr (sse sseUrl _ _ _) =>
      match URL sseUrl with
      | inr u => inr (SSEClientTransport u)
      | inl e => inl e
      end
  | inr (websocket url _ _) =>
      match URL url with
      | inr u => inr (WebSocketClientTransport u)
      | inl e => inl e
      end
  end.

End Create.

End TransportFactory.

(* ===================================================================== *)
(** * [ConfigManager]: validation and MCP_SERVERS                        *)
(* ===================================================================== *)

Module ConfigManager.

(** The fields of a parsed server entry that [validateConfig] reads. *)
Record McpServerConfig := mkMcpServerConfig {
  name : string;
  namespace : option string;
  enabled : bool
}.

Definition isLetter (c : ascii) : bool :=
  let n := JS.code c in
  ((97 <=? n) && (n <=? 122)) || ((65 <=? n) && (n <=? 90)).

Definition isNameChar (c : ascii) : bool :=
  isLetter c || JS.isDecimalDigit c || Ascii.eqb c "_" || Ascii.eqb c "-".

Fixpoint allChars (f : ascii -> bool) (s : string) : bool :=
  match s with
  | EmptyString => true
  | String c r => f c && allChars f r
  end.

(** [/^[a-zA-Z][a-zA-Z0-9_-]*$/.test(s)] *)
Definition namespacePattern (s : string) : bool :=
  match s with
  | EmptyString => false
  | String c r => isLetter c && allChars isNameChar r
  end.

(** The [for] loop of [validateConfig] with the names seen so far: the
    message of the [Error] thrown, if any. *)
Fixpoint checkServers (serverNames : gset string) (servers : list McpServerConfig)
  : option string :=
  match servers with
  | [] => None
  | server :: rest =>
      if decide (name server ∈ serverNames)
      then Some ("Duplicate server name: " +:+ name server)
      else
        match JS.truthy (namespace server) with
        | Some ns =>
            if negb (namespacePattern ns)
            then Some ("Invalid namespace format for server " +:+ name server
                       +:+ ": " +:+ ns)
            else checkServers ({[ name server ]} ∪ serverNames) rest
        | None => checkServers ({[ name server ]} ∪ serverNames) rest
        end
  end.

(** [validateConfig]: the message of the [Error] thrown, if any. *)
Definition validateConfig (servers : list McpServerConfig) : option string :=
  match checkServers ∅ servers with
  | Some e => Some e
  | None =>
      if (length (filter (fun s => enabled s = true) servers) =? 0)%nat
      then Some "At least one server must be enabled"
      else None
  end.

(** A raw server entry as [parseServersFromEnv] builds it. *)
Record RawServer := mkRawServer {
  rawName : string;
  rawCommand : string;
  rawArgs : list string
}.

(** The callback [parseServersFromEnv] maps over the specifications. *)
Definition parseServerSpec (serverSpec : string) : JS.Error + RawServer :=
  match JS.split ":" serverSpec with
  | name :: command :: args =>
      inr {| rawName := name;
             rawCommand := command;
             rawArgs := match args with
                        | first :: _ => JS.split "," first
                        | [] => []
                        end |}
  | _ => inl (JS.mkError "Error" ("Invalid server specification: " +:+ serverSpec))
  end.

(** [array.map(f)] for a callback that may throw: the first error wins. *)
Fixpoint mapThrowing {A B} (f : A -> JS.Error + B) (l : list A) : JS.Error + list B :=
  match l with
  | [] => inr []
  | x :: r =>
      match f x with
      | inl e => inl e
      | inr y => match mapThrowing f r with
                 | inl e => inl e
                 | inr ys => inr (y :: ys)
                 end
      end
  end.

(** [parseServersFromEnv], given [process.env.MCP_SERVERS]. *)
Definition parseServersFromEnv (serversEnv : option string) : JS.Error + list RawServer :=
  match JS.truthy serversEnv with
  | None => inr []
  | Some serversEnv => mapThrowing parseServerSpec (JS.split ";" serversEnv)
  end.

(** The documented form [name:command:arg1,arg2] of one server, and of a
    list of them separated by [;]. *)
Fixpoint join (sep : string) (l : list string) : string :=
  match l with
  | [] => ""
  | [x] => x
  | x :: r => x +:+ sep +:+ join sep r
  end.

Definition formatServer (s : RawServer) : string :=
  match rawArgs s with
  | [] => rawName s +:+ ":" +:+ rawCommand s
  | args => rawName s +:+ ":" +:+ rawCommand s +:+ ":" +:+ join "," args
  end.

Definition formatServers (l : list RawServer) : string := join ";" (map formatServer l).

Definition lacks (c : ascii) (s : string) : Prop := JS.includesChar c s = false.

(** A server entry that the documented form can carry. *)
Definition plain (s : RawServer) : Prop :=
  lacks ":" (rawName s) /\ lacks ";" (rawName s)
  /\ lacks ":" (rawCommand s) /\ lacks ";" (rawCommand s)
  /\ Forall (fun a => lacks ":" a /\ lacks ";" a /\ lacks "," a) (rawArgs s).

End ConfigManager.

(* ===================================================================== *)
(** * The entry point: [createLogger]                                     *)
(* ===================================================================== *)

Module Logger.

Definition levels : list string := ["error"; "warn"; "info"; "debug"].

Inductive Method := error | warn | info | log | debug | trace.

(** [levels.indexOf(logLevel.toLowerCase())] *)
Definition levelIndex (logLevel : string) : Z :=
  JS.indexOf (JS.toLowerCase logLevel) levels.

(** Whether a call of the method on [createLogger(logLevel)] prints. *)
Definition prints (logLevel : string) (m : Method) : bool :=
  let levelIndex := levelIndex logLevel in
  match m with
  | error => 0 <=? levelIndex
  | warn => 1 <=? levelIndex
  | info | log => 2 <=? levelIndex
  | debug | trace => 3 <=? levelIndex
  end.

End Logger.

(* ===================================================================== *)
(** * The arithmetic of the specification, over exact rationals          *)
(* ===================================================================== *)

Module Exact.

(** The value a decimal literal denotes. *)
Definition valueOfDecimal (neg : bool) (m e10 : Z) : Q :=
  (inject_Z (if neg then - m else m) * inject_Z 10 ^ e10)%Q.

(** The amount a dollar string denotes: the decimal literal left after
    everything but digits and the point is dropped. *)
Definition dollars (amount : string) : option Q :=
  match JS.scanDecimalLiteral (JS.stripNonNumeric amount) with
  | JS.LitDecimal neg m e10 => Some (valueOfDecimal neg m e10)
  | _ => None
  end.

(** The number a markup percentage denotes. *)
Definition percent (markup : string) : option Q :=
  match JS.scanDecimalLiteral (JS.replace "%" "" markup) with
  | JS.LitDecimal neg m e10 => Some (valueOfDecimal neg m e10)
  | _ => None
  end.

(** [atomic("$X.YZ") = floor(X.YZ * 10^6)], as a decimal string. *)
Definition atomic (amount : string) : option string :=
  v ← dollars amount; Some (JS.decimalOfZ (Qfloor (v * inject_Z 1000000)%Q)).

(** [round6]: the nearest multiple of [10^-6], the larger one on a tie,
    rendered as ["$X.XXXXXX"]. *)
Definition round6 (v : Q) : string :=
  "$" +:+ JS.fixedPoint 6 (Qfloor (v * inject_Z 1000000 + (1 # 2))%Q).

(** As [round6], the even multiple on a tie. *)
Definition round6even (v : Q) : string :=
  let lo := Qfloor (v * inject_Z 1000000)%Q in
  let r := (v * inject_Z 1000000 - inject_Z lo)%Q in
  "$" +:+ JS.fixedPoint 6
    (match (r ?= (1 # 2))%Q with
     | Lt => lo
     | Gt => lo + 1
     | Eq => if Z.even lo then lo else lo + 1
     end).

(** [computeMarkupPrice(p, "P%") = round6(p * (1 + P/100))] *)
Definition markupPercent (p P : Q) : Q := (p * (1 + P / inject_Z 100))%Q.

(** [computeMarkupPrice(p, "$f") = round6(p + f)] *)
Definition markupFixed (p f : Q) : Q := (p + f)%Q.

End Exact.

(* ===================================================================== *)
(** * Concrete configurations, requests and sessions                     *)
(* ===================================================================== *)

Module Samples.

(** ** [PaywallGuard] *)

Definition alice : PaywallGuard.PaywallSession :=
  {| PaywallGuard.sessionId := "alice";
     PaywallGuard.authorizedAmount := 10;
     PaywallGuard.remainingBalance := 10;
     PaywallGuard.receipts := [10];
     PaywallGuard.expiresAt := 86400000 |}.

Definition ledger : gmap string PaywallGuard.PaywallSession := {[ "alice" := alice ]}.

Definition paidPricing : PaywallGuard.PaywallPricing :=
  {| PaywallGuard.defaultPriceMicroUSDC := Some "500";
     PaywallGuard.perTool :=
       Some (list_to_map [ ("search", "2500"); ("blank", ""); ("broken", "1.5");
                           ("gratis", "0") ]);
     PaywallGuard.perResource := None;
     PaywallGuard.perPrompt := None |}.

Definition paidServer : PaywallGuard.McpServerConfig :=
  {| PaywallGuard.name := "paid";
     PaywallGuard.paywall :=
       Some {| PaywallGuard.enabled := true;
               PaywallGuard.maxValueMicroUSDC := None;
               PaywallGuard.pricing := paidPricing |} |}.

Definition closedServer : PaywallGuard.McpServerConfig :=
  {| PaywallGuard.name := "closed";
     PaywallGuard.paywall :=
       Some {| PaywallGuard.enabled := false;
               PaywallGuard.maxValueMicroUSDC := None;
               PaywallGuard.pricing := paidPricing |} |}.

(** ** [PaymentMiddleware] *)

(** The payment payload decoder of a run in which no header decodes. *)
Definition undecodable (h : string) : JS.Error + JS.Json :=
  inl (JS.mkError "SyntaxError" "Unexpected end of JSON input").

(** S1: payment disabled. *)
Definition freeGateway : Config.GatewayConfig :=
  {| Config.payment :=
       Some {| Config.enabled := false; Config.recipient := None;
               Config.network := None; Config.facilitator := None;
               Config.apiKeys := None; Config.outboundWallet := None |};
     Config.servers :=
       [ {| Config.name := "files"; Config.tools := None;
            Config.defaultPricing := None; Config.paymentMode := None |} ] |}.

(** S2: tool ["price"] at ["$0.01"] on base-sepolia. *)
Definition pricePricing : Config.ToolPricing :=
  {| Config.free := false; Config.x402 := Some "$0.01"; Config.apiKeyTiers := None |}.

Definition priceGateway : Config.GatewayConfig :=
  {| Config.payment :=
       Some {| Config.enabled := true;
               Config.recipient := Some "0xAB00000000000000000000000000000000000001";
               Config.network := Some "base-sepolia"; Config.facilitator := None;
               Config.apiKeys := None; Config.outboundWallet := None |};
     Config.servers :=
       [ {| Config.name := "quotes";
            Config.tools :=
              Some [ {| Config.tool_name := "price";
                        Config.tool_pricing := Some pricePricing |};
                     {| Config.tool_name := "ping";
                        Config.tool_pricing :=
                          Some {| Config.free := true; Config.x402 := None;
                                  Config.apiKeyTiers := None |} |};
                     {| Config.tool_name := "plain"; Config.tool_pricing := None |} ];
            Config.defaultPricing := None; Config.paymentMode := None |} ] |}.

(** S2 with the tool at another price and on another network. *)
Definition quoting (price network : string) : Config.GatewayConfig :=
  {| Config.payment :=
       Some {| Config.enabled := true;
               Config.recipient := Some "0xAB00000000000000000000000000000000000001";
               Config.network := Some network; Config.facilitator := None;
               Config.apiKeys := None; Config.outboundWallet := None |};
     Config.servers :=
       [ {| Config.name := "quotes";
            Config.tools :=
              Some [ {| Config.tool_name := "price";
                        Config.tool_pricing :=
                          Some {| Config.free := false; Config.x402 := Some price;
                                  Config.apiKeyTiers := None |} |} ];
            Config.defaultPricing := None; Config.paymentMode := None |} ] |}.

(** S3: API keys with tiers. *)
Definition tieredPricing : Config.ToolPricing :=
  {| Config.free := false; Config.x402 := Some "$0.10";
     Config.apiKeyTiers :=
       Some (list_to_map [ ("premium", "free"); ("basic", "$0.005") ]) |}.

Definition tieredGateway : Config.GatewayConfig :=
  {| Config.payment :=
       Some {| Config.enabled := true; Config.recipient := None;
               Config.network := None; Config.facilitator := None;
               Config.apiKeys :=
                 Some [ {| Config.key := "K"; Config.tier := "premium";
                           Config.rateLimit := None |};
                        {| Config.key := "B"; Config.tier := "basic";
                           Config.rateLimit := None |};
                        {| Config.key := "U"; Config.tier := "trial";
                           Config.rateLimit := None |} ];
               Config.outboundWallet := None |};
     Config.servers :=
       [ {| Config.name := "docs"; Config.tools := None;
            Config.defaultPricing := Some tieredPricing;
            Config.paymentMode := None |} ] |}.

(** The gateway of S3 with one key more, whose tier has no entry in
    [apiKeyTiers] and is named like a member of [Object.prototype]. *)
Definition legacyTierGateway : Config.GatewayConfig :=
  {| Config.payment :=
       Some {| Config.enabled := true; Config.recipient := None;
               Config.network := None; Config.facilitator := None;
               Config.apiKeys :=
                 Some [ {| Config.key := "K"; Config.tier := "premium";
                           Config.rateLimit := None |};
                        {| Config.key := "L"; Config.tier := "constructor";
                           Config.rateLimit := None |} ];
               Config.outboundWallet := None |};
     Config.servers := Config.servers tieredGateway |}.

Definition legacyHeaders : gmap string string := {[ "X-ELIZA-API-KEY" := "L" ]}.

Definition premiumHeaders : gmap string string := {[ "X-ELIZA-API-KEY" := "K" ]}.
Definition basicHeaders : gmap string string := {[ "authorization" := "Bearer B" ]}.
Definition trialHeaders : gmap string string := {[ "x-eliza-api-key" := "U" ]}.

Definition mixedCaseKeyHeaders : gmap string string := {[ "X-Eliza-Api-Key" := "K" ]}.

(** ** [GatewayServer] *)

Definition echoTool : GatewayServer.AggregatedTool :=
  {| GatewayServer.name := "fs:echo";
     GatewayServer.originalName := "echo";
     GatewayServer.serverId := "fs";
     GatewayServer.namespace := Some "fs";
     GatewayServer.description := None;
     GatewayServer.inputSchema := JS.JObj [] |}.

Definition registry (name : string) : option GatewayServer.AggregatedTool :=
  if String.eqb name "fs:echo" then Some echoTool else None.

(** An upstream whose every call rejects with [new Error("disk full")]. *)
Definition failingClient : GatewayServer.Client :=
  {| GatewayServer.callTool := fun _ _ => inl (JS.mkError "Error" "disk full") |}.

Definition failingUpstream (id : string) : option GatewayServer.ServerConnection :=
  if String.eqb id "fs"
  then Some {| GatewayServer.client := Some failingClient;
               GatewayServer.status := GatewayServer.connected |}
  else None.

Definition lostUpstream (id : string) : option GatewayServer.ServerConnection :=
  if String.eqb id "fs"
  then Some {| GatewayServer.client := None;
               GatewayServer.status := GatewayServer.disconnected |}
  else None.

(** ** [GatewayHttpServer] *)

Definition corsServer : GatewayHttpServer.HttpServerConfig :=
  {| GatewayHttpServer.port := 8000;
     GatewayHttpServer.host := None;
     GatewayHttpServer.corsEnabled := true |}.

(** ** More of [PaywallGuard] *)

Definition cappedServer : PaywallGuard.McpServerConfig :=
  {| PaywallGuard.name := "capped";
     PaywallGuard.paywall :=
       Some {| PaywallGuard.enabled := true;
               PaywallGuard.maxValueMicroUSDC := Some "250000";
               PaywallGuard.pricing := paidPricing |} |}.

Definition topUp : PaywallGuard.VerifiedPaymentReceipt :=
  {| PaywallGuard.paymentId := "p-1";
     PaywallGuard.amount := 100000;
     PaywallGuard.network := "base-sepolia";
     PaywallGuard.recipient := "placeholder-recipient";
     PaywallGuard.timestamp := 1000;
     PaywallGuard.txHash := None |}.

(** ** [PaywallGateway] *)

Definition fsServer : PaywallGuard.McpServerConfig :=
  {| PaywallGuard.name := "fs";
     PaywallGuard.paywall :=
       Some {| PaywallGuard.enabled := true;
               PaywallGuard.maxValueMicroUSDC := None;
               PaywallGuard.pricing :=
                 {| PaywallGuard.defaultPriceMicroUSDC := None;
                    PaywallGuard.perTool := Some {[ "echo" := "2500" ]};
                    PaywallGuard.perResource := None;
                    PaywallGuard.perPrompt := None |} |} |}.

Definition baseSepolia (config : PaywallGuard.McpServerConfig) : string := "base-sepolia".

Definition renderAsSdk (e : PaywallGateway.McpError) : string :=
  "McpError: MCP error: " +:+ PaywallGateway.message e.

(** A guard that holds no session under a key that is no string. *)
Definition stringKeysOnly : JS.Json -> option Z := fun _ => None.

(** The sessions after one authorization of ["alice"] at time 1000. *)
Definition funded : gmap string PaywallGuard.PaywallSession :=
  PaywallGuard.after [ PaywallGuard.CallRecordAuthorization 1000 "alice" topUp 0 ].

Definition connectedFailing : GatewayServer.ServerConnection :=
  {| GatewayServer.client := Some failingClient;
     GatewayServer.status := GatewayServer.connected |}.

(** A server that charges for a resource and for a prompt. *)
Definition meteredServer : PaywallGuard.McpServerConfig :=
  {| PaywallGuard.name := "fs";
     PaywallGuard.paywall :=
       Some {| PaywallGuard.enabled := true;
               PaywallGuard.maxValueMicroUSDC := None;
               PaywallGuard.pricing :=
                 {| PaywallGuard.defaultPriceMicroUSDC := None;
                    PaywallGuard.perTool := None;
                    PaywallGuard.perResource := Some {[ "file:///readme" := "300" ]};
                    PaywallGuard.perPrompt := Some {[ "greet" := "40" ]} |} |} |}.

(** ** Listing and forwarding *)

Definition echoClient : GatewayServer.Client :=
  {| GatewayServer.callTool :=
       fun name args => inr (JS.JObj [ ("tool", JS.JStr name); ("arguments", args) ]) |}.

Definition echoUpstream (id : string) : option GatewayServer.ServerConnection :=
  if String.eqb id "fs"
  then Some {| GatewayServer.client := Some echoClient;
               GatewayServer.status := GatewayServer.connected |}
  else None.

Definition readme : Resources.AggregatedResource :=
  {| Resources.uri := "fs:file:///readme";
     Resources.originalUri := "file:///readme";
     Resources.serverId := "fs";
     Resources.namespace := Some "fs";
     Resources.name := None;
     Resources.description := None;
     Resources.mimeType := Some "text/plain" |}.

Definition resourceRegistry (uri : string) : option Resources.AggregatedResource :=
  if String.eqb uri "fs:file:///readme" then Some readme else None.

Definition servingClient : Resources.Client :=
  {| Resources.readResource := fun uri => inr (JS.JObj [ ("uri", JS.JStr uri) ]) |}.

Definition servingConnection : Resources.ServerConnection :=
  {| Resources.client := Some servingClient;
     Resources.status := GatewayServer.connected |}.

Definition resourceUpstream (id : string) : option Resources.ServerConnection :=
  if String.eqb id "fs" then Some servingConnection else None.

Definition greeting : Prompts.AggregatedPrompt :=
  {| Prompts.name := "fs:greet";
     Prompts.originalName := "greet";
     Prompts.serverId := "fs";
     Prompts.namespace := Some "fs";
     Prompts.description := Some "Says hello";
     Prompts.arguments := None |}.

Definition promptRegistry (name : string) : option Prompts.AggregatedPrompt :=
  if String.eqb name "fs:greet" then Some greeting else None.

Definition promptClient : Prompts.Client :=
  {| Prompts.getPrompt :=
       fun name args => inr (JS.JObj [ ("prompt", JS.JStr name); ("arguments", args) ]) |}.

Definition promptConnection : Prompts.ServerConnection :=
  {| Prompts.client := Some promptClient;
     Prompts.status := GatewayServer.connected |}.

Definition promptUpstream (id : string) : option Prompts.ServerConnection :=
  if String.eqb id "fs" then Some promptConnection else None.

(** ** x402 verification *)

(** [JSON.parse(Buffer.from(h, 'base64').toString('utf-8'))] at the two
    payment headers used below: "e30=" is the base64 text of "{}", and
    "=" holds no byte, so that the text to parse is empty.  Then a
    facilitator that approves every request. *)
Definition decodeSample (h : string) : JS.Error + JS.Json :=
  if String.eqb h "e30=" then inr (JS.JObj [])
  else inl (JS.mkError "SyntaxError" "Unexpected end of JSON input").

Definition approval : PaymentMiddleware.Response :=
  {| PaymentMiddleware.ok := true;
     PaymentMiddleware.status := 200;
     PaymentMiddleware.statusText := "OK";
     PaymentMiddleware.json := inr (JS.JObj [ ("verified", JS.JBool true) ]) |}.

Definition approving (req : PaymentMiddleware.FetchRequest)
  : JS.Error + PaymentMiddleware.Response := inr approval.

Definition paidHeaders : gmap string string := {[ "x-payment" := "e30=" ]}.
Definition emptyPaymentHeaders : gmap string string := {[ "x-payment" := "=" ]}.
Definition capitalPaymentHeaders : gmap string string := {[ "X-PAYMENT" := "cGF5" ]}.

(** ** Session tokens *)

Definition issuedPayload : JS.Json :=
  JS.JObj [ ("sessionId", JS.JStr "http-session-1");
            ("amount", JS.JStr "100000");
            ("iat", JS.JNum 1000);
            ("exp", JS.JNum 86401000) ].

Definition encodeIssued (payload : JS.Json) : string := "dG9rZW4=".

Definition parseIssued (token : string) : JS.Error + JS.Json :=
  if String.eqb token "dG9rZW4=" then inr issuedPayload
  else inl (JS.mkError "SyntaxError" "Unexpected token").

(** A body parser that knows two bodies, and a fixed date rendering. *)
Definition quoted (s : string) : string :=
  String (ascii_of_N 34) s +:+ String (ascii_of_N 34) EmptyString.

Definition paymentBody : string :=
  "{" +:+ quoted "payment" +:+ ":" +:+ quoted "cGF5" +:+ "}".

Definition parseTwoBodies (body : string) : JS.Error + JS.Json :=
  if String.eqb body "{}" then inr (JS.JObj [])
  else if String.eqb body paymentBody
  then inr (JS.JObj [ ("payment", JS.JStr "cGF5") ])
  else inl (JS.mkError "SyntaxError" "Unexpected token").

Definition fixedDate (t : Z) : string := "1970-01-02T00:00:03.000Z".

(** ** [TransportFactory] *)

Definition legacyServer : TransportFactory.McpServerConfig :=
  {| TransportFactory.name := "fs";
     TransportFactory.transport := None;
     TransportFactory.command := Some "npx";
     TransportFactory.args := Some [ "-y"; "server-filesystem" ];
     TransportFactory.env := Some {[ "HOME" := "/srv" ]};
     TransportFactory.cwd := None |}.

Definition bareServer : TransportFactory.McpServerConfig :=
  {| TransportFactory.name := "bare";
     TransportFactory.transport := None;
     TransportFactory.command := None;
     TransportFactory.args := None;
     TransportFactory.env := None;
     TransportFactory.cwd := None |}.

Definition hostEnv : gmap string string :=
  list_to_map [ ("HOME", "/root"); ("PATH", "/usr/bin") ].

Definition anyUrl (s : string) : JS.Error + string := inr s.

(** ** [ConfigManager] *)

Definition envServers : list ConfigManager.RawServer :=
  [ {| ConfigManager.rawName := "fs";
       ConfigManager.rawCommand := "npx";
       ConfigManager.rawArgs := [ "-y"; "server-filesystem" ] |};
    {| ConfigManager.rawName := "git";
       ConfigManager.rawCommand := "git-mcp";
       ConfigManager.rawArgs := [] |} ].

Definition twoServers : list ConfigManager.McpServerConfig :=
  [ {| ConfigManager.name := "fs";
       ConfigManager.namespace := Some "fs";
       ConfigManager.enabled := true |};
    {| ConfigManager.name := "git";
       ConfigManager.namespace := None;
       ConfigManager.enabled := false |} ].

End Samples.

(* ===================================================================== *)
(** * Facts about the built-ins                                           *)
(* ===================================================================== *)

Section BuiltinFacts.

Lemma truthy_Some (o : option string) (s : string) :
  JS.truthy o = Some s <-> o = Some s /\ s <> "".
Proof.
  destruct o as [[|c r]|]; simpl; (split; [intros E | intros [E1 E2]]);
    try congruence; split; congruence.
Qed.

Lemma truthyValue_idem (o : option JS.Value) :
  JS.truthyValue (JS.truthyValue o) = JS.truthyValue o.
Proof. now destruct o as [[[|c r]|k]|]. Qed.

Lemma truthyValue_Str (o : option string) :
  JS.truthyValue (JS.Str <$> o) = JS.Str <$> JS.truthy o.
Proof. now destruct o as [[|c r]|]. Qed.

(** A key that [Object.prototype] does not define is found only as an
    own property. *)
Lemma get_own (obj : gmap string string) (key : string) :
  JS.inherited key = false -> JS.get obj key = JS.Str <$> obj !! key.
Proof.
  intros H. unfold JS.get. rewrite H. now destruct (obj !! key).
Qed.

(** An own property hides the inherited one. *)
Lemma get_entry (obj : gmap string string) (key s : string) :
  obj !! key = Some s -> JS.get obj key = Some (JS.Str s).
Proof. intros H. unfold JS.get. now rewrite H. Qed.

(** A key that [Object.prototype] defines is always found. *)
Lemma get_inherited (obj : gmap string string) (key : string) :
  JS.inherited key = true -> obj !! key = None -> JS.get obj key = Some (JS.Member key).
Proof. intros H E. unfold JS.get. now rewrite E, H. Qed.

Lemma truthy_None (o : option string) :
  JS.truthy o = None <-> o = None \/ o = Some "".
Proof.
  destruct o as [[|c r]|]; simpl; (split; [intros E | intros [E|E]]);
    try congruence; auto.
Qed.

Lemma or_else_l (a b : option string) (s : string) :
  a = Some s -> s <> "" -> JS.or_else a b = Some s.
Proof.
  intros -> H. unfold JS.or_else.
  assert (JS.truthy (Some s) = Some s) as -> by (apply truthy_Some; auto).
  reflexivity.
Qed.

Lemma or_else_r (a b : option string) :
  JS.truthy a = None -> JS.or_else a b = b.
Proof. intros H. unfold JS.or_else. rewrite H. reflexivity. Qed.

Lemma append_cons (c : ascii) (s t : string) :
  String c s +:+ t = String c (s +:+ t).
Proof. reflexivity. Qed.

Lemma stripPrefix_app (p s : string) : JS.stripPrefix p (p +:+ s) = Some s.
Proof.
  induction p as [|c p IH]; [reflexivity|].
  rewrite append_cons. simpl. rewrite Ascii.eqb_refl. exact IH.
Qed.

Lemma replace_prefix (p r s : string) : JS.replace p r (p +:+ s) = r +:+ s.
Proof.
  destruct p as [|a p'].
  - destruct s; reflexivity.
  - rewrite append_cons. unfold JS.replace.
    rewrite <- append_cons, stripPrefix_app. reflexivity.
Qed.

Lemma append_empty_r (s : string) : s +:+ "" = s.
Proof. induction s as [|c s IH]; [reflexivity | now rewrite append_cons, IH]. Qed.

Lemma append_assoc (a b c : string) : (a +:+ b) +:+ c = a +:+ (b +:+ c).
Proof. induction a as [|x a IH]; [reflexivity | now rewrite !append_cons, IH]. Qed.

Lemma append_cancel_l (p a b : string) : p +:+ a = p +:+ b -> a = b.
Proof.
  induction p as [|c p IH]; [auto|].
  rewrite !append_cons. intros [= H]. auto.
Qed.

Lemma startsWith_app (p s : string) : JS.startsWith (p +:+ s) p = true.
Proof. unfold JS.startsWith. now rewrite stripPrefix_app. Qed.

(** [`${error}`] ends with the error's message. *)
Lemma errorToString_message (e : JS.Error) :
  exists pre, JS.errorToString e = pre +:+ JS.err_message e.
Proof.
  destruct e as [n m]. unfold JS.errorToString. simpl.
  destruct n as [|a n'].
  - exists "". reflexivity.
  - destruct m as [|b m'].
    + exists (String a n'). now rewrite append_empty_r.
    + exists (String a n' +:+ ": "). now rewrite append_assoc.
Qed.

End BuiltinFacts.

(* ===================================================================== *)
(** * [PaywallGuard]: session balances and required prices               *)
(* ===================================================================== *)

Section PaywallGuardFacts.
Import PaywallGuard.

Implicit Types (sessions : gmap string PaywallSession) (sid : string) (amount : Z).

Lemma deduct_nonpositive sessions sid amount :
  amount <= 0 -> deductFromSession sessions sid amount = (true, sessions).
Proof.
  intros H. unfold deductFromSession.
  destruct (Z.leb_spec amount 0); [reflexivity | lia].
Qed.

Lemma deduct_missing sessions sid amount :
  0 < amount -> sessions !! sid = None ->
  deductFromSession sessions sid amount = (false, sessions).
Proof.
  intros H Hm. unfold deductFromSession.
  destruct (Z.leb_spec amount 0); [lia|]. now rewrite Hm.
Qed.

Lemma deduct_insufficient sessions sid amount s :
  0 < amount -> sessions !! sid = Some s -> remainingBalance s < amount ->
  deductFromSession sessions sid amount = (false, sessions).
Proof.
  intros H Hs Hb. unfold deductFromSession.
  destruct (Z.leb_spec amount 0); [lia|]. rewrite Hs.
  destruct (Z.ltb_spec (remainingBalance s) amount); [reflexivity | lia].
Qed.

Lemma deduct_sufficient sessions sid amount s :
  0 < amount -> sessions !! sid = Some s -> amount <= remainingBalance s ->
  deductFromSession sessions sid amount =
    (true, <[sid := setRemainingBalance (remainingBalance s - amount) s]> sessions).
Proof.
  intros H Hs Hb. unfold deductFromSession.
  destruct (Z.leb_spec amount 0); [lia|]. rewrite Hs.
  destruct (Z.ltb_spec (remainingBalance s) amount); [lia | reflexivity].
Qed.

(** The four outcomes of a deduction. *)
Lemma deduct_cases sessions sid amount :
  (amount <= 0 /\ deductFromSession sessions sid amount = (true, sessions))
  \/ (0 < amount /\ sessions !! sid = None
      /\ deductFromSession sessions sid amount = (false, sessions))
  \/ (exists s, 0 < amount /\ sessions !! sid = Some s /\ remainingBalance s < amount
      /\ deductFromSession sessions sid amount = (false, sessions))
  \/ (exists s, 0 < amount /\ sessions !! sid = Some s /\ amount <= remainingBalance s
      /\ deductFromSession sessions sid amount =
           (true, <[sid := setRemainingBalance (remainingBalance s - amount) s]> sessions)).
Proof.
  destruct (Z.le_gt_cases amount 0) as [Hle|Hgt].
  - left. split; [assumption | now apply deduct_nonpositive].
  - right. destruct (sessions !! sid) as [s|] eqn:Hs.
    + right. destruct (Z.lt_ge_cases (remainingBalance s) amount).
      * left. exists s. split_and!; try done.
        now apply deduct_insufficient with s.
      * right. exists s. split_and!; try done.
        now apply deduct_sufficient.
    + left. split_and!; try done. now apply deduct_missing.
Qed.

(** C9. For every session id and every positive amount: if the session
    does not exist or its remaining balance is less than the amount,
    [deductFromSession] returns false and leaves the sessions, hence every
    balance, unchanged; otherwise it returns true, decreases the remaining
    balance of that session by exactly the amount, leaves its other fields
    and every other session as they were.  Consequently no balance that
    was non-negative becomes negative, and a non-positive amount succeeds
    without changing anything. *)
Theorem deductFromSession_balance sessions sid amount :
  let r := deductFromSession sessions sid amount in
  (0 < amount ->
   (sessions !! sid = None
    \/ exists s, sessions !! sid = Some s /\ remainingBalance s < amount) ->
   r = (false, sessions))
  /\ (0 < amount ->
      forall s, sessions !! sid = Some s -> amount <= remainingBalance s ->
      r.1 = true
      /\ (exists s', r.2 !! sid = Some s'
            /\ remainingBalance s' = remainingBalance s - amount
            /\ sessionId s' = sessionId s
            /\ authorizedAmount s' = authorizedAmount s
            /\ receipts s' = receipts s
            /\ expiresAt s' = expiresAt s)
      /\ forall sid', sid' <> sid -> r.2 !! sid' = sessions !! sid')
  /\ (forall sid' s s',
        sessions !! sid' = Some s -> r.2 !! sid' = Some s' ->
        0 <= remainingBalance s -> 0 <= remainingBalance s')
  /\ (amount <= 0 -> r = (true, sessions)).
Proof.
  intros r. subst r. repeat split.
  - intros Hpos [Hm | (s & Hs & Hb)];
      eauto using deduct_missing, deduct_insufficient.
  - rewrite (deduct_sufficient _ _ _ s) by assumption. reflexivity.
  - rewrite (deduct_sufficient _ _ _ s) by assumption. simpl.
    eexists. rewrite lookup_insert_eq. repeat split; reflexivity.
  - intros sid' Hne. rewrite (deduct_sufficient _ _ _ s) by assumption. simpl.
    now rewrite lookup_insert_ne.
  - intros sid' s s' Hs Hs' Hnn.
    destruct (deduct_cases sessions sid amount)
      as [[_ E] | [(_ & _ & E) | [(t & _ & _ & _ & E) | (t & Hpos & Ht & Hb & E)]]];
      rewrite E in Hs'; simpl in Hs'; try congruence.
    destruct (decide (sid = sid')) as [<-|Hne].
    + rewrite lookup_insert_eq in Hs'. injection Hs' as <-. simpl. lia.
    + rewrite lookup_insert_ne in Hs' by assumption. congruence.
  - apply deduct_nonpositive.
Qed.

End PaywallGuardFacts.

Section PaywallPriceFacts.
Import PaywallGuard.

Implicit Types (kind : Kind) (id : string) (config : McpServerConfig)
  (pw : PaywallConfig).

(** The price of an item of a server whose paywall is enabled. *)
Lemma price_enabled kind id config pw :
  paywall config = Some pw -> enabled pw = true ->
  getRequiredPriceMicroUSDC kind id config =
    match JS.truthyValue (specificPrice kind id (pricing pw)) with
    | Some v =>
        match JS.ValueToBigInt v with
        | Some p => if 0 <? p then Some p else None
        | None => None
        end
    | None =>
        match JS.truthy (defaultPriceMicroUSDC (pricing pw)) with
        | Some s =>
            match JS.StringToBigInt s with
            | Some p => if 0 <? p then Some p else None
            | None => None
            end
        | None => None
        end
    end.
Proof.
  intros Hpw Hen. unfold getRequiredPriceMicroUSDC, isPaywallEnabled.
  rewrite Hpw, Hen. simpl.
  destruct (JS.truthyValue (specificPrice kind id (pricing pw))) as [v|] eqn:Hs.
  - rewrite <- Hs, truthyValue_idem, Hs. reflexivity.
  - rewrite truthyValue_Str.
    destruct (JS.truthy (defaultPriceMicroUSDC (pricing pw))); reflexivity.
Qed.

Lemma price_disabled kind id config :
  isPaywallEnabled config = false -> getRequiredPriceMicroUSDC kind id config = None.
Proof. intros H. unfold getRequiredPriceMicroUSDC. now rewrite H. Qed.

(** C10. [getRequiredPriceMicroUSDC] returns null when the paywall is
    disabled, when neither a per-item nor a default price string is
    configured, when the configured string does not parse as an integer,
    and when it parses to a value <= 0; a returned price is strictly
    positive and is the integer the configured string parses to; and a
    configured per-item string decides the result whatever the default
    is, as the default does when no per-item string is configured.  A
    string is configured when the code's read of it is truthy,
    which is what [!priceStr] tests: the default when it is present and
    non-empty, the per-item string when [pricing.perTool?.[id]] (or its
    sibling) yields a non-empty string.  That read follows the prototype
    chain: for an id that names a member of [Object.prototype] and has no
    entry of its own it yields that member, which is no string, and the
    result is then null whatever the default is. *)
Theorem getRequiredPriceMicroUSDC_cases kind id config :
  let price := getRequiredPriceMicroUSDC kind id config in
  (isPaywallEnabled config = false -> price = None)
  /\ (forall pw, paywall config = Some pw ->
        JS.truthyValue (specificPrice kind id (pricing pw)) = None ->
        JS.truthy (defaultPriceMicroUSDC (pricing pw)) = None ->
        price = None)
  /\ (forall pw s, paywall config = Some pw ->
        JS.truthyValue (specificPrice kind id (pricing pw)) = Some (JS.Str s)
        \/ (JS.truthyValue (specificPrice kind id (pricing pw)) = None
            /\ JS.truthy (defaultPriceMicroUSDC (pricing pw)) = Some s) ->
        (JS.StringToBigInt s = None -> price = None)
        /\ (forall p, JS.StringToBigInt s = Some p -> p <= 0 -> price = None))
  /\ (forall p, price = Some p ->
        0 < p
        /\ exists pw s, paywall config = Some pw /\ enabled pw = true
             /\ JS.StringToBigInt s = Some p
             /\ (JS.truthyValue (specificPrice kind id (pricing pw)) = Some (JS.Str s)
                 \/ (JS.truthyValue (specificPrice kind id (pricing pw)) = None
                     /\ JS.truthy (defaultPriceMicroUSDC (pricing pw)) = Some s)))
  /\ (forall pw s, paywall config = Some pw -> enabled pw = true ->
        JS.truthyValue (specificPrice kind id (pricing pw)) = Some (JS.Str s) ->
        price = match JS.StringToBigInt s with
                | Some p => if 0 <? p then Some p else None
                | None => None
                end)
  /\ (forall pw s, paywall config = Some pw -> enabled pw = true ->
        JS.truthyValue (specificPrice kind id (pricing pw)) = None ->
        JS.truthy (defaultPriceMicroUSDC (pricing pw)) = Some s ->
        price = match JS.StringToBigInt s with
                | Some p => if 0 <? p then Some p else None
                | None => None
                end)
  /\ (forall pw key, paywall config = Some pw ->
        specificPrice kind id (pricing pw) = Some (JS.Member key) ->
        price = None).
Proof.
  intros price. subst price. split_and!.
  - apply price_disabled.
  - intros pw Hpw Hs Hd. destruct (enabled pw) eqn:Hen.
    + rewrite (price_enabled _ _ _ pw Hpw Hen), Hs, Hd. reflexivity.
    + apply price_disabled. unfold isPaywallEnabled. now rewrite Hpw.
  - intros pw s Hpw Hcfg. destruct (enabled pw) eqn:Hen.
    + rewrite (price_enabled _ _ _ pw Hpw Hen).
      destruct Hcfg as [Hs | [Hs Hd]]; rewrite Hs, ?Hd; simpl; split.
      * now intros ->.
      * intros p -> Hle. destruct (Z.ltb_spec 0 p); [lia | reflexivity].
      * now intros ->.
      * intros p -> Hle. destruct (Z.ltb_spec 0 p); [lia | reflexivity].
    + assert (getRequiredPriceMicroUSDC kind id config = None) as ->; [|auto].
      apply price_disabled. unfold isPaywallEnabled. now rewrite Hpw.
  - intros p Hp.
    destruct (paywall config) as [pw|] eqn:Hpw;
      [destruct (enabled pw) eqn:Hen|].
    + rewrite (price_enabled _ _ _ pw Hpw Hen) in Hp.
      destruct (JS.truthyValue (specificPrice kind id (pricing pw))) as [[s|k]|] eqn:Hs.
      * simpl in Hp.
        destruct (JS.StringToBigInt s) as [q|] eqn:Hq; [|discriminate].
        destruct (Z.ltb_spec 0 q); [|discriminate]. injection Hp as ->.
        split; [assumption|]. exists pw, s. split_and!; auto.
      * discriminate.
      * destruct (JS.truthy (defaultPriceMicroUSDC (pricing pw))) as [s|] eqn:Hd;
          [|discriminate].
        destruct (JS.StringToBigInt s) as [q|] eqn:Hq; [|discriminate].
        destruct (Z.ltb_spec 0 q); [|discriminate]. injection Hp as ->.
        split; [assumption|]. exists pw, s. split_and!; auto.
    + rewrite price_disabled in Hp; [discriminate|].
      unfold isPaywallEnabled. now rewrite Hpw.
    + rewrite price_disabled in Hp; [discriminate|].
      unfold isPaywallEnabled. now rewrite Hpw.
  - intros pw s Hpw Hen Hs. rewrite (price_enabled _ _ _ pw Hpw Hen), Hs. reflexivity.
  - intros pw s Hpw Hen Hs Hd.
    rewrite (price_enabled _ _ _ pw Hpw Hen), Hs, Hd. reflexivity.
  - intros pw key Hpw Hs. destruct (enabled pw) eqn:Hen.
    + rewrite (price_enabled _ _ _ pw Hpw Hen), Hs. reflexivity.
    + apply price_disabled. unfold isPaywallEnabled. now rewrite Hpw.
Qed.

End PaywallPriceFacts.

Section PaywallWitnesses.
Import PaywallGuard Samples.

Lemma deductFromSession_balance_witness :
  deductFromSession ledger "bob" 3 = (false, ledger)
  /\ deductFromSession ledger "alice" 11 = (false, ledger)
  /\ (deductFromSession ledger "alice" 3).1 = true
  /\ remainingBalance <$> (deductFromSession ledger "alice" 3).2 !! "alice" = Some 7
  /\ deductFromSession ledger "alice" 0 = (true, ledger).
Proof.
  split_and!.
  - apply (deductFromSession_balance ledger "bob" 3); [lia | left; reflexivity].
  - apply (deductFromSession_balance ledger "alice" 11); [lia|].
    right. exists alice. split; [reflexivity | simpl; lia].
  - apply (deductFromSession_balance ledger "alice" 3) with alice;
      [lia | reflexivity | simpl; lia].
  - destruct (deductFromSession_balance ledger "alice" 3) as (_ & H & _).
    destruct (H ltac:(lia) alice eq_refl ltac:(simpl; lia))
      as (_ & (s' & -> & Hb & _) & _).
    simpl. now rewrite Hb.
  - apply (deductFromSession_balance ledger "alice" 0). lia.
Defined.

Lemma getRequiredPriceMicroUSDC_cases_witness :
  getRequiredPriceMicroUSDC tool "search" closedServer = None
  /\ getRequiredPriceMicroUSDC tool "broken" paidServer = None
  /\ getRequiredPriceMicroUSDC tool "gratis" paidServer = None
  /\ getRequiredPriceMicroUSDC tool "search" paidServer = Some 2500
  /\ getRequiredPriceMicroUSDC tool "blank" paidServer = Some 500
  /\ getRequiredPriceMicroUSDC tool "list" paidServer = Some 500
  /\ getRequiredPriceMicroUSDC tool "constructor" paidServer = None.
Proof.
  split_and!; cycle 4.
  - destruct (getRequiredPriceMicroUSDC_cases tool "blank" paidServer)
      as (_ & _ & _ & _ & _ & H & _).
    apply (H _ "500" eq_refl); reflexivity.
  - destruct (getRequiredPriceMicroUSDC_cases tool "list" paidServer)
      as (_ & _ & _ & _ & _ & H & _).
    apply (H _ "500" eq_refl); reflexivity.
  - destruct (getRequiredPriceMicroUSDC_cases tool "constructor" paidServer)
      as (_ & _ & _ & _ & _ & _ & H).
    apply (H _ "constructor" eq_refl). reflexivity.
  - apply (getRequiredPriceMicroUSDC_cases tool "search" closedServer). reflexivity.
  - destruct (getRequiredPriceMicroUSDC_cases tool "broken" paidServer)
      as (_ & _ & H & _).
    apply (H _ "1.5" eq_refl); [left|]; reflexivity.
  - destruct (getRequiredPriceMicroUSDC_cases tool "gratis" paidServer)
      as (_ & _ & H & _).
    apply (H _ "0" eq_refl) with 0; [left; reflexivity | reflexivity | lia].
  - destruct (getRequiredPriceMicroUSDC_cases tool "search" paidServer)
      as (_ & _ & _ & _ & H & _).
    apply (H _ "2500" eq_refl); reflexivity.
Defined.

End PaywallWitnesses.

(* ===================================================================== *)
(** * [PaymentMiddleware]: admission                                      *)
(* ===================================================================== *)

Section AdmissionFacts.
Import Config PaymentMiddleware.

Variable decode : string -> JS.Error + JS.Json.

Implicit Types (config : GatewayConfig) (toolName serverId : string)
  (headers : gmap string string) (pricing : ToolPricing).

Lemma apiKeyCache_fold (ks : list ApiKeyConfig) (m : gmap string ApiKeyConfig)
    (k : string) (kc : ApiKeyConfig) :
  foldl (fun m kc => <[key kc := kc]> m) m ks !! k = Some kc ->
  m !! k = Some kc \/ (In kc ks /\ key kc = k).
Proof.
  revert m. induction ks as [|a ks IH]; intros m Hm; simpl in Hm; [now left|].
  destruct (IH _ Hm) as [Hl | [Hin Hk]].
  - destruct (decide (key a = k)) as [E|E].
    + rewrite E, lookup_insert_eq in Hl. injection Hl as ->.
      right. split; [now left | exact E].
    + rewrite lookup_insert_ne in Hl by assumption. now left.
  - right. split; [now right | exact Hk].
Qed.

(** A key found in the cache is one of the configured [apiKeys]. *)
Lemma apiKeyCache_configured config (k : string) (kc : ApiKeyConfig) :
  apiKeyCache config !! k = Some kc ->
  exists ks, payment config ≫= apiKeys = Some ks /\ In kc ks /\ key kc = k.
Proof.
  unfold apiKeyCache. destruct (payment config ≫= apiKeys) as [ks|];
    [|now rewrite lookup_empty].
  intros H. exists ks. split; [reflexivity|].
  destruct (apiKeyCache_fold _ _ _ _ H) as [Hl | Hr];
    [now rewrite lookup_empty in Hl | exact Hr].
Qed.

(** No pricing resolves when no entry of that name carries a pricing and
    the server has no default. *)
Lemma getToolPricing_unpriced config toolName serverId :
  (forall s, List.find (fun s => String.eqb (name s) serverId) (servers config) = Some s ->
     defaultPricing s = None
     /\ forall ts t, tools s = Some ts -> In t ts -> tool_name t = toolName ->
          tool_pricing t = None) ->
  getToolPricing config toolName serverId = None.
Proof.
  intros H. unfold getToolPricing.
  destruct (List.find _ (servers config)) as [s|]; [|reflexivity].
  destruct (H s eq_refl) as [Hd Ht].
  destruct (tools s) as [ts|]; simpl; [|exact Hd].
  destruct (List.find _ ts) as [t|] eqn:Hf; simpl; [|exact Hd].
  apply find_some in Hf as [Hin Hname].
  apply String.eqb_eq in Hname.
  now rewrite (Ht ts t eq_refl Hin Hname).
Qed.

(** C2. [verifyPayment] answers authorized, method "free", amount "0",
    and issues no facilitator request, whenever the payment policy is
    disabled, or no pricing resolves for the tool (no entry under the
    tool's name carries a pricing and the server has no [defaultPricing]),
    or the resolved pricing has [free = true]. *)
Theorem verifyPayment_free config toolName serverId (headers : option (gmap string string)) :
  paymentEnabled config = false
  \/ getToolPricing config toolName serverId = None
  \/ (forall s,
        List.find (fun s => String.eqb (name s) serverId) (servers config) = Some s ->
        defaultPricing s = None
        /\ forall ts t, tools s = Some ts -> In t ts -> tool_name t = toolName ->
             tool_pricing t = None)
  \/ (exists pricing, getToolPricing config toolName serverId = Some pricing
                      /\ free pricing = true) ->
  verifyPayment decode config toolName serverId headers =
    Return {| authorized := true; error := None;
              pricing := Some {| amount := "0"; method := method_free |} |}
  /\ forall env, requests env (verifyPayment decode config toolName serverId headers) = [].
Proof.
  intros H.
  assert (verifyPayment decode config toolName serverId headers = Return freeAccess) as ->;
    [|split; reflexivity].
  unfold verifyPayment.
  destruct (paymentEnabled config) eqn:Hen; simpl; [|reflexivity].
  destruct H as [H | [H | [H | (p & H & Hfree)]]].
  - discriminate.
  - now rewrite H.
  - now rewrite (getToolPricing_unpriced _ _ _ H).
  - now rewrite H, Hfree.
Qed.

(** C3, where the code departs from it.  The claim has a key whose
    tier has no entry in [apiKeyTiers] not authorize, and the code's last
    return says the same ("API key valid but no tier pricing
    configured").  But [pricing.apiKeyTiers?.[keyConfig.tier]] is a read
    through the prototype chain: for a tier named like a member of
    [Object.prototype] and without an entry it finds that member, which
    is truthy, so the key is authorized with that member as the amount
    and the x402 verification is never reached. *)
Theorem verifyPayment_apiKey_inherited_tier config toolName serverId headers pricing
    (tiers : gmap string string) apiKey keyConfig :
  paymentEnabled config = true ->
  getToolPricing config toolName serverId = Some pricing ->
  free pricing = false ->
  apiKeyOfHeaders headers = Some apiKey ->
  apiKeyCache config !! apiKey = Some keyConfig ->
  apiKeyTiers pricing = Some tiers ->
  tiers !! tier keyConfig = None ->
  JS.inherited (tier keyConfig) = true ->
  let result := verifyPayment decode config toolName serverId (Some headers) in
  result = Return {| authorized := true; error := None;
                     pricing := Some {| amount := JS.Member (tier keyConfig);
                                        method := method_apiKey |} |}
  /\ forall env, requests env result = [].
Proof.
  intros Hen Hp Hfree Hkey Hcache Htiers Hnone Hproto result. subst result.
  unfold verifyPayment. rewrite Hen, Hp, Hfree. simpl negb. cbv iota.
  unfold verifyApiKey. rewrite Hkey, Hcache, Htiers. simpl.
  rewrite (get_inherited _ _ Hproto Hnone). split; reflexivity.
Qed.

End AdmissionFacts.

Section AdmissionWitnesses.
Import Config PaymentMiddleware Samples.

Lemma verifyPayment_free_witness :
  verifyPayment undecodable freeGateway "ls" "files" None = Return freeAccess
  /\ verifyPayment undecodable priceGateway "plain" "quotes" None = Return freeAccess
  /\ verifyPayment undecodable priceGateway "ping" "quotes" None = Return freeAccess.
Proof.
  split_and!.
  - apply (verifyPayment_free undecodable freeGateway "ls" "files" None).
    left. reflexivity.
  - apply (verifyPayment_free undecodable priceGateway "plain" "quotes" None).
    right. left. reflexivity.
  - apply (verifyPayment_free undecodable priceGateway "ping" "quotes" None).
    right. right. right. eexists. split; reflexivity.
Defined.

Lemma verifyPayment_apiKey_inherited_tier_witness :
  apiKeyTiers tieredPricing ≫= (.!! "constructor") = None
  /\ verifyPayment undecodable legacyTierGateway "get-docs" "docs" (Some legacyHeaders)
     = Return {| authorized := true; error := None;
                 pricing := Some {| amount := JS.Member "constructor";
                                    method := method_apiKey |} |}.
Proof.
  split; [reflexivity|].
  exact (proj1 (verifyPayment_apiKey_inherited_tier undecodable legacyTierGateway
    "get-docs" "docs" legacyHeaders tieredPricing _ "L"
    {| key := "L"; tier := "constructor"; rateLimit := None |}
    eq_refl eq_refl eq_refl eq_refl eq_refl eq_refl eq_refl eq_refl)).
Defined.

End AdmissionWitnesses.

(* ===================================================================== *)
(** * [PaymentMiddleware]: challenges and header forwarding               *)
(* ===================================================================== *)

Section ChallengeFacts.
Import Config PaymentMiddleware.

Lemma USDC_ADDRESSES_nonempty (n a : string) :
  USDC_ADDRESSES !! n = Some a -> a <> "".
Proof.
  intros H. apply elem_of_list_to_map_2 in H.
  repeat (apply elem_of_cons in H as [[= _ ->]|H]; [discriminate|]).
  now apply elem_of_nil in H.
Qed.

(** The address [getUsdcAddress] finds: the table's for a network of the
    table, the base-sepolia one for a name that neither the table nor
    [Object.prototype] knows, and for a name the prototype knows the
    member of that name, which is truthy and no address. *)
Lemma getUsdcAddress_cases (n : string) :
  (forall a, USDC_ADDRESSES !! n = Some a -> getUsdcAddress n = JS.Str a)
  /\ (USDC_ADDRESSES !! n = None -> JS.inherited n = false ->
      getUsdcAddress n = JS.Str "0x036CbD53842c5426634e7929541eC2318f3dCF7e")
  /\ (JS.inherited n = true -> getUsdcAddress n = JS.Member n).
Proof.
  unfold getUsdcAddress. split_and!.
  - intros a E. rewrite (get_entry _ _ _ E).
    pose proof (USDC_ADDRESSES_nonempty _ _ E). now destruct a.
  - intros E H. rewrite (get_own _ _ H), E. reflexivity.
  - intros H. unfold JS.inherited in H. apply bool_decide_eq_true in H.
    unfold JS.objectPrototype in H.
    repeat (apply elem_of_cons in H as [-> | H]; [reflexivity|]).
    now apply elem_of_nil in H.
Qed.

Example USDC_ADDRESSES_known :
  getUsdcAddress "base-sepolia" = JS.Str "0x036CbD53842c5426634e7929541eC2318f3dCF7e"
  /\ getUsdcAddress "base" = JS.Str "0x833589fCD6eDb6E08f4c7C32D4f71b54bdA02913"
  /\ getUsdcAddress "ethereum" = JS.Str "0xA0b86991c6218b36c1d19D4a2e9Eb0cE3606eB48"
  /\ getUsdcAddress "optimism" = JS.Str "0x0b2C639c533813f4Aa9D7837CAf62653d097Ff85"
  /\ getUsdcAddress "polygon" = JS.Str "0x3c499c542cEF5E3811e1192ce70d8cC03d5c3359"
  /\ getUsdcAddress "solana" = JS.Str "0x036CbD53842c5426634e7929541eC2318f3dCF7e"
  /\ getUsdcAddress "valueOf" = JS.Member "valueOf".
Proof. split_and!; reflexivity. Qed.

(** C1, at the input where the code departs from it.  The challenge
    for a tool priced "$2.01" has the shape the claim gives it, one
    [accepts] entry with scheme "exact", the configured network, the
    resource, description, mimeType, recipient, timeout and the USDC
    address of the network, but its [maxAmountRequired] is "2009999"
    where the price amounts to 2010000 atomic units: the amount is
    computed by [parseAmountToAtomicUnits], whose binary64 product falls
    short of the integer (see C4).  And for a payment network outside the
    table that is named like a member of [Object.prototype], the [asset]
    is that member, not the base-sepolia address. *)
Theorem generatePaymentRequiredResponse_two_dollars_one_cent :
  generatePaymentRequiredResponse (Samples.quoting "$2.01" "base-sepolia") "price" "quotes"
  = {| x402Version := 1;
       accepts :=
         [ {| scheme := "exact";
              PaymentMiddleware.network := "base-sepolia";
              maxAmountRequired := "2009999";
              resource := "/tools/price";
              description := "Payment for MCP tool: price";
              mimeType := Some "application/json";
              payTo := "0xAB00000000000000000000000000000000000001";
              maxTimeoutSeconds := 30;
              asset := "0x036CbD53842c5426634e7929541eC2318f3dCF7e" |} ];
       requirementsError :=
         Some ("Payment required for tool 'price'. Amount: $2.01. "
               +:+ "Use X-PAYMENT header (x402) or X-ELIZA-API-KEY.") |}
  /\ Exact.atomic "$2.01" = Some "2010000"
  /\ USDC_ADDRESSES !! "constructor" = None
  /\ asset <$> accepts (generatePaymentRequiredResponse
                          (Samples.quoting "$0.01" "constructor") "price" "quotes")
     = [ JS.Member "constructor" ].
Proof. split_and!; vm_compute; reflexivity. Qed.

(** ** Header lookups *)

Lemma forward_lookup_eq (k v : string) (h m : gmap string string) :
  h !! k = Some v -> v <> "" -> forward k h m !! k = Some v.
Proof.
  intros H Hne. unfold forward.
  assert (JS.truthy (h !! k) = Some v) as -> by (apply truthy_Some; auto).
  apply lookup_insert_eq.
Qed.

Lemma forward_lookup_ne (k j : string) (h m : gmap string string) :
  k <> j -> forward k h m !! j = m !! j.
Proof.
  intros Hne. unfold forward.
  destruct (JS.truthy (h !! k)); [now apply lookup_insert_ne | reflexivity].
Qed.

Lemma forward_from_inbound (k : string) (h m : gmap string string) :
  (forall j w, m !! j = Some w -> h !! j = Some w) ->
  forall j w, forward k h m !! j = Some w -> h !! j = Some w.
Proof.
  intros Hm j w. unfold forward.
  destruct (JS.truthy (h !! k)) as [v|] eqn:E; [|apply Hm].
  apply truthy_Some in E as [E _].
  destruct (decide (k = j)) as [<-|Hne].
  - rewrite lookup_insert_eq. congruence.
  - rewrite lookup_insert_ne by assumption. apply Hm.
Qed.

(** C6, as the code has it.  The header names are matched by exact
    spelling.  The API-key check reads [x-eliza-api-key], then
    [X-ELIZA-API-KEY], then [authorization], then [Authorization], taking
    the first non-empty one, with "Bearer " removed from the last two;
    the x402 check reads [x-payment]; and [extractPaymentHeaders] copies
    each of [x-payment], [x-eliza-api-key], [X-ELIZA-API-KEY],
    [authorization] and [Authorization] that is present and non-empty to
    the outbound map under the same name with the same value, and puts
    nothing there that is not in the inbound map. *)
Theorem headers_exact_spelling (headers : gmap string string) (v : string) :
  v <> "" ->
  (headers !! "x-eliza-api-key" = Some v -> apiKeyOfHeaders headers = Some v)
  /\ (JS.truthy (headers !! "x-eliza-api-key") = None ->
       headers !! "X-ELIZA-API-KEY" = Some v -> apiKeyOfHeaders headers = Some v)
  /\ (JS.truthy (headers !! "x-eliza-api-key") = None ->
       JS.truthy (headers !! "X-ELIZA-API-KEY") = None ->
       headers !! "authorization" = Some ("Bearer " +:+ v) ->
       apiKeyOfHeaders headers = Some v)
  /\ (JS.truthy (headers !! "x-eliza-api-key") = None ->
       JS.truthy (headers !! "X-ELIZA-API-KEY") = None ->
       JS.truthy (headers !! "authorization") = None ->
       headers !! "Authorization" = Some ("Bearer " +:+ v) ->
       apiKeyOfHeaders headers = Some v)
  /\ (headers !! "x-payment" = Some v -> paymentHeaderOf headers = Some v)
  /\ (forall k,
        k = "x-payment" \/ k = "x-eliza-api-key" \/ k = "X-ELIZA-API-KEY"
        \/ k = "authorization" \/ k = "Authorization" ->
        headers !! k = Some v ->
        extractPaymentHeaders (Some headers) !! k = Some v)
  /\ (forall k w, extractPaymentHeaders (Some headers) !! k = Some w ->
        headers !! k = Some w).
Proof.
  intros Hv.
  assert (Htr : JS.truthy (Some v) = Some v) by (apply truthy_Some; auto).
  unfold apiKeyOfHeaders, paymentHeaderOf. split_and!.
  - intros H. rewrite (or_else_l _ _ v H Hv). exact Htr.
  - intros H0 H. rewrite (or_else_r _ _ H0), (or_else_l _ _ v H Hv). exact Htr.
  - intros H0 H1 H.
    assert (E : JS.replace "Bearer " "" <$> headers !! "authorization" = Some v)
      by (rewrite H; apply (f_equal Some), (replace_prefix "Bearer " "" v)).
    rewrite (or_else_r _ _ H0), (or_else_r _ _ H1), (or_else_l _ _ v E Hv).
    exact Htr.
  - intros H0 H1 H2 H.
    assert (E : JS.replace "Bearer " "" <$> headers !! "Authorization" = Some v)
      by (rewrite H; apply (f_equal Some), (replace_prefix "Bearer " "" v)).
    rewrite (or_else_r _ _ H0), (or_else_r _ _ H1), or_else_r, E; [exact Htr|].
    apply truthy_None in H2 as [-> | ->]; reflexivity.
  - intros H. rewrite (or_else_l _ _ v H Hv). exact Htr.
  - intros k Hk H. unfold extractPaymentHeaders.
    destruct Hk as [-> | [-> | [-> | [-> | ->]]]];
      repeat (rewrite forward_lookup_ne by discriminate);
      now apply forward_lookup_eq.
  - unfold extractPaymentHeaders.
    repeat apply forward_from_inbound. intros j w. now rewrite lookup_empty.
Qed.

End ChallengeFacts.

Section ChallengeWitnesses.
Import Config PaymentMiddleware Samples.

(** C6 as stated fails: [X-Eliza-Api-Key] is a casing variant of
    [X-ELIZA-API-KEY], yet a request carrying the key under that name is
    not recognised by the API-key check and the header is not forwarded. *)
Lemma headers_not_case_insensitive : ~ headersCaseInsensitive.
Proof.
  intros H.
  destruct (H mixedCaseKeyHeaders "X-Eliza-Api-Key" "K" eq_refl ltac:(discriminate))
    as [Hkey _].
  destruct (Hkey (or_introl eq_refl)) as [[k Hk] _].
  discriminate Hk.
Qed.

Lemma headers_exact_spelling_witness :
  apiKeyOfHeaders premiumHeaders = Some "K"
  /\ apiKeyOfHeaders basicHeaders = Some "B"
  /\ extractPaymentHeaders (Some premiumHeaders) !! "X-ELIZA-API-KEY" = Some "K".
Proof.
  destruct (headers_exact_spelling premiumHeaders "K" ltac:(discriminate))
    as (_ & Hupper & _ & _ & _ & Hcopy & _).
  destruct (headers_exact_spelling basicHeaders "B" ltac:(discriminate))
    as (_ & _ & Hbearer & _).
  split_and!.
  - apply Hupper; reflexivity.
  - apply Hbearer; reflexivity.
  - apply Hcopy; [right; right; left|]; reflexivity.
Defined.

End ChallengeWitnesses.

(* ===================================================================== *)
(** * [PaymentMiddleware]: amounts                                        *)
(* ===================================================================== *)

Section AmountFacts.
Import PaymentMiddleware.

(** An amount with no digits in it is priced at the default. *)
Lemma parseAmountToAtomicUnits_unparsable (amount : string) :
  JS.scanDecimalLiteral (JS.stripNonNumeric amount) = JS.LitNone ->
  parseAmountToAtomicUnits amount = "10000".
Proof.
  intros H. unfold parseAmountToAtomicUnits, JS.parseFloat. now rewrite H.
Qed.

Example parseAmountToAtomicUnits_cent :
  parseAmountToAtomicUnits "$0.01" = "10000" /\ Exact.atomic "$0.01" = Some "10000".
Proof. split; vm_compute; reflexivity. Qed.

(** C4, at the input where the code departs from it.  ["$2.01"] has two
    decimal places and [floor(2.01 * 10^6) = 2010000] over the rationals,
    but [parseFloat("2.01") * 1_000_000] is the binary64 number
    2009999.9999999998, whose floor the code prints. *)
Theorem parseAmountToAtomicUnits_two_dollars_one_cent :
  parseAmountToAtomicUnits "$2.01" = "2009999"
  /\ Exact.atomic "$2.01" = Some "2010000"
  /\ JS.numberToString (JS.mul (JS.parseFloat "2.01") (JS.numberOfZ 1000000))
     = "2009999.9999999998".
Proof. split_and!; vm_compute; reflexivity. Qed.

Example calculateMarkup_S5 :
  calculateMarkup "$0.10" "20%" = "$0.120000"
  /\ calculateMarkup "$0.10" "$0.05" = "$0.150000".
Proof. split; vm_compute; reflexivity. Qed.

(** C5, at inputs where the code departs from it.  A 30% markup on
    $0.000015 is exactly $0.0000195, which rounds to $0.000020 whether a
    tie goes up or to the even neighbour; the binary64 sum lies below the
    tie and [toFixed(6)] prints $0.000019.  Likewise $0.01 plus the fixed
    markup $0.0000015 is $0.0100015, printed as $0.010001. *)
Theorem calculateMarkup_ties :
  calculateMarkup "$0.000015" "30%" = "$0.000019"
  /\ (p ← Exact.dollars "$0.000015"; P ← Exact.percent "30%";
      Some (Exact.round6 (Exact.markupPercent p P),
            Exact.round6even (Exact.markupPercent p P)))
     = Some ("$0.000020", "$0.000020")
  /\ calculateMarkup "$0.01" "$0.0000015" = "$0.010001"
  /\ (p ← Exact.dollars "$0.01"; f ← Exact.dollars "$0.0000015";
      Some (Exact.round6 (Exact.markupFixed p f),
            Exact.round6even (Exact.markupFixed p f)))
     = Some ("$0.010002", "$0.010002").
Proof. split_and!; vm_compute; reflexivity. Qed.

End AmountFacts.

(* ===================================================================== *)
(** * [GatewayServer]: errors of the CallTool handler                     *)
(* ===================================================================== *)

Section CallToolFacts.
Import GatewayServer.

Variable findTool : string -> option AggregatedTool.
Variable getConnection : string -> option ServerConnection.

(** C7, as the code has it.  A name with no registry entry raises
    MethodNotFound; a found tool whose connection is missing or not in
    the connected state raises InternalError "Server '<id>' is not
    connected"; and when the upstream call throws, the handler raises
    InternalError whose message is "Tool execution failed: " (capital T)
    followed by the rendering of the thrown error, which ends with the
    upstream error message. *)
Theorem callToolHandler_errors (name : string)
    (args : option (list (string * JS.Json))) :
  let outcome := callToolHandler findTool getConnection name args in
  (findTool name = None ->
   outcome = inl {| code := MethodNotFound;
                    message := "Tool '" +:+ name +:+ "' not found" |})
  /\ (forall tool, findTool name = Some tool ->
        getConnection (serverId tool) = None
        \/ (exists c, getConnection (serverId tool) = Some c /\ status c <> connected) ->
        outcome = inl {| code := InternalError;
                         message := "Server '" +:+ serverId tool
                                    +:+ "' is not connected" |})
  /\ (forall tool c upstream e,
        findTool name = Some tool ->
        getConnection (serverId tool) = Some c -> status c = connected ->
        client c = Some upstream ->
        callTool upstream (originalName tool) (JS.JObj (default [] args)) = inl e ->
        exists m, outcome = inl m
          /\ code m = InternalError
          /\ message m = "Tool execution failed: " +:+ JS.errorToString e
          /\ JS.startsWith (message m) "Tool execution failed: " = true
          /\ exists pre, message m = pre +:+ JS.err_message e).
Proof.
  intros outcome. subst outcome. unfold callToolHandler. split_and!.
  - now intros ->.
  - intros tool -> [-> | (c & -> & Hs)]; [reflexivity|].
    destruct (status c); [reflexivity | contradiction | reflexivity | reflexivity].
  - intros tool c upstream e -> -> Hs -> He. rewrite Hs, He. simpl.
    eexists. split_and!; [reflexivity | reflexivity | reflexivity | | ].
    + apply startsWith_app.
    + destruct (errorToString_message e) as [pre ->]. simpl message.
      exists ("Tool execution failed: " +:+ pre). now rewrite append_assoc.
Qed.

End CallToolFacts.

Section CallToolWitnesses.
Import GatewayServer Samples.

(** C7 as stated fails on the quoted prefix: the message of the wrapped
    error begins "Tool execution failed: ", not "tool execution failed: ". *)
Lemma callToolHandler_prefix_is_capitalised :
  exists m, callToolHandler registry failingUpstream "fs:echo" None = inl m
    /\ code m = InternalError
    /\ message m = "Tool execution failed: Error: disk full"
    /\ JS.startsWith (message m) "tool execution failed: " = false.
Proof. eexists. split_and!; reflexivity. Qed.

Lemma callToolHandler_errors_witness :
  callToolHandler registry failingUpstream "nope" None
    = inl {| code := MethodNotFound; message := "Tool 'nope' not found" |}
  /\ callToolHandler registry lostUpstream "fs:echo" None
      = inl {| code := InternalError; message := "Server 'fs' is not connected" |}
  /\ callToolHandler registry failingUpstream "fs:echo" None
      = inl {| code := InternalError;
               message := "Tool execution failed: Error: disk full" |}.
Proof.
  destruct (callToolHandler_errors registry failingUpstream "nope" None)
    as (Hmissing & _).
  destruct (callToolHandler_errors registry lostUpstream "fs:echo" None)
    as (_ & Hlost & _).
  destruct (callToolHandler_errors registry failingUpstream "fs:echo" None)
    as (_ & _ & Hthrown).
  split_and!.
  - apply Hmissing. reflexivity.
  - apply (Hlost echoTool eq_refl).
    right. eexists. split; [reflexivity | discriminate].
  - destruct (Hthrown echoTool
             {| client := Some failingClient; status := connected |}
             failingClient (JS.mkError "Error" "disk full")
             eq_refl eq_refl eq_refl eq_refl eq_refl) as (m & -> & Hc & Hm & _).
    destruct m as [c msg]. simpl in Hc, Hm. now rewrite Hc, Hm.
Defined.

End CallToolWitnesses.

(* ===================================================================== *)
(** * The HTTP wrapper: the 402 response                                 *)
(* ===================================================================== *)

Section HttpFacts.
Import PaymentMiddleware HttpWrapper.

Variable stringify : JS.Json -> string.

(** C8.  The response of the HTTP wrapper binding to a payment challenge
    has status 402, [Content-Type: application/json], an
    [X-Accept-Payment] header holding the serialized requirements, and
    the requirements as its JSON body: an object whose [x402Version] and
    [accepts] array are those of the requirements, entry by entry.  The
    binding is modelled from the spec. *)
Theorem paymentChallenge_response (requirements : PaymentRequirements) :
  let r := paymentChallenge stringify requirements in
  status r = 402
  /\ headers r !! "Content-Type" = Some "application/json"
  /\ headers r !! "X-Accept-Payment" = Some (stringify (body r))
  /\ body r = requirementsJson requirements
  /\ JS.field "x402Version" (body r) = Some (JS.JNum (x402Version requirements))
  /\ exists entries,
       JS.field "accepts" (body r) = Some (JS.JArr entries)
       /\ length entries = length (accepts requirements)
       /\ forall (i : nat) a, accepts requirements !! i = Some a ->
            exists entry, entries !! i = Some entry
              /\ JS.field "scheme" entry = Some (JS.JStr (scheme a))
              /\ JS.field "network" entry = Some (JS.JStr (network a))
              /\ JS.field "maxAmountRequired" entry = Some (JS.JStr (maxAmountRequired a))
              /\ JS.field "resource" entry = Some (JS.JStr (resource a)).
Proof.
  intros r. subst r. do 5 (split; [reflexivity|]).
  eexists. split; [reflexivity|]. split; [apply length_map|].
  intros i a Hi. rewrite list_lookup_fmap, Hi. simpl.
  eexists. split; [reflexivity|]. split_and!; reflexivity.
Qed.

End HttpFacts.

(* ===================================================================== *)
(** * [PaywallGuard]: limits, authorization and expiry                    *)
(* ===================================================================== *)

Section PaywallSessionFacts.
Import PaywallGuard.

Implicit Types (sessions : gmap string PaywallSession) (sid : string)
  (now price : Z) (config : McpServerConfig).

(** The per-request maximum is always strictly positive: it is the
    configured string when the paywall is enabled and the string parses to
    a strictly positive integer, and 100000 in every other case. *)
Theorem getMaxValueMicroUSDC_positive config :
  0 < getMaxValueMicroUSDC config
  /\ (forall pw s p, paywall config = Some pw -> enabled pw = true ->
        maxValueMicroUSDC pw = Some s -> s <> "" ->
        JS.StringToBigInt s = Some p -> 0 < p ->
        getMaxValueMicroUSDC config = p)
  /\ (getMaxValueMicroUSDC config <> 100000 ->
       exists pw s, paywall config = Some pw /\ enabled pw = true
         /\ maxValueMicroUSDC pw = Some s
         /\ JS.StringToBigInt s = Some (getMaxValueMicroUSDC config)).
Proof.
  unfold getMaxValueMicroUSDC, isPaywallEnabled, DEFAULT_MAX.
  destruct (paywall config) as [pw|]; simpl;
    [|split_and!; [lia | discriminate | congruence]].
  destruct (enabled pw) eqn:Hen; simpl;
    [|split_and!; [lia | intros ? ? ? [= <-]; congruence | congruence]].
  destruct (JS.truthy (maxValueMicroUSDC pw)) as [s|] eqn:Hs.
  - apply truthy_Some in Hs as [Hs Hne].
    destruct (JS.StringToBigInt s) as [p|] eqn:Hp.
    + destruct (Z.ltb_spec 0 p).
      * split_and!; [assumption | | ].
        -- intros pw' s' p' [= <-] _ Hs' _ Hp' _. congruence.
        -- intros _. exists pw, s. auto.
      * split_and!; [lia | | congruence].
        intros pw' s' p' [= <-] _ Hs' _ Hp' Hpos.
        assert (p' = p) by congruence. lia.
    + split_and!; [lia | | congruence].
      intros pw' s' p' [= <-] _ Hs' _ Hp' _. congruence.
  - split_and!; [lia | | congruence].
    intros pw' s' p' [= <-] _ Hs' Hne _ _.
    apply truthy_None in Hs as [Hs|Hs]; congruence.
Qed.

(** ** Invariants of the sessions map *)

Lemma sumZ_app (l : list Z) (x : Z) : sumZ (l ++ [x]) = sumZ l + x.
Proof. induction l as [|y l IH]; simpl; lia. Qed.

Lemma wellFormed_insert sessions sid s :
  wellFormed sessions ->
  sessionId s = sid -> remainingBalance s <= authorizedAmount s ->
  authorizedAmount s = sumZ (receipts s) ->
  wellFormed (<[sid := s]> sessions).
Proof.
  intros Hwf H1 H2 H3 sid' s'. destruct (decide (sid = sid')) as [<-|Hne].
  - rewrite lookup_insert_eq. intros [= <-]. auto.
  - rewrite lookup_insert_ne by assumption. apply Hwf.
Qed.

Lemma wellFormed_perform sessions (c : Call) :
  wellFormed sessions -> wellFormed (perform sessions c).
Proof.
  intros Hwf. destruct c as [now id price | now id receipt used | id amt | now]; simpl.
  - unfold isSessionAuthorized.
    destruct (price <=? 0); [exact Hwf|].
    destruct (sessions !! id) as [s|]; [|exact Hwf].
    destruct (expiresAt s <? now); [|exact Hwf].
    intros sid' s' H. simpl in H. apply lookup_delete_Some in H as [_ H].
    now apply Hwf.
  - unfold recordAuthorization.
    destruct (sessions !! id) as [s|] eqn:Hs.
    + destruct (Hwf _ _ Hs) as (H1 & H2 & H3).
      apply wellFormed_insert; [assumption| | | ];
        destruct (Z.ltb_spec 0 used); simpl; rewrite ?sumZ_app;
        first [assumption | lia].
    + apply wellFormed_insert; [assumption| | | ];
        destruct (Z.ltb_spec 0 used); simpl; first [reflexivity | lia].
  - destruct (deduct_cases sessions id amt)
      as [[_ E] | [(_ & _ & E) | [(t & _ & _ & _ & E) | (t & Hpos & Ht & Hb & E)]]];
      rewrite E; simpl; try exact Hwf.
    destruct (Hwf _ _ Ht) as (H1 & H2 & H3).
    apply wellFormed_insert; simpl; try assumption. lia.
  - unfold cleanupExpiredSessions. intros sid' s' H.
    apply map_lookup_filter_Some in H as [H _]. now apply Hwf.
Qed.

(** Whatever sequence of [isSessionAuthorized], [recordAuthorization],
    [deductFromSession] and [cleanupExpiredSessions] calls a guard has
    served, every session is stored under its own id, its remaining
    balance does not exceed its authorized amount, and its authorized
    amount is the sum of its receipts. *)
Theorem sessions_wellFormed (calls : list Call) sid (s : PaywallSession) :
  after calls !! sid = Some s ->
  sessionId s = sid
  /\ remainingBalance s <= authorizedAmount s
  /\ authorizedAmount s = sumZ (receipts s).
Proof.
  assert (G : forall sessions, wellFormed sessions ->
                wellFormed (foldl perform sessions calls)).
  { induction calls as [|c calls IH]; intros sessions Hwf; simpl; [exact Hwf|].
    apply IH. now apply wellFormed_perform. }
  apply (G ∅). intros sid' s' H. now rewrite lookup_empty in H.
Qed.

(** Recording a receipt makes the session live for a day and sets its
    balance to what was stored before (also when that session had
    expired but was not yet deleted), plus the receipt, minus a positive
    [used] amount; the other sessions are not touched. *)
Theorem recordAuthorization_balance now sessions sid
    (receipt : VerifiedPaymentReceipt) (used : Z) :
  let stored := match sessions !! sid with
                | Some s => remainingBalance s
                | None => 0
                end in
  let sessions' := recordAuthorization now sessions sid receipt used in
  getSessionBalance now sessions' sid = stored + amount receipt - Z.max used 0
  /\ (expiresAt <$> sessions' !! sid) = Some (now + DAY)
  /\ forall sid', sid' <> sid -> sessions' !! sid' = sessions !! sid'.
Proof.
  intros stored sessions'. subst stored sessions'.
  unfold recordAuthorization, getSessionBalance. split_and!.
  - rewrite lookup_insert_eq.
    assert (Hlive : forall s, expiresAt s = now + DAY -> (expiresAt s <? now) = false).
    { intros s ->. apply Z.ltb_ge. unfold DAY. lia. }
    destruct (sessions !! sid) as [s|]; destruct (Z.ltb_spec 0 used);
      rewrite Hlive by reflexivity; simpl; lia.
  - rewrite lookup_insert_eq.
    destruct (sessions !! sid); destruct (0 <? used); reflexivity.
  - intros sid' Hne. now rewrite lookup_insert_ne.
Qed.

Lemma session_check now sessions sid price :
  0 < price ->
  (isSessionAuthorized now sessions sid price).1
  = (price <=? getSessionBalance now sessions sid)
  /\ ((isSessionAuthorized now sessions sid price).1 = true ->
       (isSessionAuthorized now sessions sid price).2 = sessions).
Proof.
  intros H. unfold isSessionAuthorized, getSessionBalance.
  destruct (Z.leb_spec price 0); [lia|].
  destruct (sessions !! sid) as [s|]; simpl.
  - destruct (expiresAt s <? now); simpl; [|auto].
    split; [|discriminate]. symmetry. apply Z.leb_gt. lia.
  - split; [|auto]. symmetry. apply Z.leb_gt. lia.
Qed.

Lemma deduct_covered now sessions sid price :
  0 < price -> price <= getSessionBalance now sessions sid ->
  (deductFromSession sessions sid price).1 = true
  /\ getSessionBalance now (deductFromSession sessions sid price).2 sid
     = getSessionBalance now sessions sid - price.
Proof.
  unfold getSessionBalance. intros Hpos Hle.
  destruct (sessions !! sid) as [s|] eqn:Hs; [|lia].
  destruct (expiresAt s <? now) eqn:Hexp; [lia|].
  rewrite (deduct_sufficient _ _ _ s) by assumption. simpl.
  rewrite lookup_insert_eq. simpl. now rewrite Hexp.
Qed.

(** For a positive price, [isSessionAuthorized] answers exactly whether
    the price is within [getSessionBalance]; a non-positive price is
    always authorized.  After a positive answer [deductFromSession]
    succeeds for that price and leaves the balance reduced by the price
    and not negative. *)
Theorem isSessionAuthorized_then_deduct now sessions sid price :
  (price <= 0 -> isSessionAuthorized now sessions sid price = (true, sessions))
  /\ (0 < price ->
       (isSessionAuthorized now sessions sid price).1
       = (price <=? getSessionBalance now sessions sid))
  /\ (0 < price -> (isSessionAuthorized now sessions sid price).1 = true ->
       let sessions' := (isSessionAuthorized now sessions sid price).2 in
       sessions' = sessions
       /\ (deductFromSession sessions' sid price).1 = true
       /\ getSessionBalance now (deductFromSession sessions' sid price).2 sid
          = getSessionBalance now sessions sid - price
       /\ 0 <= getSessionBalance now (deductFromSession sessions' sid price).2 sid).
Proof.
  unfold isSessionAuthorized, getSessionBalance. split_and!.
  - intros H. destruct (Z.leb_spec price 0); [reflexivity | lia].
  - intros H. destruct (Z.leb_spec price 0); [lia|].
    destruct (sessions !! sid) as [s|]; simpl.
    + destruct (expiresAt s <? now); simpl; [|reflexivity].
      symmetry. apply Z.leb_gt. lia.
    + symmetry. apply Z.leb_gt. lia.
  - intros H. destruct (Z.leb_spec price 0); [lia|].
    destruct (sessions !! sid) as [s|] eqn:Hs; simpl; [|discriminate].
    destruct (expiresAt s <? now) eqn:Hexp; simpl; [discriminate|].
    intros Hok. apply Z.leb_le in Hok.
    rewrite (deduct_sufficient _ _ _ s) by assumption. simpl.
    rewrite lookup_insert_eq. simpl. rewrite Hexp. split_and!; try reflexivity. lia.
Qed.

(** A cleanup at [now] removes exactly the sessions that had expired
    before [now] and keeps the others as they are.  What is read at [now]
    or later, a balance or an authorization answer, is the same with and
    without the cleanup.  What is recorded later is not: an authorization
    for a session that had expired adds the receipt to the balance the
    session was left with while the session is still stored, and starts
    from the receipt alone once the cleanup has removed it. *)
Theorem cleanupExpiredSessions_effect now now' sessions sid price :
  now <= now' ->
  let cleaned := cleanupExpiredSessions now sessions in
  getSessionBalance now' cleaned sid = getSessionBalance now' sessions sid
  /\ (isSessionAuthorized now' cleaned sid price).1
     = (isSessionAuthorized now' sessions sid price).1
  /\ (forall s, cleaned !! sid = Some s <-> sessions !! sid = Some s /\ now <= expiresAt s)
  /\ (forall s receipt, sessions !! sid = Some s -> expiresAt s < now ->
        getSessionBalance now' (recordAuthorization now' cleaned sid receipt 0) sid
        = amount receipt
        /\ getSessionBalance now' (recordAuthorization now' sessions sid receipt 0) sid
           = remainingBalance s + amount receipt).
Proof.
  intros Hle cleaned. subst cleaned.
  assert (Hl : forall s, sessions !! sid = Some s ->
            cleanupExpiredSessions now sessions !! sid
            = if expiresAt s <? now then None else Some s).
  { intros s Hs. unfold cleanupExpiredSessions.
    destruct (Z.ltb_spec (expiresAt s) now).
    - apply map_lookup_filter_None. right. intros s' Hs'. simpl.
      assert (s' = s) as -> by congruence. lia.
    - apply map_lookup_filter_Some. split; [assumption | simpl; lia]. }
  assert (Hn : sessions !! sid = None -> cleanupExpiredSessions now sessions !! sid = None).
  { intros Hs. apply map_lookup_filter_None. now left. }
  assert (Hlive : (now' + DAY <? now') = false) by (apply Z.ltb_ge; unfold DAY; lia).
  split_and!.
  - unfold getSessionBalance. destruct (sessions !! sid) as [s|] eqn:Hs.
    + rewrite (Hl s eq_refl). destruct (Z.ltb_spec (expiresAt s) now); [|reflexivity].
      destruct (Z.ltb_spec (expiresAt s) now'); [reflexivity | lia].
    + now rewrite Hn.
  - unfold isSessionAuthorized. destruct (price <=? 0); [reflexivity|].
    destruct (sessions !! sid) as [s|] eqn:Hs.
    + rewrite (Hl s eq_refl).
      destruct (Z.ltb_spec (expiresAt s) now);
        destruct (Z.ltb_spec (expiresAt s) now'); try reflexivity; lia.
    + now rewrite Hn.
  - intros s. split.
    + intros H. apply map_lookup_filter_Some in H as [H Hx]. simpl in Hx.
      split; [assumption | lia].
    + intros [H Hx]. apply map_lookup_filter_Some. split; [assumption | simpl; lia].
  - intros s receipt Hs Hexp. unfold recordAuthorization, getSessionBalance.
    rewrite !lookup_insert_eq, (Hl s Hs), Hs.
    destruct (Z.ltb_spec (expiresAt s) now); [|lia].
    simpl. rewrite Hlive. split; reflexivity.
Qed.

End PaywallSessionFacts.

Section PaywallSessionWitnesses.
Import PaywallGuard Samples.

Lemma getMaxValueMicroUSDC_positive_witness :
  getMaxValueMicroUSDC cappedServer = 250000
  /\ getMaxValueMicroUSDC paidServer = 100000.
Proof.
  destruct (getMaxValueMicroUSDC_positive cappedServer) as (_ & H & _).
  split; [|reflexivity].
  refine (H _ "250000" 250000 eq_refl eq_refl eq_refl _ eq_refl _);
    [discriminate | lia].
Defined.

Lemma sessions_wellFormed_witness :
  exists s,
    after [ CallRecordAuthorization 1000 "alice" topUp 0;
            CallDeductFromSession "alice" 2500;
            CallRecordAuthorization 2000 "alice" topUp 30000 ] !! "alice" = Some s
    /\ remainingBalance s = 167500
    /\ remainingBalance s <= authorizedAmount s.
Proof.
  eexists. split; [reflexivity|]. split; [reflexivity|].
  eapply (sessions_wellFormed
            [ CallRecordAuthorization 1000 "alice" topUp 0;
              CallDeductFromSession "alice" 2500;
              CallRecordAuthorization 2000 "alice" topUp 30000 ] "alice").
  reflexivity.
Defined.

Lemma isSessionAuthorized_then_deduct_witness :
  (isSessionAuthorized 0 ledger "alice" 10).1 = true
  /\ (deductFromSession ledger "alice" 10).1 = true
  /\ (isSessionAuthorized 0 ledger "alice" 11).1 = false.
Proof.
  destruct (isSessionAuthorized_then_deduct 0 ledger "alice" 10) as (_ & Hiff & Hthen).
  destruct (isSessionAuthorized_then_deduct 0 ledger "alice" 11) as (_ & Hiff' & _).
  assert (Hok : (isSessionAuthorized 0 ledger "alice" 10).1 = true)
    by (rewrite Hiff by lia; reflexivity).
  split_and!.
  - exact Hok.
  - destruct (Hthen ltac:(lia) Hok) as (Hsame & Hd & _).
    rewrite Hsame in Hd. exact Hd.
  - rewrite Hiff' by lia. reflexivity.
Defined.

Lemma cleanupExpiredSessions_effect_witness :
  getSessionBalance 86400001 (cleanupExpiredSessions 86400001 ledger) "alice" = 0
  /\ getSessionBalance 86400001
       (recordAuthorization 86400001 (cleanupExpiredSessions 86400001 ledger)
          "alice" topUp 0) "alice" = 100000
  /\ getSessionBalance 86400001
       (recordAuthorization 86400001 ledger "alice" topUp 0) "alice" = 100010.
Proof.
  destruct (cleanupExpiredSessions_effect 86400001 86400001 ledger "alice" 1
              ltac:(lia)) as (H & _ & _ & Hrecord).
  destruct (Hrecord alice topUp eq_refl ltac:(simpl; lia)) as [Hcleaned Hkept].
  split_and!.
  - rewrite H. reflexivity.
  - exact Hcleaned.
  - exact Hkept.
Defined.

End PaywallSessionWitnesses.

(* ===================================================================== *)
(** * [PaywallGateway]: what a call costs                                 *)
(* ===================================================================== *)

Section PaywallGatewayFacts.
Import PaywallGateway.

Variable findTool : string -> option GatewayServer.AggregatedTool.
Variable getConnection : string -> option GatewayServer.ServerConnection.
Variable servers : list PaywallGuard.McpServerConfig.
Variable currentSessionId : string.
Variable walletNetwork : PaywallGuard.McpServerConfig -> string.
Variable handleGetPricing : JS.Json.
Variable renderMcpError : McpError -> string.
Variable otherBalance : JS.Json -> option Z.

Implicit Types (sessions : gmap string PaywallGuard.PaywallSession)
  (tool : GatewayServer.AggregatedTool) (now stamp later price : Z).

(** The outcome of the paywall check for a priced tool. *)
Lemma enforcePaywall_priced now stamp tool sessions serverConfig price :
  List.find (fun s => String.eqb (PaywallGuard.name s) (GatewayServer.serverId tool))
    servers = Some serverConfig ->
  PaywallGuard.getRequiredPriceMicroUSDC PaywallGuard.tool
    (GatewayServer.originalName tool) serverConfig = Some price ->
  0 < price ->
  enforcePaywall servers currentSessionId walletNetwork now stamp tool sessions =
    if price <=? PaywallGuard.getSessionBalance now sessions currentSessionId
    then (None, (PaywallGuard.deductFromSession sessions currentSessionId price).2)
    else (Some (createPaymentRequiredError walletNetwork stamp PaywallGuard.tool
                  (GatewayServer.originalName tool) price serverConfig),
          (PaywallGuard.isSessionAuthorized now sessions currentSessionId price).2).
Proof.
  intros Hfind Hprice Hpos. unfold enforcePaywall. rewrite Hfind, Hprice.
  destruct (Z.ltb_spec 0 price); [|lia].
  destruct (session_check now sessions currentSessionId price Hpos) as [Hiff Hthen].
  destruct (PaywallGuard.isSessionAuthorized now sessions currentSessionId price)
    as [ok sessions'] eqn:E.
  simpl in Hiff, Hthen. rewrite <- Hiff. destruct ok; simpl; [|reflexivity].
  now rewrite (Hthen eq_refl).
Qed.

Lemma price_positive kind id serverConfig price :
  PaywallGuard.getRequiredPriceMicroUSDC kind id serverConfig = Some price -> 0 < price.
Proof.
  unfold PaywallGuard.getRequiredPriceMicroUSDC.
  destruct (negb _); [discriminate|].
  destruct (PaywallGuard.paywall serverConfig) as [pw|]; [|discriminate].
  destruct (JS.truthyValue _) as [v|]; [|discriminate].
  destruct (JS.ValueToBigInt v) as [p|]; [|discriminate].
  destruct (Z.ltb_spec 0 p); [|discriminate]. now intros [= <-].
Qed.

Lemma refusal_keeps_balances now sessions sid price (id : string) :
  PaywallGuard.getSessionBalance now
    (PaywallGuard.isSessionAuthorized now sessions id price).2 sid
  = PaywallGuard.getSessionBalance now sessions sid.
Proof.
  unfold PaywallGuard.isSessionAuthorized, PaywallGuard.getSessionBalance.
  destruct (price <=? 0); [reflexivity|].
  destruct (sessions !! id) as [s|] eqn:Hs; [|reflexivity].
  destruct (PaywallGuard.expiresAt s <? now) eqn:Hexp; [|reflexivity]. simpl.
  destruct (decide (id = sid)) as [<-|Hne].
  - rewrite lookup_delete_eq, Hs, Hexp. reflexivity.
  - rewrite lookup_delete_ne by assumption. reflexivity.
Qed.

Lemma deduct_others sessions (id sid : string) price :
  sid <> id -> (PaywallGuard.deductFromSession sessions id price).2 !! sid = sessions !! sid.
Proof.
  intros Hne.
  destruct (deduct_cases sessions id price)
    as [[_ E] | [(_ & _ & E) | [(t & _ & _ & _ & E) | (t & _ & _ & _ & E)]]];
    rewrite E; simpl; try reflexivity.
  now rewrite lookup_insert_ne by congruence.
Qed.

(** A call to a priced tool whose session cannot pay is refused with
    InternalError "Payment required for tool '<original name>': <price>
    micro-USDC" whatever the upstream client is, so the upstream is not
    called, and no balance changes.  A session that can pay is charged
    the price before the upstream is called: its balance goes down by
    exactly the price whether the upstream answers, throws, or has no
    client; a throw is reported as "Tool execution failed: ...". *)
Theorem callTool_paywall (uuid randomHex : string) now stamp later
    (name : string) (args : option (list (string * JS.Json))) sessions
    tool (connection : GatewayServer.ServerConnection) serverConfig price :
  JS.startsWith name "gateway:paywall:" = false ->
  findTool name = Some tool ->
  getConnection (GatewayServer.serverId tool) = Some connection ->
  GatewayServer.status connection = GatewayServer.connected ->
  List.find (fun s => String.eqb (PaywallGuard.name s) (GatewayServer.serverId tool))
    servers = Some serverConfig ->
  PaywallGuard.getRequiredPriceMicroUSDC PaywallGuard.tool
    (GatewayServer.originalName tool) serverConfig = Some price ->
  let r := callToolHandler findTool getConnection servers currentSessionId
             walletNetwork handleGetPricing renderMcpError otherBalance
             uuid randomHex now stamp later name args sessions in
  let upstream :=
    match GatewayServer.client connection with
    | Some c => GatewayServer.callTool c (GatewayServer.originalName tool)
                  (JS.JObj (default [] args))
    | None => inl GatewayServer.nullClientError
    end in
  let balance := PaywallGuard.getSessionBalance now sessions currentSessionId in
  (balance < price ->
     r.1 = inl {| code := InternalError;
                  message := "Payment required for tool '"
                             +:+ GatewayServer.originalName tool
                             +:+ "': " +:+ JS.decimalOfZ price +:+ " micro-USDC";
                  data := data (createPaymentRequiredError walletNetwork stamp
                                  PaywallGuard.tool (GatewayServer.originalName tool)
                                  price serverConfig) |}
     /\ forall sid, PaywallGuard.getSessionBalance now r.2 sid
                    = PaywallGuard.getSessionBalance now sessions sid)
  /\ (price <= balance ->
        PaywallGuard.getSessionBalance now r.2 currentSessionId = balance - price
        /\ (forall sid, sid <> currentSessionId -> r.2 !! sid = sessions !! sid)
        /\ (forall response, upstream = inr response -> r.1 = inr response)
        /\ (forall e, upstream = inl e ->
              r.1 = inl {| code := InternalError;
                           message := "Tool execution failed: " +:+ JS.errorToString e;
                           data := None |})).
Proof.
  intros Hname Htool Hconn Hstatus Hfind Hprice r upstream balance.
  subst r upstream balance.
  assert (Hpos : 0 < price) by (eapply price_positive; eassumption).
  unfold callToolHandler. rewrite Hname, Htool, Hconn, Hstatus. simpl negb. cbv iota.
  rewrite (enforcePaywall_priced now stamp tool sessions serverConfig price) by assumption.
  split; intros Hbal.
  - destruct (Z.leb_spec price
                (PaywallGuard.getSessionBalance now sessions currentSessionId)); [lia|].
    split; [reflexivity|]. intros sid. apply refusal_keeps_balances.
  - destruct (Z.leb_spec price
                (PaywallGuard.getSessionBalance now sessions currentSessionId)); [|lia].
    destruct (deduct_covered now sessions currentSessionId price Hpos Hbal)
      as [_ Hcharged].
    destruct (match GatewayServer.client connection with
              | Some c => _
              | None => _
              end) as [e|response]; simpl; split_and!;
      try assumption; try congruence; intros sid Hsid; now apply deduct_others.
Qed.

(** With no paywall-enabled server, a call whose name is not under the
    reserved prefix behaves exactly as the handler without paywall, and
    leaves the sessions alone. *)
Theorem callTool_without_paywall (uuid randomHex : string) now stamp later
    (name : string) (args : option (list (string * JS.Json))) sessions :
  JS.startsWith name "gateway:paywall:" = false ->
  (forall s, In s servers -> PaywallGuard.isPaywallEnabled s = false) ->
  callToolHandler findTool getConnection servers currentSessionId
    walletNetwork handleGetPricing renderMcpError otherBalance
    uuid randomHex now stamp later name args sessions =
    (match GatewayServer.callToolHandler findTool getConnection name args with
     | inl e => inl (plainError e)
     | inr response => inr response
     end, sessions).
Proof.
  intros Hname Hoff. unfold callToolHandler, GatewayServer.callToolHandler.
  rewrite Hname. destruct (findTool name) as [tool|]; [|reflexivity].
  destruct (getConnection (GatewayServer.serverId tool)) as [c|]; [|reflexivity].
  destruct (negb _); [reflexivity|].
  assert (enforcePaywall servers currentSessionId walletNetwork now stamp tool sessions
          = (None, sessions)) as ->.
  { unfold enforcePaywall.
    destruct (List.find _ servers) as [sc|] eqn:Hfind; [|reflexivity].
    apply find_some in Hfind as [Hin _].
    now rewrite (price_disabled _ _ _ (Hoff sc Hin)). }
  destruct (match GatewayServer.client c with Some _ => _ | None => _ end);
    reflexivity.
Qed.

(** Names under "gateway:paywall:" never reach the registry: apart from
    get-pricing and authorize they raise MethodNotFound "Unknown paywall
    tool: <name>", also when an upstream tool has that very name, and the
    sessions are untouched. *)
Theorem callTool_reserved_prefix (uuid randomHex : string) now stamp later
    (suffix : string) (args : option (list (string * JS.Json))) sessions :
  suffix <> "get-pricing" -> suffix <> "authorize" ->
  callToolHandler findTool getConnection servers currentSessionId
    walletNetwork handleGetPricing renderMcpError otherBalance
    uuid randomHex now stamp later ("gateway:paywall:" +:+ suffix) args sessions =
    (inl {| code := MethodNotFound;
            message := "Unknown paywall tool: gateway:paywall:" +:+ suffix;
            data := None |}, sessions).
Proof.
  intros H1 H2. unfold callToolHandler. rewrite startsWith_app.
  unfold handlePaywallTool.
  assert (E : forall t, suffix <> t ->
            String.eqb ("gateway:paywall:" +:+ suffix) ("gateway:paywall:" +:+ t) = false).
  { intros t Hne. apply String.eqb_neq. intros Heq. apply Hne.
    now apply append_cancel_l in Heq. }
  change "gateway:paywall:get-pricing" with ("gateway:paywall:" +:+ "get-pricing").
  change "gateway:paywall:authorize" with ("gateway:paywall:" +:+ "authorize").
  rewrite (E "get-pricing" H1), (E "authorize" H2). reflexivity.
Qed.

(** Authorizing with any truthy [xPayment] and no truthy [token]
    records 100000 micro-USDC under the key [sessionId ||
    this.currentSessionId]: a truthy [sessionId] is that key whatever its
    type, and the current session is the target only when [sessionId] is
    absent or falsy.  With a string as key the call succeeds, the balance
    of that session becomes what was stored plus 100000, whatever
    [xPayment] is, no other session changes, and the answer names the
    session and the new balance.  With a key that is no string, the
    number 7 say, no session under a string key is credited, neither the
    current one nor the one called "7": the answer names the key and
    reports 100000 more than the guard held under that number or
    boolean, and just 100000 for an array or an object, which is a new
    key every time; when the key has no string form the call fails with
    "Payment authorization failed: ...".  A truthy [token] fails with
    "Payment authorization failed: ...", and with neither [xPayment] nor
    [token] the call fails with InvalidParams; no session changes in
    either case. *)
Theorem handleAuthorizePayment_credits (uuid randomHex : string) now stamp later
    (args : list (string * JS.Json)) sessions :
  later <= now + PaywallGuard.DAY ->
  let key := targetSessionId currentSessionId args in
  let stored (target : string) := match sessions !! target with
                                  | Some s => PaywallGuard.remainingBalance s
                                  | None => 0
                                  end in
  let r := handleAuthorizePayment currentSessionId renderMcpError otherBalance
             uuid randomHex stamp now later args sessions in
  (truthyArg "sessionId" args = None -> key = JS.JStr currentSessionId)
  /\ (forall sessionId, truthyArg "sessionId" args = Some sessionId -> key = sessionId)
  /\ (forall xPayment, truthyArg "xPayment" args = Some xPayment ->
        truthyArg "token" args = None ->
        (forall target, key = JS.JStr target ->
           r.1 = inr (textContent (authorizedText target 100000 (stored target + 100000)))
           /\ PaywallGuard.getSessionBalance later r.2 target = stored target + 100000
           /\ forall sid, sid <> target -> r.2 !! sid = sessions !! sid)
        /\ ((forall target, key <> JS.JStr target) ->
              r.2 = sessions
              /\ (forall text, JS.ToString key = inr text ->
                    ((exists z, key = JS.JNum z) \/ (exists b, key = JS.JBool b) ->
                     r.1 = inr (textContent
                                  (authorizedText text 100000
                                     (default 0 (otherBalance key) + 100000))))
                    /\ ((exists items, key = JS.JArr items)
                        \/ (exists fields, key = JS.JObj fields) ->
                        r.1 = inr (textContent (authorizedText text 100000 100000))))
              /\ (forall e, JS.ToString key = inl e ->
                    r.1 = inl {| code := InternalError;
                                 message := "Payment authorization failed: "
                                            +:+ JS.errorToString e;
                                 data := None |})))
  /\ (forall token, truthyArg "token" args = Some token ->
        (exists e, r.1 = inl e /\ code e = InternalError) /\ r.2 = sessions)
  /\ (truthyArg "xPayment" args = None -> truthyArg "token" args = None ->
        r = (inl {| code := InvalidParams;
                    message := "Either xPayment or token must be provided";
                    data := None |}, sessions)).
Proof.
  intros Hlater key stored r. subst key stored r.
  assert (Hlive : (now + PaywallGuard.DAY <? later) = false) by (apply Z.ltb_ge; lia).
  unfold handleAuthorizePayment. split_and!.
  - unfold targetSessionId. now intros ->.
  - unfold targetSessionId. now intros sessionId ->.
  - intros xPayment -> ->. split.
    + intros target ->.
      assert (Hbalance :
        PaywallGuard.getSessionBalance later
          (PaywallGuard.recordAuthorization now sessions target
             (PaywallGuard.verifyX402Payment uuid randomHex stamp xPayment 100000
                "base-sepolia" "placeholder-recipient") 0) target
        = match sessions !! target with
          | Some s => PaywallGuard.remainingBalance s
          | None => 0
          end + 100000).
      { unfold PaywallGuard.recordAuthorization, PaywallGuard.getSessionBalance.
        rewrite lookup_insert_eq.
        destruct (sessions !! target) as [s|]; simpl; rewrite Hlive; lia. }
      simpl. rewrite Hbalance. split_and!; [reflexivity | reflexivity |].
      intros sid Hsid. unfold PaywallGuard.recordAuthorization.
      now rewrite lookup_insert_ne by congruence.
    + intros Hkey.
      destruct (targetSessionId currentSessionId args) as [|b|z|target|items|fields] eqn:E;
        try (now destruct (Hkey target)).
      all: unfold balanceUnder; rewrite Hlive.
      all: destruct (JS.ToString _) as [e|text] eqn:Et; simpl.
      all: split; [reflexivity|].
      all: split; [|intros ? [=]; subst; reflexivity].
      all: intros ? [=]; subst.
      all: split; intros [[? [=]] | [? [=]]]; subst; reflexivity.
  - intros token ->. destruct (truthyArg "xPayment" args); simpl;
      (split; [eexists; split; reflexivity | reflexivity]).
  - intros -> ->. reflexivity.
Qed.

End PaywallGatewayFacts.

Section PaywallGatewayWitnesses.
Import PaywallGateway Samples.

Lemma recordAuthorization_balance_witness :
  PaywallGuard.getSessionBalance 90000000
    (PaywallGuard.recordAuthorization 90000000 ledger "alice" topUp 30000) "alice"
  = 10 + 100000 - 30000.
Proof.
  exact (proj1 (recordAuthorization_balance 90000000 ledger "alice" topUp 30000)).
Defined.

Lemma callTool_paywall_witness :
  let r := callToolHandler registry failingUpstream [fsServer] "alice" baseSepolia
             JS.JNull renderAsSdk stringKeysOnly "u" "ab" 2000 2000 2000 "fs:echo" None funded in
  let r0 := callToolHandler registry failingUpstream [fsServer] "alice" baseSepolia
              JS.JNull renderAsSdk stringKeysOnly "u" "ab" 2000 2000 2000 "fs:echo" None ∅ in
  PaywallGuard.getSessionBalance 2000 r.2 "alice" = 100000 - 2500
  /\ r.1 = inl {| code := InternalError;
                  message := "Tool execution failed: Error: disk full";
                  data := None |}
  /\ exists e, r0.1 = inl e
       /\ message e = "Payment required for tool 'echo': 2500 micro-USDC".
Proof.
  destruct (callTool_paywall registry failingUpstream [fsServer] "alice"
              baseSepolia JS.JNull renderAsSdk stringKeysOnly "u" "ab" 2000 2000 2000 "fs:echo" None
              funded echoTool connectedFailing fsServer 2500
              eq_refl eq_refl eq_refl eq_refl eq_refl eq_refl) as [_ Hpaid].
  destruct (callTool_paywall registry failingUpstream [fsServer] "alice"
              baseSepolia JS.JNull renderAsSdk stringKeysOnly "u" "ab" 2000 2000 2000 "fs:echo" None
              ∅ echoTool connectedFailing fsServer 2500
              eq_refl eq_refl eq_refl eq_refl eq_refl eq_refl) as [Hunpaid _].
  destruct (Hpaid ltac:(vm_compute; discriminate)) as (Hbal & _ & _ & Herr).
  destruct (Hunpaid ltac:(vm_compute; reflexivity)) as [He _].
  split; [exact Hbal|]. split; [exact (Herr _ eq_refl)|].
  eexists. split; [exact He | reflexivity].
Defined.

Lemma callTool_without_paywall_witness :
  callToolHandler registry failingUpstream [closedServer] "alice" baseSepolia JS.JNull
    renderAsSdk stringKeysOnly "u" "ab" 2000 2000 2000 "fs:echo" None funded
  = (inl {| code := InternalError;
            message := "Tool execution failed: Error: disk full";
            data := None |}, funded).
Proof.
  refine (callTool_without_paywall registry failingUpstream [closedServer] "alice"
            baseSepolia JS.JNull renderAsSdk stringKeysOnly "u" "ab" 2000 2000 2000 "fs:echo" None
            funded eq_refl _).
  intros s [<- | []]. reflexivity.
Defined.

Lemma callTool_reserved_prefix_witness :
  callToolHandler registry failingUpstream [fsServer] "alice" baseSepolia JS.JNull
    renderAsSdk stringKeysOnly "u" "ab" 2000 2000 2000 "gateway:paywall:refund" None funded
  = (inl {| code := MethodNotFound;
            message := "Unknown paywall tool: gateway:paywall:refund";
            data := None |}, funded).
Proof.
  refine (callTool_reserved_prefix registry failingUpstream [fsServer] "alice"
            baseSepolia JS.JNull renderAsSdk stringKeysOnly "u" "ab" 2000 2000 2000 "refund" None
            funded _ _); discriminate.
Defined.

Lemma handleAuthorizePayment_credits_witness :
  PaywallGuard.getSessionBalance 3000
    (handleAuthorizePayment "alice" renderAsSdk stringKeysOnly "u" "ab" 3000 3000 3000
       [ ("xPayment", JS.JStr "not a payment") ] funded).2 "alice"
  = 100000 + 100000
  /\ handleAuthorizePayment "alice" renderAsSdk stringKeysOnly "u" "ab" 3000 3000 3000
       [ ("xPayment", JS.JStr "not a payment"); ("sessionId", JS.JNum 7) ] funded
     = (inr (textContent (authorizedText "7" 100000 100000)), funded).
Proof.
  destruct (handleAuthorizePayment_credits "alice" renderAsSdk stringKeysOnly "u" "ab"
              3000 3000 3000 [ ("xPayment", JS.JStr "not a payment") ] funded
              ltac:(vm_compute; discriminate)) as (_ & _ & H & _).
  destruct (handleAuthorizePayment_credits "alice" renderAsSdk stringKeysOnly "u" "ab"
              3000 3000 3000
              [ ("xPayment", JS.JStr "not a payment"); ("sessionId", JS.JNum 7) ] funded
              ltac:(vm_compute; discriminate)) as (_ & _ & H7 & _).
  split.
  - exact (proj1 (proj2 (proj1 (H (JS.JStr "not a payment") eq_refl eq_refl)
                           "alice" eq_refl))).
  - destruct (proj2 (H7 (JS.JStr "not a payment") eq_refl eq_refl)
                ltac:(intros target; discriminate)) as (Hsessions & Htext & _).
    apply injective_projections; simpl.
    + exact (proj1 (Htext "7" eq_refl) (or_introl (ex_intro _ 7 eq_refl))).
    + exact Hsessions.
Defined.

End PaywallGatewayWitnesses.

(* ===================================================================== *)
(** * [GatewayServer]: listing and forwarding                             *)
(* ===================================================================== *)

Section ForwardingFacts.

Lemma append_nonempty (c : ascii) (p s : string) : String c p +:+ s <> "".
Proof. rewrite append_cons. discriminate. Qed.

Lemma default_truthy_nonempty (d : string) (o : option string) :
  d <> "" -> default d (JS.truthy o) <> "".
Proof.
  intros Hd. destruct (JS.truthy o) as [s|] eqn:E; simpl; [|exact Hd].
  now apply truthy_Some in E as [_ E].
Qed.

(** The description a list handler gives an entry. *)
Lemma generated_description (label serverId : string) (namespace description : option string) :
  let d := default (label +:+ serverId
                    +:+ match JS.truthy namespace with
                        | Some ns => " (" +:+ ns +:+ ")"
                        | None => ""
                        end)
             (JS.truthy description) in
  (forall d', description = Some d' -> d' <> "" -> d = d')
  /\ (description = None \/ description = Some "" ->
      (forall ns, namespace = Some ns -> ns <> "" ->
         d = label +:+ serverId +:+ " (" +:+ ns +:+ ")")
      /\ (namespace = None \/ namespace = Some "" -> d = label +:+ serverId)).
Proof.
  intros d. subst d. split.
  - intros d' Hd Hne.
    assert (JS.truthy description = Some d') as -> by (apply truthy_Some; auto).
    reflexivity.
  - intros Hd. apply truthy_None in Hd. rewrite Hd. simpl. split.
    + intros ns Hns Hne.
      assert (JS.truthy namespace = Some ns) as -> by (apply truthy_Some; auto).
      reflexivity.
    + intros Hns. apply truthy_None in Hns. rewrite Hns.
      now rewrite append_empty_r.
Qed.

(** The three list handlers answer with one entry per registry entry, in
    registry order, under the aggregated name or URI.  The description
    is the upstream's when that is non-empty; otherwise it is generated,
    "Tool from <server>", "Resource from <server>" or "Prompt from
    <server>", followed by " (<namespace>)" when the entry has a
    non-empty namespace; so it is never empty. *)
Theorem listHandlers_entries :
  (forall tools, exists entries,
      GatewayServer.listToolsHandler tools = JS.JObj [ ("tools", JS.JArr entries) ]
      /\ length entries = length tools
      /\ forall (i : nat) tool, tools !! i = Some tool ->
           exists entry d, entries !! i = Some entry
             /\ JS.field "name" entry = Some (JS.JStr (GatewayServer.name tool))
             /\ JS.field "inputSchema" entry = Some (GatewayServer.inputSchema tool)
             /\ JS.field "description" entry = Some (JS.JStr d) /\ d <> ""
             /\ (forall d', GatewayServer.description tool = Some d' -> d' <> "" -> d = d')
             /\ (GatewayServer.description tool = None \/ GatewayServer.description tool = Some "" ->
                 (forall ns, GatewayServer.namespace tool = Some ns -> ns <> "" ->
                    d = "Tool from " +:+ GatewayServer.serverId tool +:+ " (" +:+ ns +:+ ")")
                 /\ (GatewayServer.namespace tool = None \/ GatewayServer.namespace tool = Some "" ->
                     d = "Tool from " +:+ GatewayServer.serverId tool)))
  /\ (forall resources, exists entries,
        Resources.listResourcesHandler resources
        = JS.JObj [ ("resources", JS.JArr entries) ]
        /\ length entries = length resources
        /\ forall (i : nat) resource, resources !! i = Some resource ->
             exists entry d, entries !! i = Some entry
               /\ JS.field "uri" entry = Some (JS.JStr (Resources.uri resource))
               /\ JS.field "name" entry
                  = Some (JS.JStr (default (Resources.originalUri resource)
                                     (JS.truthy (Resources.name resource))))
               /\ JS.field "mimeType" entry = JS.JStr <$> Resources.mimeType resource
               /\ JS.field "description" entry = Some (JS.JStr d) /\ d <> ""
               /\ (forall d', Resources.description resource = Some d' -> d' <> "" -> d = d')
               /\ (Resources.description resource = None \/ Resources.description resource = Some "" ->
                   (forall ns, Resources.namespace resource = Some ns -> ns <> "" ->
                      d = "Resource from " +:+ Resources.serverId resource +:+ " (" +:+ ns +:+ ")")
                   /\ (Resources.namespace resource = None \/ Resources.namespace resource = Some "" ->
                       d = "Resource from " +:+ Resources.serverId resource)))
  /\ (forall prompts, exists entries,
        Prompts.listPromptsHandler prompts = JS.JObj [ ("prompts", JS.JArr entries) ]
        /\ length entries = length prompts
        /\ forall (i : nat) prompt, prompts !! i = Some prompt ->
             exists entry d, entries !! i = Some entry
               /\ JS.field "name" entry = Some (JS.JStr (Prompts.name prompt))
               /\ JS.field "arguments" entry = Prompts.arguments prompt
               /\ JS.field "description" entry = Some (JS.JStr d) /\ d <> ""
               /\ (forall d', Prompts.description prompt = Some d' -> d' <> "" -> d = d')
               /\ (Prompts.description prompt = None \/ Prompts.description prompt = Some "" ->
                   (forall ns, Prompts.namespace prompt = Some ns -> ns <> "" ->
                      d = "Prompt from " +:+ Prompts.serverId prompt +:+ " (" +:+ ns +:+ ")")
                   /\ (Prompts.namespace prompt = None \/ Prompts.namespace prompt = Some "" ->
                       d = "Prompt from " +:+ Prompts.serverId prompt))).
Proof.
  split_and!.
  - intros tools. eexists. split; [reflexivity|]. split; [apply length_map|].
    intros i tool Hi. rewrite list_lookup_fmap, Hi. simpl.
    eexists _, _. split; [reflexivity|]. do 3 (split; [reflexivity|]).
    split; [apply default_truthy_nonempty, append_nonempty|].
    apply (generated_description "Tool from ").
  - intros resources. eexists. split; [reflexivity|]. split; [apply length_map|].
    intros i resource Hi. rewrite list_lookup_fmap, Hi. simpl.
    eexists _, _. split; [reflexivity|]. do 2 (split; [reflexivity|]).
    split.
    { unfold Resources.listedResource.
      destruct (Resources.mimeType resource); reflexivity. }
    split; [reflexivity|].
    split; [apply default_truthy_nonempty, append_nonempty|].
    apply (generated_description "Resource from ").
  - intros prompts. eexists. split; [reflexivity|]. split; [apply length_map|].
    intros i prompt Hi. rewrite list_lookup_fmap, Hi. simpl.
    eexists _, _. split; [reflexivity|]. split; [reflexivity|].
    split.
    { unfold Prompts.listedPrompt.
      destruct (Prompts.arguments prompt); reflexivity. }
    split; [reflexivity|].
    split; [apply default_truthy_nonempty, append_nonempty|].
    apply (generated_description "Prompt from ").
Qed.

(** A tool call, a resource read and a prompt request are each
    answered exactly when the registry knows the name or URI, the item's
    server is connected with a client, and that client answered the
    request made under the item's original name or URI (with the
    caller's arguments, an empty object when there are none); the answer
    is the upstream's, unchanged. *)
Theorem handlers_forward :
  (forall (findTool : string -> option GatewayServer.AggregatedTool)
      (getConnection : string -> option GatewayServer.ServerConnection)
      (name : string) (args : option (list (string * JS.Json))) (response : JS.Json),
      GatewayServer.callToolHandler findTool getConnection name args = inr response
      <-> exists tool connection c,
            findTool name = Some tool
            /\ getConnection (GatewayServer.serverId tool) = Some connection
            /\ GatewayServer.status connection = GatewayServer.connected
            /\ GatewayServer.client connection = Some c
            /\ GatewayServer.callTool c (GatewayServer.originalName tool)
                 (JS.JObj (default [] args)) = inr response)
  /\ (forall (findResource : string -> option Resources.AggregatedResource)
        (getConnection : string -> option Resources.ServerConnection)
        (uri : string) (response : JS.Json),
        Resources.readResourceHandler findResource getConnection uri = inr response
        <-> exists resource connection c,
              findResource uri = Some resource
              /\ getConnection (Resources.serverId resource) = Some connection
              /\ Resources.status connection = GatewayServer.connected
              /\ Resources.client connection = Some c
              /\ Resources.readResource c (Resources.originalUri resource)
                 = inr response)
  /\ (forall (findPrompt : string -> option Prompts.AggregatedPrompt)
        (getConnection : string -> option Prompts.ServerConnection)
        (name : string) (args : option (list (string * JS.Json))) (response : JS.Json),
        Prompts.getPromptHandler findPrompt getConnection name args = inr response
        <-> exists prompt connection c,
              findPrompt name = Some prompt
              /\ getConnection (Prompts.serverId prompt) = Some connection
              /\ Prompts.status connection = GatewayServer.connected
              /\ Prompts.client connection = Some c
              /\ Prompts.getPrompt c (Prompts.originalName prompt)
                   (JS.JObj (default [] args)) = inr response).
Proof.
  split_and!.
  - intros findTool getConnection name args response.
    unfold GatewayServer.callToolHandler. split.
    + destruct (findTool name) as [tool|]; [|discriminate].
      destruct (getConnection _) as [connection|] eqn:Hc; [|discriminate].
      destruct (GatewayServer.status connection) eqn:Hs; simpl; try discriminate.
      destruct (GatewayServer.client connection) as [c|] eqn:Hcl; [|discriminate].
      destruct (GatewayServer.callTool c _ _) as [e|r] eqn:Hr; [discriminate|].
      intros [= <-]. exists tool, connection, c. auto.
    + intros (tool & connection & c & -> & -> & -> & -> & ->). reflexivity.
  - intros findResource getConnection uri response.
    unfold Resources.readResourceHandler. split.
    + destruct (findResource uri) as [resource|]; [|discriminate].
      destruct (getConnection _) as [connection|] eqn:Hc; [|discriminate].
      destruct (Resources.status connection) eqn:Hs; simpl; try discriminate.
      destruct (Resources.client connection) as [c|] eqn:Hcl; [|discriminate].
      destruct (Resources.readResource c _) as [e|r] eqn:Hr; [discriminate|].
      intros [= <-]. exists resource, connection, c. auto.
    + intros (resource & connection & c & -> & -> & -> & -> & ->). reflexivity.
  - intros findPrompt getConnection name args response.
    unfold Prompts.getPromptHandler. split.
    + destruct (findPrompt name) as [prompt|]; [|discriminate].
      destruct (getConnection _) as [connection|] eqn:Hc; [|discriminate].
      destruct (Prompts.status connection) eqn:Hs; simpl; try discriminate.
      destruct (Prompts.client connection) as [c|] eqn:Hcl; [|discriminate].
      destruct (Prompts.getPrompt c _ _) as [e|r] eqn:Hr; [discriminate|].
      intros [= <-]. exists prompt, connection, c. auto.
    + intros (prompt & connection & c & -> & -> & -> & -> & ->). reflexivity.
Qed.

End ForwardingFacts.

(* ===================================================================== *)
(** * [PaymentMiddleware]: what an admission rests on                     *)
(* ===================================================================== *)

Section VerificationFacts.
Import Config PaymentMiddleware.

Variable decode : string -> JS.Error + JS.Json.
Variable env : FetchRequest -> JS.Error + Response.

Implicit Types (config : GatewayConfig) (toolName serverId : string)
  (headers : option (gmap string string)) (pricing : ToolPricing).

Lemma run_bind {A B} (m : Async A) (f : A -> Async B) :
  run env (bind m f) = run env (f (run env m)).
Proof. induction m as [a | req k IH]; simpl; [reflexivity | apply IH]. Qed.

Lemma requests_bind {A B} (m : Async A) (f : A -> Async B) :
  requests env (bind m f) = requests env m ++ requests env (f (run env m)).
Proof.
  induction m as [a | req k IH]; simpl; [reflexivity | now rewrite IH].
Qed.

(** What an admission by API key rests on: the key's tier has a
    non-empty price of its own in [apiKeyTiers], or it has none and is
    named like a member of [Object.prototype]. *)
Lemma verifyApiKey_authorized config headers pricing :
  authorized (verifyApiKey config headers (Some pricing)) = true ->
  exists h apiKey keyConfig (tiers : gmap string string) amount,
    headers = Some h
    /\ apiKeyOfHeaders h = Some apiKey
    /\ apiKeyCache config !! apiKey = Some keyConfig
    /\ apiKeyTiers pricing = Some tiers
    /\ ((exists s, tiers !! tier keyConfig = Some s /\ s <> ""
                   /\ amount = if String.eqb s "free" || String.eqb s "$0.00"
                                  || String.eqb s "$0"
                               then JS.Str "0" else JS.Str s)
        \/ (tiers !! tier keyConfig = None /\ JS.inherited (tier keyConfig) = true
            /\ amount = JS.Member (tier keyConfig)))
    /\ verifyApiKey config headers (Some pricing)
       = {| authorized := true; error := None;
            PaymentMiddleware.pricing :=
              Some {| amount := amount; method := method_apiKey |} |}.
Proof.
  unfold verifyApiKey. destruct headers as [h|]; [|discriminate].
  destruct (apiKeyOfHeaders h) as [apiKey|] eqn:H1; [|discriminate].
  destruct (apiKeyCache config !! apiKey) as [keyConfig|] eqn:H2; [|discriminate].
  destruct (apiKeyTiers pricing) as [tiers|] eqn:H3; [|discriminate].
  simpl. unfold JS.get.
  destruct (tiers !! tier keyConfig) as [s|] eqn:H4.
  - simpl.
    destruct (String.eqb s "free" || String.eqb s "$0.00" || String.eqb s "$0") eqn:Hfree.
    + intros _. exists h, apiKey, keyConfig, tiers, (JS.Str "0").
      do 4 (split; [first [reflexivity | assumption]|]). split; [|reflexivity].
      left. exists s. split; [assumption|]. split; [|now rewrite Hfree].
      intros ->. discriminate.
    + destruct s as [|c s']; [discriminate|]. intros _.
      exists h, apiKey, keyConfig, tiers, (JS.Str (String c s')).
      do 4 (split; [first [reflexivity | assumption]|]). split; [|reflexivity].
      left. exists (String c s'). split; [assumption|]. split; [discriminate|].
      now rewrite Hfree.
  - destruct (JS.inherited (tier keyConfig)) eqn:H5; [|discriminate].
    intros _. exists h, apiKey, keyConfig, tiers, (JS.Member (tier keyConfig)).
    do 4 (split; [first [reflexivity | assumption]|]). split; [|reflexivity].
    right. auto.
Qed.

(** The facilitator request of the x402 check, if it makes one. *)
Lemma verifyX402Payment_cases config headers pricing :
  let m := verifyX402Payment decode config headers (Some pricing) in
  (requests env m = [] /\ authorized (run env m) = false)
  \/ exists h price paymentHeader paymentData,
       headers = Some h /\ x402 pricing = Some price /\ price <> ""
       /\ paymentHeaderOf h = Some paymentHeader
       /\ decode paymentHeader = inr paymentData
       /\ requests env m = [facilitatorRequest config paymentData price]
       /\ (authorized (run env m) = true ->
             run env m = {| authorized := true; error := None;
                            PaymentMiddleware.pricing :=
                              Some {| amount := price; method := method_x402 |} |}
             /\ exists response body,
                  env (facilitatorRequest config paymentData price) = inr response
                  /\ ok response = true
                  /\ json response = inr body
                  /\ JS.field "verified" body = Some (JS.JBool true)).
Proof.
  intros m. subst m. unfold verifyX402Payment.
  destruct headers as [h|]; [|left; split; reflexivity].
  simpl. destruct (JS.truthy (x402 pricing)) as [price|] eqn:Hprice;
    [|left; split; reflexivity].
  apply truthy_Some in Hprice as [Hprice Hne].
  destruct (paymentHeaderOf h) as [paymentHeader|] eqn:Hh; [|left; split; reflexivity].
  destruct (decode paymentHeader) as [e|paymentData] eqn:Hd; [left; split; reflexivity|].
  right. exists h, price, paymentHeader, paymentData.
  do 5 (split; [first [reflexivity | assumption]|]).
  split; [reflexivity|]. simpl.
  destruct (env (facilitatorRequest config paymentData price)) as [e|response] eqn:He;
    [discriminate|].
  destruct (ok response) eqn:Hok; simpl; [|discriminate].
  destruct (json response) as [e|body] eqn:Hbody; [discriminate|].
  destruct body as [|b|z|s|items|fields]; simpl; try discriminate.
  destruct (JS.assoc "verified" fields) as [[|[|]|z|s|items|fs]|] eqn:Hv;
    try discriminate.
  intros _. split; [reflexivity|]. exists response, (JS.JObj fields). auto.
Qed.

(** Every outcome of [verifyPayment] is accounted for.  An admission
    rests on one of three things: the tool is free of charge (payment
    disabled, no pricing, or [free]); or the request carries a configured
    API key whose tier either has a non-empty price for the tool in
    [apiKeyTiers] (the amount then is "0" for "free", "$0.00" and "$0",
    and the price otherwise) or has none and is named like a member of
    [Object.prototype] (the amount then is that member); or the
    facilitator, asked about the payload decoded from the payment header
    and the tool's x402 price, answered with an OK response whose body
    has [verified] equal to [true].  Every refusal is the same challenge
    result, "Payment required: <x402 price, or $0.01>. Provide X-PAYMENT
    header (x402) or X-ELIZA-API-KEY." with method x402: the errors of
    the two checks ("Invalid API key", "Payment verification failed", a
    decoding or network error) never reach the caller.  And a configured
    key whose tier has a non-empty price for a tool that is not free is
    always admitted, without a facilitator request. *)
Theorem verifyPayment_outcomes config toolName serverId headers :
  let result := run env (verifyPayment decode config toolName serverId headers) in
  (authorized result = true ->
    (result = freeAccess
     /\ (paymentEnabled config = false
         \/ getToolPricing config toolName serverId = None
         \/ exists pricing, getToolPricing config toolName serverId = Some pricing
                            /\ free pricing = true))
    \/ (exists pricing h apiKey keyConfig (tiers : gmap string string) amount,
          getToolPricing config toolName serverId = Some pricing
          /\ headers = Some h
          /\ apiKeyOfHeaders h = Some apiKey
          /\ apiKeyCache config !! apiKey = Some keyConfig
          /\ apiKeyTiers pricing = Some tiers
          /\ ((exists s, tiers !! tier keyConfig = Some s /\ s <> ""
                         /\ amount = if String.eqb s "free" || String.eqb s "$0.00"
                                        || String.eqb s "$0"
                                     then JS.Str "0" else JS.Str s)
              \/ (tiers !! tier keyConfig = None
                  /\ JS.inherited (tier keyConfig) = true
                  /\ amount = JS.Member (tier keyConfig)))
          /\ result = {| authorized := true; error := None;
                         PaymentMiddleware.pricing :=
                           Some {| amount := amount; method := method_apiKey |} |})
    \/ (exists pricing h price paymentHeader paymentData response body,
          getToolPricing config toolName serverId = Some pricing
          /\ headers = Some h
          /\ x402 pricing = Some price
          /\ paymentHeaderOf h = Some paymentHeader
          /\ decode paymentHeader = inr paymentData
          /\ env (facilitatorRequest config paymentData price) = inr response
          /\ ok response = true
          /\ json response = inr body
          /\ JS.field "verified" body = Some (JS.JBool true)
          /\ result = {| authorized := true; error := None;
                         PaymentMiddleware.pricing :=
                           Some {| amount := price; method := method_x402 |} |}))
  /\ (authorized result = false ->
    exists pricing,
      paymentEnabled config = true
      /\ getToolPricing config toolName serverId = Some pricing
      /\ free pricing = false
      /\ result = paymentRequired pricing
      /\ error result
         = Some ("Payment required: " +:+ default "$0.01" (JS.truthy (x402 pricing))
                 +:+ ". Provide X-PAYMENT header (x402) or X-ELIZA-API-KEY."))
  /\ (forall pricing h apiKey keyConfig (tiers : gmap string string) s,
        paymentEnabled config = true ->
        getToolPricing config toolName serverId = Some pricing ->
        free pricing = false ->
        headers = Some h ->
        apiKeyOfHeaders h = Some apiKey ->
        apiKeyCache config !! apiKey = Some keyConfig ->
        apiKeyTiers pricing = Some tiers ->
        tiers !! tier keyConfig = Some s -> s <> "" ->
        result = {| authorized := true; error := None;
                    PaymentMiddleware.pricing :=
                      Some {| amount := if String.eqb s "free" || String.eqb s "$0.00"
                                           || String.eqb s "$0"
                                        then JS.Str "0" else JS.Str s;
                              method := method_apiKey |} |}
        /\ requests env (verifyPayment decode config toolName serverId headers) = []).
Proof.
  intros result. subst result. split; [|split]; cycle 2.
  - intros pricing h apiKey keyConfig tiers s Hen Hp Hfree -> Hkey Hcache Htiers Hs Hne.
    unfold verifyPayment. rewrite Hen, Hp, Hfree. simpl negb. cbv iota.
    unfold verifyApiKey. rewrite Hkey, Hcache, Htiers. simpl.
    rewrite (get_entry _ _ _ Hs). simpl.
    destruct (String.eqb s "free" || String.eqb s "$0.00" || String.eqb s "$0");
      [split; reflexivity|].
    destruct s as [|c s']; [now destruct Hne|]. split; reflexivity.
  - unfold verifyPayment.
    destruct (paymentEnabled config); simpl; [|intros _; left; auto].
    destruct (getToolPricing config toolName serverId) as [pricing|];
      [|intros _; left; auto].
    destruct (free pricing) eqn:Hfree; [intros _; left; eauto 6|].
    destruct (authorized (verifyApiKey config headers (Some pricing))) eqn:Hkey.
    + intros _. right. left.
      destruct (verifyApiKey_authorized _ _ _ Hkey)
        as (h & apiKey & keyConfig & tiers & amount & -> & H1 & H2 & H3 & H4 & H5).
      exists pricing, h, apiKey, keyConfig, tiers, amount. simpl. auto 10.
    + rewrite run_bind.
      destruct (authorized (run env (verifyX402Payment decode config headers
                                       (Some pricing)))) eqn:Hx; simpl; [|discriminate].
      intros _. right. right.
      destruct (verifyX402Payment_cases config headers pricing) as [[_ Hno] | H];
        [congruence|].
      destruct H
        as (h & price & paymentHeader & paymentData & -> & H1 & _ & H2 & H3 & _ & H).
      destruct (H Hx) as (Hres & response & body & H4 & H5 & H6 & H7).
      exists pricing, h, price, paymentHeader, paymentData, response, body.
      split_and!; done.
  - unfold verifyPayment.
    destruct (paymentEnabled config); simpl; [|discriminate].
    destruct (getToolPricing config toolName serverId) as [pricing|]; [|discriminate].
    destruct (free pricing) eqn:Hfree; [discriminate|].
    destruct (authorized (verifyApiKey config headers (Some pricing))) eqn:Hkey.
    + simpl. congruence.
    + rewrite run_bind.
      destruct (authorized (run env (verifyX402Payment decode config headers
                                       (Some pricing)))) eqn:Hx; simpl; [congruence|].
      intros _. exists pricing. auto.
Qed.

(** Verifying one call asks the facilitator at most once, and only when
    the tool has a non-empty x402 price, is not free, no API key
    admitted the call, and the payment header decoded; the request goes
    to "<facilitator>/verify" with the decoded payload. *)
Theorem verifyPayment_requests config toolName serverId headers :
  let m := verifyPayment decode config toolName serverId headers in
  requests env m = []
  \/ exists pricing h price paymentHeader paymentData,
       paymentEnabled config = true
       /\ getToolPricing config toolName serverId = Some pricing
       /\ free pricing = false
       /\ authorized (verifyApiKey config headers (Some pricing)) = false
       /\ headers = Some h
       /\ x402 pricing = Some price /\ price <> ""
       /\ paymentHeaderOf h = Some paymentHeader
       /\ decode paymentHeader = inr paymentData
       /\ requests env m = [facilitatorRequest config paymentData price]
       /\ url (facilitatorRequest config paymentData price)
          = default "https://x402.org/facilitator"
              (JS.truthy (payment config ≫= facilitator)) +:+ "/verify"
       /\ JS.field "paymentPayload" (requestBody (facilitatorRequest config paymentData price))
          = Some paymentData.
Proof.
  intros m. subst m. unfold verifyPayment.
  destruct (paymentEnabled config); simpl; [|now left].
  destruct (getToolPricing config toolName serverId) as [pricing|]; [|now left].
  destruct (free pricing) eqn:Hfree; [now left|].
  destruct (authorized (verifyApiKey config headers (Some pricing))) eqn:Hkey; [now left|].
  rewrite requests_bind.
  assert (Hk : forall x : PaymentVerificationResult,
            requests env (if authorized x then Return x
                          else Return (paymentRequired pricing)) = []).
  { intros x. destruct (authorized x); reflexivity. }
  rewrite Hk, app_nil_r.
  destruct (verifyX402Payment_cases config headers pricing) as [[Hno _] | H];
    [now left|].
  destruct H as (h & price & paymentHeader & paymentData & -> & H1 & H2 & H3 & H4 & H5 & _).
  right. exists pricing, h, price, paymentHeader, paymentData.
  split_and!; done.
Qed.

End VerificationFacts.

(* ===================================================================== *)
(** * [PaymentMiddleware]: forwarding, keys and amounts                   *)
(* ===================================================================== *)

Section ForwardedHeaderFacts.
Import Config PaymentMiddleware.

Lemma forward_lookup (k j : string) (h m : gmap string string) :
  forward k h m !! j =
    if decide (k = j)
    then match JS.truthy (h !! k) with Some v => Some v | None => m !! j end
    else m !! j.
Proof.
  unfold forward. destruct (decide (k = j)) as [<-|Hne].
  - destruct (JS.truthy (h !! k)); [apply lookup_insert_eq | reflexivity].
  - destruct (JS.truthy (h !! k)); [now apply lookup_insert_ne | reflexivity].
Qed.

Lemma extractPaymentHeaders_lookup (headers : gmap string string) (k : string) :
  extractPaymentHeaders (Some headers) !! k =
    if decide (k ∈ [ "x-payment"; "X-Payment"; "x-eliza-api-key"; "X-ELIZA-API-KEY";
                     "authorization"; "Authorization" ])
    then JS.truthy (headers !! k) else None.
Proof.
  unfold extractPaymentHeaders. rewrite !forward_lookup.
  destruct (decide (k ∈ _)) as [Hin|Hout].
  - repeat (apply elem_of_cons in Hin as [->|Hin];
            [repeat case_decide; try done; destruct (JS.truthy _); reflexivity|]).
    now apply elem_of_nil in Hin.
  - repeat (case_decide; [subst k; exfalso; apply Hout; set_solver|]).
    apply lookup_empty.
Qed.

(** The outbound headers are exactly the inbound entries named
    [x-payment], [X-Payment], [x-eliza-api-key], [X-ELIZA-API-KEY],
    [authorization] or [Authorization] whose value is not empty; no
    headers give none, and extracting twice changes nothing. *)
Theorem extractPaymentHeaders_filter (headers : gmap string string) :
  extractPaymentHeaders None = ∅
  /\ (forall k v,
        extractPaymentHeaders (Some headers) !! k = Some v
        <-> (k ∈ [ "x-payment"; "X-Payment"; "x-eliza-api-key"; "X-ELIZA-API-KEY";
                   "authorization"; "Authorization" ]
             /\ headers !! k = Some v /\ v <> ""))
  /\ extractPaymentHeaders (Some (extractPaymentHeaders (Some headers)))
     = extractPaymentHeaders (Some headers).
Proof.
  split; [reflexivity|]. split.
  - intros k v. rewrite extractPaymentHeaders_lookup.
    destruct (decide (k ∈ _)) as [Hin|Hout].
    + rewrite truthy_Some. tauto.
    + split; [discriminate | tauto].
  - apply map_eq. intros k.
    rewrite (extractPaymentHeaders_lookup (extractPaymentHeaders _)).
    rewrite extractPaymentHeaders_lookup.
    destruct (decide (k ∈ _)); [|reflexivity].
    destruct (JS.truthy (headers !! k)) as [v|] eqn:E; [|reflexivity].
    apply truthy_Some. apply truthy_Some in E as [_ E]. auto.
Qed.

(** The payment header the x402 check accepts in capitals, [X-PAYMENT],
    is not among the forwarded names, and the capitalised name that is
    forwarded, [X-Payment], is not read by the check: without a non-empty
    [x-payment], a payment under [X-PAYMENT] is accepted for verification
    but not forwarded, and one under [X-Payment] is forwarded but not
    seen by the check. *)
Theorem payment_header_names_differ (headers : gmap string string) (v : string) :
  JS.truthy (headers !! "x-payment") = None -> v <> "" ->
  (headers !! "X-PAYMENT" = Some v ->
     paymentHeaderOf headers = Some v
     /\ extractPaymentHeaders (Some headers) !! "X-PAYMENT" = None)
  /\ (JS.truthy (headers !! "X-PAYMENT") = None -> headers !! "X-Payment" = Some v ->
        paymentHeaderOf headers = None
        /\ extractPaymentHeaders (Some headers) !! "X-Payment" = Some v).
Proof.
  intros Hlow Hv. unfold paymentHeaderOf. split.
  - intros H. split.
    + rewrite (or_else_r _ _ Hlow), H. apply truthy_Some. auto.
    + now rewrite extractPaymentHeaders_lookup.
  - intros Hup H. split.
    + rewrite (or_else_r _ _ Hlow). exact Hup.
    + rewrite extractPaymentHeaders_lookup. simpl. apply truthy_Some. auto.
Qed.

(** What the facilitator is asked to verify is what the challenge for
    the same tool demands: for a tool with a non-empty x402 price, the
    scheme, network and amount of the verification request are those of
    the single [accepts] entry of the challenge, and so is the recipient
    when one is configured.  The asset is the same whenever it is an
    address, which it is for a network of the table (that network's
    address) and for a name unknown to the table and to
    [Object.prototype] (the base-sepolia address).  For a network named
    like a member of [Object.prototype] the asset of the challenge is
    that member, and the request, being serialized, carries no asset (an
    empty object under "__proto__"). *)
Theorem facilitatorRequest_matches_challenge (config : GatewayConfig)
    (toolName serverId : string) (pricing : ToolPricing) (price : string)
    (paymentData : JS.Json) :
  getToolPricing config toolName serverId = Some pricing ->
  x402 pricing = Some price -> price <> "" ->
  exists a requirements,
    accepts (generatePaymentRequiredResponse config toolName serverId) = [a]
    /\ JS.field "paymentRequirements"
         (requestBody (facilitatorRequest config paymentData price))
       = Some requirements
    /\ JS.field "scheme" requirements = Some (JS.JStr (scheme a))
    /\ JS.field "network" requirements = Some (JS.JStr (PaymentMiddleware.network a))
    /\ JS.field "maxAmountRequired" requirements = Some (JS.JStr (maxAmountRequired a))
    /\ (forall address, asset a = JS.Str address ->
          JS.field "asset" requirements = Some (JS.JStr address))
    /\ (forall key, asset a = JS.Member key ->
          JS.field "asset" requirements
          = if String.eqb key "__proto__" then Some (JS.JObj []) else None)
    /\ (forall address, USDC_ADDRESSES !! PaymentMiddleware.network a = Some address ->
          asset a = JS.Str address)
    /\ (USDC_ADDRESSES !! PaymentMiddleware.network a = None ->
        JS.inherited (PaymentMiddleware.network a) = false ->
          asset a = JS.Str "0x036CbD53842c5426634e7929541eC2318f3dCF7e")
    /\ (JS.inherited (PaymentMiddleware.network a) = true ->
          asset a = JS.Member (PaymentMiddleware.network a))
    /\ (forall r, payment config ≫= recipient = Some r ->
          JS.field "payTo" requirements = Some (JS.JStr (payTo a)))
    /\ (payment config ≫= recipient = None ->
          JS.field "payTo" requirements = None /\ payTo a = "").
Proof.
  intros Hp Hx Hne. unfold generatePaymentRequiredResponse, facilitatorRequest.
  rewrite Hp. simpl.
  assert (JS.truthy (x402 pricing) = Some price) as -> by (apply truthy_Some; auto).
  eexists _, _. split; [reflexivity|]. split; [reflexivity|]. simpl.
  destruct (getUsdcAddress_cases (paymentNetwork config)) as (Hown & Hdefault & Hproto).
  do 3 (split; [reflexivity|]).
  split.
  { intros address ->.
    destruct (payment config ≫= recipient) as [r|]; reflexivity. }
  split.
  { intros key ->. simpl.
    destruct (payment config ≫= recipient) as [r|];
      destruct (String.eqb key "__proto__"); reflexivity. }
  do 3 (split; [assumption|]).
  destruct (payment config ≫= recipient) as [r|] eqn:Hr; simpl.
  - split; [|discriminate]. intros r' [= <-]. destruct r; reflexivity.
  - split; [discriminate|]. intros _. split; [|reflexivity].
    destruct (getUsdcAddress (paymentNetwork config)) as [address|key]; simpl;
      [reflexivity|]. destruct (String.eqb key "__proto__"); reflexivity.
Qed.

Lemma apiKeyCache_fold_absent (ks : list ApiKeyConfig) (m : gmap string ApiKeyConfig)
    (k : string) :
  Forall (fun x => key x <> k) ks ->
  foldl (fun m kc => <[key kc := kc]> m) m ks !! k = m !! k.
Proof.
  revert m. induction ks as [|a ks IH]; intros m H; simpl; [reflexivity|].
  inversion H as [|? ? Ha Hks]; subst. rewrite IH by assumption.
  now apply lookup_insert_ne.
Qed.

(** The key table holds, for each key string, the last configured entry
    with that key: an entry is found under its key when no later entry
    repeats the key, and a key no entry has is not found. *)
Theorem apiKeyCache_last_wins (config : GatewayConfig)
    (before after : list ApiKeyConfig) (kc : ApiKeyConfig) :
  payment config ≫= apiKeys = Some (before ++ kc :: after) ->
  (Forall (fun x => key x <> key kc) after -> apiKeyCache config !! key kc = Some kc)
  /\ (forall k, key kc <> k -> Forall (fun x => key x <> k) before ->
        Forall (fun x => key x <> k) after -> apiKeyCache config !! k = None).
Proof.
  intros H. unfold apiKeyCache. rewrite H, foldl_app. simpl. split.
  - intros Hafter. rewrite apiKeyCache_fold_absent by assumption.
    apply lookup_insert_eq.
  - intros k Hk Hbefore Hafter. rewrite apiKeyCache_fold_absent by assumption.
    rewrite lookup_insert_ne by assumption.
    now rewrite apiKeyCache_fold_absent.
Qed.

End ForwardedHeaderFacts.

Section SymbolFacts.
Import PaymentMiddleware.

Lemma stripNonNumeric_app (a b : string) :
  JS.stripNonNumeric (a +:+ b) = JS.stripNonNumeric a +:+ JS.stripNonNumeric b.
Proof.
  induction a as [|c a IH]; [reflexivity|].
  rewrite append_cons. simpl.
  destruct (JS.isDecimalDigit c || Ascii.eqb c "."); [|exact IH].
  now rewrite append_cons, IH.
Qed.

Lemma stripNonNumeric_dots (s : string) :
  Forall (fun c => JS.isDecimalDigit c = false) (list_ascii_of_string s) ->
  Forall (fun c => c = "."%char) (list_ascii_of_string (JS.stripNonNumeric s)).
Proof.
  induction s as [|c s IH]; simpl; intros H; [constructor|].
  inversion H as [|? ? Hc Hs]; subst. rewrite Hc. simpl.
  destruct (Ascii.eqb_spec c "."); [|now apply IH].
  simpl. constructor; [assumption | now apply IH].
Qed.

Lemma scanDecimalLiteral_dots (s : string) :
  Forall (fun c => c = "."%char) (list_ascii_of_string s) ->
  JS.scanDecimalLiteral s = JS.LitNone.
Proof.
  destruct s as [|c r]; [reflexivity|]. simpl. intros H.
  inversion H as [|? ? Hc Hr]; subst.
  destruct r as [|d r]; [reflexivity|].
  simpl in Hr. inversion Hr as [|? ? Hd _]; subst. reflexivity.
Qed.

Lemma parseFloat_no_digit (s : string) :
  Forall (fun c => JS.isDecimalDigit c = false) (list_ascii_of_string s) ->
  JS.parseFloat (JS.stripNonNumeric s) = JS.NaN.
Proof.
  intros H. unfold JS.parseFloat.
  now rewrite (scanDecimalLiteral_dots _ (stripNonNumeric_dots _ H)).
Qed.

(** Only the digits and dots of an amount count: a character that is
    neither can be removed anywhere without changing the result (so a
    minus sign or a thousands separator is ignored), and an amount with
    no digit at all is priced at "10000" atomic units, one cent. *)
Theorem parseAmountToAtomicUnits_symbols :
  (forall (a b : string) (c : ascii),
      JS.isDecimalDigit c = false -> c <> "."%char ->
      parseAmountToAtomicUnits (a +:+ String c b) = parseAmountToAtomicUnits (a +:+ b))
  /\ (forall amount,
        Forall (fun c => JS.isDecimalDigit c = false) (list_ascii_of_string amount) ->
        parseAmountToAtomicUnits amount = "10000").
Proof.
  split.
  - intros a b c Hd Hc. unfold parseAmountToAtomicUnits.
    rewrite !stripNonNumeric_app. simpl. rewrite Hd.
    destruct (Ascii.eqb_spec c "."); [contradiction | reflexivity].
  - intros amount H. unfold parseAmountToAtomicUnits.
    now rewrite (parseFloat_no_digit _ H).
Qed.

(** A downstream price with no digit in it makes the marked-up price
    "$NaN", whatever the markup; so does a fixed markup (one without a
    percent sign) with no digit in it.  No default is substituted. *)
Theorem calculateMarkup_NaN (downstreamPrice markup : string) :
  (Forall (fun c => JS.isDecimalDigit c = false) (list_ascii_of_string downstreamPrice) ->
   calculateMarkup downstreamPrice markup = "$NaN")
  /\ (JS.includesChar "%" markup = false ->
      Forall (fun c => JS.isDecimalDigit c = false) (list_ascii_of_string markup) ->
      calculateMarkup downstreamPrice markup = "$NaN").
Proof.
  unfold calculateMarkup. split.
  - intros H. rewrite (parseFloat_no_digit _ H).
    destruct (JS.includesChar "%" markup); reflexivity.
  - intros -> H. rewrite (parseFloat_no_digit _ H).
    destruct (JS.parseFloat (JS.stripNonNumeric downstreamPrice)) as [| | |[|] m e];
      try destruct s; reflexivity.
Qed.

End SymbolFacts.

(* ===================================================================== *)
(** * [GatewayHttpServer]: the MCP endpoint                               *)
(* ===================================================================== *)

Section McpEndpointFacts.
Import GatewayHttpServer.

Lemma substring_full (s : string) : String.substring 0 (String.length s) s = s.
Proof. induction s as [|c s IH]; simpl; [reflexivity | now rewrite IH]. Qed.

Lemma dropStr_app (p s : string) :
  JS.dropStr (Z.of_nat (String.length p)) (p +:+ s) = s.
Proof.
  unfold JS.dropStr. rewrite Nat2Z.id.
  induction p as [|c p IH].
  - change ("" +:+ s) with s. simpl. rewrite Nat.sub_0_r. apply substring_full.
  - rewrite append_cons. simpl. exact IH.
Qed.

Lemma stripPrefix_Some (p s r : string) : JS.stripPrefix p s = Some r -> s = p +:+ r.
Proof.
  revert s. induction p as [|a p IH]; intros s; simpl.
  - now intros [= ->].
  - destruct s as [|b s]; [discriminate|].
    destruct (Ascii.eqb_spec a b) as [<-|]; [|discriminate].
    intros H. rewrite append_cons. f_equal. now apply IH.
Qed.

Lemma startsWith_split (s p : string) :
  JS.startsWith s p = true -> exists r, s = p +:+ r.
Proof.
  unfold JS.startsWith. destruct (JS.stripPrefix p s) as [r|] eqn:E; [|discriminate].
  intros _. exists r. now apply stripPrefix_Some.
Qed.

Lemma extractSessionFromAuth_Some (parseToken : string -> JS.Error + JS.Json)
    (authHeader : option string) (sessionId : JS.Json) :
  extractSessionFromAuth parseToken authHeader = Some sessionId
  <-> exists token payload,
        authHeader = Some ("Bearer " +:+ token)
        /\ parseToken token = inr payload
        /\ JS.field "sessionId" payload = Some sessionId.
Proof.
  unfold extractSessionFromAuth. split.
  - destruct (JS.truthy authHeader) as [h|] eqn:Hh; [|discriminate].
    apply truthy_Some in Hh as [-> _].
    destruct (JS.startsWith h "Bearer ") eqn:Hs; simpl; [|discriminate].
    apply startsWith_split in Hs as [token ->].
    change 7 with (Z.of_nat (String.length "Bearer ")). rewrite dropStr_app.
    destruct (parseToken token) as [e|payload] eqn:Hp; [discriminate|].
    intros H. exists token, payload. split; [reflexivity|]. split; [exact Hp|].
    destruct payload; try exact H; discriminate.
  - intros (token & payload & -> & Hp & Hf).
    assert (JS.truthy (Some ("Bearer " +:+ token)) = Some ("Bearer " +:+ token)) as ->
      by (apply truthy_Some; split; [reflexivity | discriminate]).
    rewrite startsWith_app. simpl negb. cbv iota.
    change 7 with (Z.of_nat (String.length "Bearer ")). rewrite dropStr_app, Hp.
    destruct payload; try exact Hf; discriminate.
Qed.

(** A POST under "/mcp/" is never served: the answer is 401
    "Authorization required" or 501 "MCP over HTTP not yet fully
    implemented", with the CORS headers when enabled.  It is 501 exactly
    when the Authorization header is "Bearer <token>" and the token
    decodes to a value with a truthy [sessionId]; nothing else in the
    token, and no session, is looked at. *)
Theorem mcp_endpoint_outcomes (parseToken : string -> JS.Error + JS.Json)
    (config : HttpServerConfig) (path method endpoint : string)
    (authHeader : option string) :
  selectEndpoint path method = McpEndpoint endpoint ->
  let r := handleRequest config method (inr (handleMcpEndpoint parseToken authHeader)) in
  let bearer := exists token payload sessionId,
                  authHeader = Some ("Bearer " +:+ token)
                  /\ parseToken token = inr payload
                  /\ JS.field "sessionId" payload = Some sessionId
                  /\ JS.truthyJson sessionId = true in
  path = "/mcp/" +:+ endpoint /\ method = "POST"
  /\ headers r = jsonHeaders ∪ corsHeaders config
  /\ (bearer ->
        statusCode r = 501
        /\ body r = Some (JS.JObj [ ("error",
                                     JS.JStr "MCP over HTTP not yet fully implemented") ]))
  /\ (~ bearer ->
        statusCode r = 401
        /\ body r = Some (JS.JObj [ ("error", JS.JStr "Authorization required") ])).
Proof.
  intros Hsel r bearer. subst r bearer.
  assert (Hroute : path = "/mcp/" +:+ endpoint /\ method = "POST").
  { unfold selectEndpoint in Hsel.
    repeat (destruct (_ && _) eqn:? in Hsel; [discriminate Hsel|]; clear Heqb).
    destruct (JS.startsWith path "/mcp/") eqn:Hs; [|discriminate Hsel].
    destruct (String.eqb_spec method "POST") as [->|]; [|discriminate Hsel].
    simpl in Hsel. injection Hsel as <-.
    apply startsWith_split in Hs as [rest ->].
    change 5 with (Z.of_nat (String.length "/mcp/")). now rewrite dropStr_app. }
  destruct Hroute as [-> ->]. split; [reflexivity|]. split; [reflexivity|].
  unfold handleRequest. rewrite andb_false_r. unfold handleMcpEndpoint.
  destruct (extractSessionFromAuth parseToken authHeader) as [sid|] eqn:E.
  - apply extractSessionFromAuth_Some in E as (token & payload & -> & Hp & Hf).
    destruct (JS.truthyJson sid) eqn:Ht; simpl.
    + split; [reflexivity|]. split; [auto|]. intros Hn. exfalso. apply Hn.
      exists token, payload, sid. auto.
    + split; [reflexivity|]. split; [|auto].
      intros (token' & payload' & sid' & [= Htok] & Hp' & Hf' & Ht').
      apply append_cancel_l in Htok. subst token'. congruence.
  - simpl. split; [reflexivity|]. split; [|auto].
    intros (token & payload & sid & Ha & Hp & Hf & _).
    assert (extractSessionFromAuth parseToken authHeader = Some sid)
      by (apply extractSessionFromAuth_Some; eauto).
    congruence.
Qed.

End McpEndpointFacts.

(* ===================================================================== *)
(** * [TransportFactory]                                                  *)
(* ===================================================================== *)

Section TransportFacts.
Import TransportFactory.

Variable processEnv : gmap string string.
Variable URL : string -> JS.Error + string.

(** A server configured the legacy way, by a non-empty [command] and no
    [transport], is treated in every respect as the stdio transport with
    the same command, arguments, environment and directory: it
    validates, is displayed as "STDIO (<command>)", and gives a stdio
    client whose arguments default to none, whose directory is set only
    when non-empty, and whose environment is the gateway's own with the
    configured variables taking precedence. *)
Theorem legacy_command_is_stdio (config : McpServerConfig) (c : string) :
  transport config = None -> command config = Some c -> c <> "" ->
  let explicit := {| name := name config;
                     transport := Some (stdio c (args config) (env config) (cwd config));
                     command := None; args := None; env := None; cwd := None |} in
  normalizeTransportConfig config = normalizeTransportConfig explicit
  /\ validateConfig config = []
  /\ validateConfig explicit = []
  /\ getTransportDisplayName config = "STDIO (" +:+ c +:+ ")"
  /\ getTransportDisplayName explicit = "STDIO (" +:+ c +:+ ")"
  /\ create processEnv URL config = create processEnv URL explicit
  /\ exists childEnv,
       create processEnv URL config
       = inr (StdioClientTransport c (default [] (args config)) childEnv
                (JS.truthy (cwd config)))
       /\ (forall k v, env config ≫= (.!! k) = Some v -> childEnv !! k = Some v)
       /\ (forall k, env config ≫= (.!! k) = None -> childEnv !! k = processEnv !! k).
Proof.
  intros Ht Hc Hne.
  assert (Hn : normalizeTransportConfig config
               = inr (stdio c (args config) (env config) (cwd config))).
  { unfold normalizeTransportConfig. rewrite Ht.
    assert (JS.truthy (command config) = Some c) as -> by (apply truthy_Some; auto).
    reflexivity. }
  unfold validateConfig, getTransportDisplayName, create. rewrite Hn. simpl.
  destruct (String.eqb_spec c ""); [contradiction|].
  do 6 (split; [reflexivity|]). eexists. split; [reflexivity|].
  destruct (env config) as [m|]; simpl.
  - split.
    + intros k v H. apply lookup_union_Some_l. exact H.
    + intros k H. now apply lookup_union_r.
  - split; [discriminate|]. intros k _. now rewrite (left_id_L ∅ (∪)).
Qed.

(** [validateConfig] reports nothing exactly when a transport can be
    determined and its required fields are non-empty, and never reports
    more than one problem; a server with neither [transport] nor a
    non-empty [command] is reported as "Transport configuration error:
    Error: Server <name> has no transport configuration", is displayed
    as "Invalid", and makes [create] throw. *)
Theorem validateConfig_complete (config : McpServerConfig) :
  (validateConfig config = []
   <-> exists t, normalizeTransportConfig config = inr t
         /\ match t with
            | stdio c _ _ _ => c <> ""
            | http u _ _ | websocket u _ _ => u <> ""
            | sse s p _ _ => s <> "" /\ p <> ""
            end)
  /\ (length (validateConfig config) <= 1)%nat
  /\ (transport config = None -> JS.truthy (command config) = None ->
        validateConfig config
        = [ "Transport configuration error: Error: Server " +:+ name config
            +:+ " has no transport configuration" ]
        /\ getTransportDisplayName config = "Invalid"
        /\ create processEnv URL config
           = inl (JS.mkError "Error" ("Server " +:+ name config
                                      +:+ " has no transport configuration"))).
Proof.
  unfold validateConfig, getTransportDisplayName, create. split_and!.
  - destruct (normalizeTransportConfig config) as [e|[c a en d|u h k|s p h k|u h k]].
    + split; [discriminate|]. intros (t & [=] & _).
    + destruct (String.eqb_spec c "") as [->|Hne].
      * split; [discriminate|]. intros (t & [= <-] & H). contradiction.
      * split; [intros _; eexists; split; [reflexivity | simpl; auto] | reflexivity].
    + destruct (String.eqb_spec u "") as [->|Hne].
      * split; [discriminate|]. intros (t & [= <-] & H). contradiction.
      * split; [intros _; eexists; split; [reflexivity | simpl; auto] | reflexivity].
    + destruct (String.eqb_spec s "") as [->|Hs]; simpl.
      * split; [discriminate|]. intros (t & [= <-] & H & _). contradiction.
      * destruct (String.eqb_spec p "") as [->|Hp].
        -- split; [discriminate|]. intros (t & [= <-] & _ & H). contradiction.
        -- split; [intros _; eexists; split; [reflexivity | simpl; auto] | reflexivity].
    + destruct (String.eqb_spec u "") as [->|Hne].
      * split; [discriminate|]. intros (t & [= <-] & H). contradiction.
      * split; [intros _; eexists; split; [reflexivity | simpl; auto] | reflexivity].
  - destruct (normalizeTransportConfig config) as [e|[c a en d|u h k|s p h k|u h k]];
      simpl;
      repeat match goal with |- context [if ?b then _ else _] => destruct b end;
      simpl; lia.
  - intros Ht Hc. unfold normalizeTransportConfig. rewrite Ht, Hc. simpl.
    split_and!; reflexivity.
Qed.

End TransportFacts.

(* ===================================================================== *)
(** * [ConfigManager]                                                     *)
(* ===================================================================== *)

Section ConfigFacts.
Import ConfigManager.

Lemma split_nonempty (c : ascii) (s : string) : JS.split c s <> [].
Proof.
  induction s as [|a s IH]; simpl; [discriminate|].
  destruct (Ascii.eqb a c); [discriminate|].
  destruct (JS.split c s); [contradiction | discriminate].
Qed.

Lemma lacks_cons (c a : ascii) (s : string) :
  lacks c (String a s) <-> a <> c /\ lacks c s.
Proof.
  unfold lacks. simpl. destruct (Ascii.eqb_spec a c); simpl; split;
    try tauto; try discriminate.
Qed.

Lemma lacks_app (c : ascii) (a b : string) :
  lacks c (a +:+ b) <-> lacks c a /\ lacks c b.
Proof.
  induction a as [|x a IH].
  - change ("" +:+ b) with b. unfold lacks at 2. simpl. tauto.
  - rewrite append_cons, !lacks_cons, IH. tauto.
Qed.

Lemma split_lacks (c : ascii) (s : string) : lacks c s -> JS.split c s = [s].
Proof.
  induction s as [|a s IH]; [reflexivity|].
  intros [Ha Hs]%lacks_cons. simpl.
  destruct (Ascii.eqb_spec a c); [contradiction|]. now rewrite IH.
Qed.

Lemma split_app (c : ascii) (a b : string) :
  lacks c a -> JS.split c (a +:+ String c b) = a :: JS.split c b.
Proof.
  induction a as [|x a IH].
  - intros _. change ("" +:+ String c b) with (String c b). simpl.
    now rewrite Ascii.eqb_refl.
  - intros [Hx Ha]%lacks_cons. rewrite append_cons. simpl.
    destruct (Ascii.eqb_spec x c); [contradiction|]. now rewrite IH.
Qed.

Lemma lacks_join (c sep : ascii) (l : list string) :
  sep <> c -> Forall (lacks c) l -> lacks c (join (String sep "") l).
Proof.
  intros Hsep. induction l as [|x l IH]; intros H; [reflexivity|].
  inversion H as [|? ? Hx Hl]; subst.
  destruct l as [|y l]; [exact Hx|].
  change (join (String sep "") (x :: y :: l))
    with (x +:+ String sep "" +:+ join (String sep "") (y :: l)).
  rewrite !lacks_app. split; [exact Hx|]. split; [|now apply IH].
  apply lacks_cons. split; [exact Hsep | reflexivity].
Qed.

Lemma split_join (sep : ascii) (l : list string) :
  l <> [] -> Forall (lacks sep) l -> JS.split sep (join (String sep "") l) = l.
Proof.
  induction l as [|x l IH]; [contradiction|]. intros _ H.
  inversion H as [|? ? Hx Hl]; subst.
  destruct l as [|y l]; [now apply split_lacks|].
  change (join (String sep "") (x :: y :: l))
    with (x +:+ String sep "" +:+ join (String sep "") (y :: l)).
  change (String sep "" +:+ ?t) with (String sep t).
  rewrite split_app by assumption. f_equal. now apply IH.
Qed.

Lemma app_cons_nonempty (a b : string) (c : ascii) : a +:+ String c b <> "".
Proof. destruct a; [discriminate | rewrite append_cons; discriminate]. Qed.

Lemma app_nonempty_l (a b : string) : a <> "" -> a +:+ b <> "".
Proof. destruct a; [contradiction | rewrite append_cons; discriminate]. Qed.

Lemma formatServer_shape (s : RawServer) :
  exists rest, formatServer s = rawName s +:+ String ":" rest.
Proof.
  unfold formatServer. destruct (rawArgs s); eexists; reflexivity.
Qed.

Lemma parseServerSpec_formatServer (s : RawServer) :
  plain s -> parseServerSpec (formatServer s) = inr s /\ lacks ";" (formatServer s).
Proof.
  destruct s as [n c args]. unfold plain, formatServer, parseServerSpec.
  cbn [rawName rawCommand rawArgs]. intros (Hn1 & Hn2 & Hc1 & Hc2 & Hargs).
  destruct args as [|a args].
  - change (n +:+ ":" +:+ c) with (n +:+ String ":" c).
    rewrite split_app, (split_lacks _ c) by assumption. split; [reflexivity|].
    apply lacks_app. split; [assumption|]. apply lacks_cons. split; [discriminate | assumption].
  - set (J := join "," (a :: args)).
    change (n +:+ ":" +:+ c +:+ ":" +:+ J) with (n +:+ String ":" (c +:+ String ":" J)).
    assert (HJ1 : lacks ":" J).
    { apply lacks_join; [discriminate|]. eapply Forall_impl; [exact Hargs|]. simpl. tauto. }
    assert (HJ2 : lacks ";" J).
    { apply lacks_join; [discriminate|]. eapply Forall_impl; [exact Hargs|]. simpl. tauto. }
    rewrite split_app, split_app, (split_lacks _ J) by assumption. split.
    + unfold J. rewrite split_join; [reflexivity | discriminate |].
      eapply Forall_impl; [exact Hargs|]. simpl. tauto.
    + rewrite lacks_app, lacks_cons, lacks_app, lacks_cons.
      split_and!; try assumption; discriminate.
Qed.

Lemma mapThrowing_formatServer (l : list RawServer) :
  Forall plain l -> mapThrowing parseServerSpec (map formatServer l) = inr l.
Proof.
  induction l as [|s l IH]; intros H; [reflexivity|].
  inversion H as [|? ? Hs Hl]; subst. simpl.
  rewrite (proj1 (parseServerSpec_formatServer s Hs)), IH by assumption. reflexivity.
Qed.

(** [MCP_SERVERS] round trip: servers written in the documented form
    [name:command:arg1,arg2] and joined by [;] are read back exactly,
    provided no name or command contains [:] or [;] and no argument
    contains [:], [;] or [,]. *)
Theorem parseServersFromEnv_roundtrip (l : list RawServer) :
  l <> [] -> Forall plain l ->
  parseServersFromEnv (Some (formatServers l)) = inr l.
Proof.
  intros Hne Hl. unfold parseServersFromEnv, formatServers.
  assert (Hnonempty : join ";" (map formatServer l) <> "").
  { destruct l as [|s l]; [contradiction|]. simpl.
    destruct (formatServer_shape s) as [rest ->].
    destruct (map formatServer l); [apply app_cons_nonempty|].
    apply app_nonempty_l, app_cons_nonempty. }
  assert (JS.truthy (Some (join ";" (map formatServer l)))
          = Some (join ";" (map formatServer l))) as ->
    by (apply truthy_Some; auto).
  rewrite split_join.
  - now apply mapThrowing_formatServer.
  - destruct l; [contradiction | discriminate].
  - apply Forall_map. eapply Forall_impl; [exact Hl|].
    intros s Hs. apply (parseServerSpec_formatServer s Hs).
Qed.

(** Edge cases of [MCP_SERVERS]: unset or empty gives no servers; a
    value without [:] or [;] throws "Invalid server specification:
    <value>"; and in a specification with more than three [:]-separated
    fields everything after the third is dropped without notice. *)
Theorem parseServersFromEnv_edges :
  parseServersFromEnv None = inr []
  /\ parseServersFromEnv (Some "") = inr []
  /\ (forall spec, spec <> "" -> lacks ":" spec -> lacks ";" spec ->
        parseServersFromEnv (Some spec)
        = inl (JS.mkError "Error" ("Invalid server specification: " +:+ spec)))
  /\ (forall n c a rest, lacks ":" n -> lacks ":" c -> lacks ":" a ->
        parseServerSpec (n +:+ ":" +:+ c +:+ ":" +:+ a +:+ ":" +:+ rest)
        = parseServerSpec (n +:+ ":" +:+ c +:+ ":" +:+ a)).
Proof.
  split; [reflexivity|]. split; [reflexivity|]. split.
  - intros spec Hne H1 H2. unfold parseServersFromEnv.
    assert (JS.truthy (Some spec) = Some spec) as -> by (apply truthy_Some; auto).
    rewrite split_lacks by assumption. simpl. unfold parseServerSpec.
    now rewrite split_lacks.
  - intros n c a rest Hn Hc Ha. unfold parseServerSpec.
    change (n +:+ ":" +:+ c +:+ ":" +:+ a +:+ ":" +:+ rest)
      with (n +:+ String ":" (c +:+ String ":" (a +:+ String ":" rest))).
    change (n +:+ ":" +:+ c +:+ ":" +:+ a)
      with (n +:+ String ":" (c +:+ String ":" a)).
    rewrite (split_app ":" n), (split_app ":" c), (split_app ":" a) by assumption.
    rewrite (split_app ":" n), (split_app ":" c), (split_lacks ":" a) by assumption.
    destruct (JS.split ":" rest); reflexivity.
Qed.

Lemma checkServers_None (seen : gset string) (servers : list McpServerConfig) :
  checkServers seen servers = None
  <-> NoDup (name <$> servers)
      /\ (forall s, s ∈ servers -> name s ∉ seen)
      /\ Forall (fun s => forall ns, namespace s = Some ns -> ns <> "" ->
                            namespacePattern ns = true) servers.
Proof.
  revert seen. induction servers as [|s rest IH]; intros seen; simpl.
  - split; [|reflexivity]. intros _. split_and!; [constructor | | constructor].
    intros s Hs. now apply elem_of_nil in Hs.
  - rewrite NoDup_cons, Forall_cons.
    assert (Hstep : (checkServers ({[name s]} ∪ seen) rest = None)
              <-> (NoDup (name <$> rest)
                  /\ ((name s ∉ (name <$> rest)) /\ forall x, x ∈ rest -> name x ∉ seen)
                  /\ Forall (fun s => forall ns, namespace s = Some ns -> ns <> "" ->
                                        namespacePattern ns = true) rest)).
    { rewrite IH. split.
      - intros (H1 & H2 & H3). split_and!; try assumption.
        + intros (x & Hx & Hin)%list_elem_of_fmap.
          apply (H2 x Hin). apply elem_of_union. left.
          apply elem_of_singleton. congruence.
        + intros x Hin Hs. apply (H2 x Hin). apply elem_of_union. now right.
      - intros (H1 & (H2 & H2') & H3). split_and!; try assumption.
        intros x Hin [Hx%elem_of_singleton | Hx]%elem_of_union.
        + apply H2. rewrite <- Hx. now apply list_elem_of_fmap_2.
        + now apply (H2' x). }
    assert (Hall : (forall x, x ∈ s :: rest -> name x ∉ seen)
                   <-> (name s ∉ seen) /\ forall x, x ∈ rest -> name x ∉ seen).
    { split.
      - intros H. split; [apply H; left | intros x Hx; apply H; now right].
      - intros [H1 H2] x [->|Hx]%elem_of_cons; auto. }
    rewrite Hall.
    destruct (decide (name s ∈ seen)) as [Hin|Hout]; [split; [discriminate | tauto]|].
    destruct (JS.truthy (namespace s)) as [ns|] eqn:Hns.
    + apply truthy_Some in Hns as [Hns Hne].
      destruct (namespacePattern ns) eqn:Hpat; simpl.
      * rewrite Hstep. split; [|tauto]. intros (H1 & (H2 & H2') & H3).
        split_and!; try assumption. intros ns' Hns' _. congruence.
      * split; [discriminate|]. intros (_ & _ & Hs & _).
        specialize (Hs ns Hns Hne). congruence.
    + rewrite Hstep. split; [|tauto]. intros (H1 & (H2 & H2') & H3).
      split_and!; try assumption. intros ns Hns' Hne.
      apply truthy_None in Hns as [Hns | Hns]; congruence.
Qed.

Lemma enabled_filter (servers : list McpServerConfig) :
  length (filter (fun s => enabled s = true) servers) = 0%nat
  <-> Forall (fun s => enabled s = false) servers.
Proof.
  induction servers as [|s rest IH]; [split; [constructor | reflexivity]|].
  rewrite filter_cons, Forall_cons. destruct (decide (enabled s = true)) as [E|E].
  - simpl. split; [discriminate|]. intros [H _]. congruence.
  - rewrite IH. apply not_true_is_false in E. tauto.
Qed.

(** [validateConfig] accepts a configuration exactly when the server
    names are pairwise distinct, every non-empty namespace is a letter
    followed by letters, digits, [_] or [-], and at least one server is
    enabled. *)
Theorem validateConfig_accepts (servers : list McpServerConfig) :
  validateConfig servers = None
  <-> NoDup (name <$> servers)
      /\ Forall (fun s => forall ns, namespace s = Some ns -> ns <> "" ->
                            namespacePattern ns = true) servers
      /\ Exists (fun s => enabled s = true) servers.
Proof.
  unfold validateConfig.
  destruct (checkServers ∅ servers) as [e|] eqn:Hc.
  - split; [discriminate|]. intros (H1 & H2 & _).
    assert (checkServers ∅ servers = None); [|congruence].
    apply checkServers_None. split_and!; try assumption. intros s _. apply not_elem_of_empty.
  - apply checkServers_None in Hc as (H1 & _ & H2).
    destruct (Nat.eqb_spec (length (filter (fun s => enabled s = true) servers)) 0)
      as [E|E].
    + split; [discriminate|]. intros (_ & _ & H3). apply enabled_filter in E.
      apply Exists_exists in H3 as (s & Hin & Hen).
      rewrite Forall_forall in E. specialize (E s Hin). congruence.
    + split; [|reflexivity]. intros _. split_and!; try assumption.
      rewrite enabled_filter in E. apply not_Forall_Exists in E; [|solve_decision].
      eapply Exists_impl; [exact E|]. simpl. intros s Hs.
      now apply not_false_is_true.
Qed.

End ConfigFacts.

(* ===================================================================== *)
(** * [createLogger]                                                      *)
(* ===================================================================== *)

Section LoggerFacts.
Import Logger.

(** The logger prints by threshold on the lower-cased level name:
    [error] prints at error, warn, info and debug; [warn] at warn, info
    and debug; [info] and [log] at info and debug; [debug] and [trace]
    at debug only.  At any other level name nothing is printed, errors
    included. *)
Theorem createLogger_levels (logLevel : string) :
  let p := prints logLevel in
  let level := JS.toLowerCase logLevel in
  p trace = p debug /\ p log = p info
  /\ (p error = true <-> level ∈ ["error"; "warn"; "info"; "debug"])
  /\ (p warn = true <-> level ∈ ["warn"; "info"; "debug"])
  /\ (p info = true <-> level ∈ ["info"; "debug"])
  /\ (p debug = true <-> level = "debug").
Proof.
  intros p level. subst p. unfold prints, levelIndex, levels. fold level.
  generalize level. clear. intros level. cbn [JS.indexOf].
  rewrite !elem_of_cons, !elem_of_nil.
  destruct (String.eqb_spec "error" level) as [<-|H1];
    [|destruct (String.eqb_spec "warn" level) as [<-|H2];
      [|destruct (String.eqb_spec "info" level) as [<-|H3];
        [|destruct (String.eqb_spec "debug" level) as [<-|H4]]]];
    cbn; split_and!; try reflexivity; (split; [try discriminate; auto 6 |]);
    intros H; try reflexivity; try discriminate H;
    repeat destruct H as [H|H]; try discriminate H; try contradiction; congruence.
Qed.

End LoggerFacts.

(* ===================================================================== *)
(** * [PaywallGateway]: listing, resources and prompts                    *)
(* ===================================================================== *)

Section PaywallItemFacts.
Import PaywallGateway.

Variable servers : list PaywallGuard.McpServerConfig.
Variable currentSessionId : string.
Variable walletNetwork : PaywallGuard.McpServerConfig -> string.

Implicit Types (sessions : gmap string PaywallGuard.PaywallSession)
  (now stamp later price : Z).

(** The two paywall tools are listed after the registry's tools exactly
    when some server has its paywall enabled.  Listed or not, a call to
    "gateway:paywall:get-pricing" is answered with the pricing report
    and never reaches the registry. *)
Theorem paywall_tools_listed (tools : list GatewayServer.AggregatedTool) :
  ((exists s, In s servers /\ PaywallGuard.isPaywallEnabled s = true) ->
     exists pricingTool authorizeTool,
       listToolsHandler servers tools
       = JS.JObj [ ("tools", JS.JArr (map GatewayServer.listedTool tools
                                        ++ [pricingTool; authorizeTool])) ]
       /\ JS.field "name" pricingTool = Some (JS.JStr "gateway:paywall:get-pricing")
       /\ JS.field "name" authorizeTool = Some (JS.JStr "gateway:paywall:authorize"))
  /\ ((forall s, In s servers -> PaywallGuard.isPaywallEnabled s = false) ->
        listToolsHandler servers tools = GatewayServer.listToolsHandler tools)
  /\ (forall findTool getConnection handleGetPricing renderMcpError otherBalance
        (uuid randomHex : string) now stamp later args sessions,
        callToolHandler findTool getConnection servers currentSessionId walletNetwork
          handleGetPricing renderMcpError otherBalance uuid randomHex now stamp later
          "gateway:paywall:get-pricing" args sessions
        = (inr handleGetPricing, sessions)).
Proof.
  unfold listToolsHandler, getPaywallTools. split_and!.
  - intros Hsome. apply existsb_exists in Hsome. rewrite Hsome. simpl.
    eexists _, _. split_and!; reflexivity.
  - intros Hnone.
    assert (existsb PaywallGuard.isPaywallEnabled servers = false) as ->.
    { apply not_true_is_false. intros (s & Hin & Hs)%existsb_exists.
      rewrite (Hnone s Hin) in Hs. discriminate. }
    simpl. now rewrite app_nil_r.
  - reflexivity.
Qed.

Lemma enforcePaywallFor_priced kind id serverId now stamp sessions serverConfig price :
  List.find (fun s => String.eqb (PaywallGuard.name s) serverId) servers
  = Some serverConfig ->
  PaywallGuard.getRequiredPriceMicroUSDC kind id serverConfig = Some price ->
  enforcePaywallFor servers currentSessionId walletNetwork kind id serverId now stamp
    sessions =
    if price <=? PaywallGuard.getSessionBalance now sessions currentSessionId
    then (None, (PaywallGuard.deductFromSession sessions currentSessionId price).2)
    else (Some (createPaymentRequiredError walletNetwork stamp kind id price serverConfig),
          (PaywallGuard.isSessionAuthorized now sessions currentSessionId price).2).
Proof.
  intros Hfind Hprice. assert (Hpos := price_positive _ _ _ _ Hprice).
  unfold enforcePaywallFor. rewrite Hfind, Hprice.
  destruct (Z.ltb_spec 0 price); [|lia].
  destruct (session_check now sessions currentSessionId price Hpos) as [Hiff Hthen].
  destruct (PaywallGuard.isSessionAuthorized now sessions currentSessionId price)
    as [ok sessions'] eqn:E.
  simpl in Hiff, Hthen. rewrite <- Hiff. destruct ok; simpl; [|reflexivity].
  now rewrite (Hthen eq_refl).
Qed.

(** Reading a priced resource follows the rule of a priced tool, with
    the price looked up under the resource's original URI: a session
    that cannot pay is refused with "Payment required for resource
    '<original URI>': <price> micro-USDC" and no balance changes; one
    that can pay is charged the price before the upstream is asked, and
    keeps the charge when the upstream fails with "Resource read failed:
    ...". *)
Theorem readResource_paywall
    (findResource : string -> option Resources.AggregatedResource)
    (getConnection : string -> option Resources.ServerConnection)
    now stamp (uri : string) sessions
    (resource : Resources.AggregatedResource) (connection : Resources.ServerConnection)
    serverConfig price :
  findResource uri = Some resource ->
  getConnection (Resources.serverId resource) = Some connection ->
  Resources.status connection = GatewayServer.connected ->
  List.find (fun s => String.eqb (PaywallGuard.name s) (Resources.serverId resource))
    servers = Some serverConfig ->
  PaywallGuard.getRequiredPriceMicroUSDC PaywallGuard.resource
    (Resources.originalUri resource) serverConfig = Some price ->
  let r := readResourceHandler servers currentSessionId walletNetwork
             findResource getConnection now stamp uri sessions in
  let upstream :=
    match Resources.client connection with
    | Some c => Resources.readResource c (Resources.originalUri resource)
    | None => inl Resources.nullClientError
    end in
  let balance := PaywallGuard.getSessionBalance now sessions currentSessionId in
  (balance < price ->
     r.1 = inl {| code := InternalError;
                  message := "Payment required for resource '"
                             +:+ Resources.originalUri resource
                             +:+ "': " +:+ JS.decimalOfZ price +:+ " micro-USDC";
                  data := data (createPaymentRequiredError walletNetwork stamp
                                  PaywallGuard.resource (Resources.originalUri resource)
                                  price serverConfig) |}
     /\ forall sid, PaywallGuard.getSessionBalance now r.2 sid
                    = PaywallGuard.getSessionBalance now sessions sid)
  /\ (price <= balance ->
        PaywallGuard.getSessionBalance now r.2 currentSessionId = balance - price
        /\ (forall sid, sid <> currentSessionId -> r.2 !! sid = sessions !! sid)
        /\ (forall response, upstream = inr response -> r.1 = inr response)
        /\ (forall e, upstream = inl e ->
              r.1 = inl {| code := InternalError;
                           message := "Resource read failed: " +:+ JS.errorToString e;
                           data := None |})).
Proof.
  intros Hres Hconn Hstatus Hfind Hprice r upstream balance. subst r upstream balance.
  assert (Hpos := price_positive _ _ _ _ Hprice).
  unfold readResourceHandler. rewrite Hres, Hconn, Hstatus. simpl negb. cbv iota.
  rewrite (enforcePaywallFor_priced _ _ _ now stamp sessions serverConfig price)
    by assumption.
  split; intros Hbal.
  - destruct (Z.leb_spec price
                (PaywallGuard.getSessionBalance now sessions currentSessionId)); [lia|].
    split; [reflexivity|]. intros sid. apply refusal_keeps_balances.
  - destruct (Z.leb_spec price
                (PaywallGuard.getSessionBalance now sessions currentSessionId)); [|lia].
    destruct (deduct_covered now sessions currentSessionId price Hpos Hbal)
      as [_ Hcharged].
    destruct (match Resources.client connection with
              | Some c => _
              | None => _
              end) as [e|response]; simpl; split_and!;
      try assumption; try congruence; intros sid Hsid; now apply deduct_others.
Qed.

(** Getting a priced prompt follows the same rule, with the price looked
    up under the prompt's original name: refusal with "Payment required
    for prompt '<original name>': <price> micro-USDC" and no balance
    change, or a charge made before the upstream is asked and kept when
    it fails with "Prompt get failed: ...". *)
Theorem getPrompt_paywall
    (findPrompt : string -> option Prompts.AggregatedPrompt)
    (getConnection : string -> option Prompts.ServerConnection)
    now stamp (name : string) (args : option (list (string * JS.Json))) sessions
    (prompt : Prompts.AggregatedPrompt) (connection : Prompts.ServerConnection)
    serverConfig price :
  findPrompt name = Some prompt ->
  getConnection (Prompts.serverId prompt) = Some connection ->
  Prompts.status connection = GatewayServer.connected ->
  List.find (fun s => String.eqb (PaywallGuard.name s) (Prompts.serverId prompt))
    servers = Some serverConfig ->
  PaywallGuard.getRequiredPriceMicroUSDC PaywallGuard.prompt
    (Prompts.originalName prompt) serverConfig = Some price ->
  let r := getPromptHandler servers currentSessionId walletNetwork
             findPrompt getConnection now stamp name args sessions in
  let upstream :=
    match Prompts.client connection with
    | Some c => Prompts.getPrompt c (Prompts.originalName prompt)
                  (JS.JObj (default [] args))
    | None => inl Prompts.nullClientError
    end in
  let balance := PaywallGuard.getSessionBalance now sessions currentSessionId in
  (balance < price ->
     r.1 = inl {| code := InternalError;
                  message := "Payment required for prompt '"
                             +:+ Prompts.originalName prompt
                             +:+ "': " +:+ JS.decimalOfZ price +:+ " micro-USDC";
                  data := data (createPaymentRequiredError walletNetwork stamp
                                  PaywallGuard.prompt (Prompts.originalName prompt)
                                  price serverConfig) |}
     /\ forall sid, PaywallGuard.getSessionBalance now r.2 sid
                    = PaywallGuard.getSessionBalance now sessions sid)
  /\ (price <= balance ->
        PaywallGuard.getSessionBalance now r.2 currentSessionId = balance - price
        /\ (forall sid, sid <> currentSessionId -> r.2 !! sid = sessions !! sid)
        /\ (forall response, upstream = inr response -> r.1 = inr response)
        /\ (forall e, upstream = inl e ->
              r.1 = inl {| code := InternalError;
                           message := "Prompt get failed: " +:+ JS.errorToString e;
                           data := None |})).
Proof.
  intros Hres Hconn Hstatus Hfind Hprice r upstream balance. subst r upstream balance.
  assert (Hpos := price_positive _ _ _ _ Hprice).
  unfold getPromptHandler. rewrite Hres, Hconn, Hstatus. simpl negb. cbv iota.
  rewrite (enforcePaywallFor_priced _ _ _ now stamp sessions serverConfig price)
    by assumption.
  split; intros Hbal.
  - destruct (Z.leb_spec price
                (PaywallGuard.getSessionBalance now sessions currentSessionId)); [lia|].
    split; [reflexivity|]. intros sid. apply refusal_keeps_balances.
  - destruct (Z.leb_spec price
                (PaywallGuard.getSessionBalance now sessions currentSessionId)); [|lia].
    destruct (deduct_covered now sessions currentSessionId price Hpos Hbal)
      as [_ Hcharged].
    destruct (match Prompts.client connection with
              | Some c => _
              | None => _
              end) as [e|response]; simpl; split_and!;
      try assumption; try congruence; intros sid Hsid; now apply deduct_others.
Qed.

End PaywallItemFacts.

(* ===================================================================== *)
(** * [GatewayHttpServer]: the payment endpoint                           *)
(* ===================================================================== *)

Section PayEndpointFacts.
Import GatewayHttpServer.

Variable encodeToken : JS.Json -> string.
Variable parseBody : string -> JS.Error + JS.Json.
Variable toISOString : Z -> string.

Implicit Types (sessions : gmap string PaywallGuard.PaywallSession).

(** A POST to /pay with any non-empty X-Payment header is answered 200
    and credits the new session with 100000 micro-USDC, whatever the
    header and the body contain; the other sessions are untouched.
    Without the header, an empty body is answered 400 "No payment data
    provided" and a body that does not parse is answered 500 "Internal
    server error".  A body that is an object gives the payment as its
    [xPayment], or its [payment] when [xPayment] is missing or falsy:
    with neither the answer is 400 "Invalid payment data", and any truthy
    value there, of whatever JSON type, is credited like a header.  No
    answer other than 200 changes a session. *)
Theorem pay_endpoint_outcomes (config : HttpServerConfig)
    (uuid randomHex sessionId : string) (stamp iat later now expiry : Z)
    (xPaymentHeader : option string) (body : string) sessions :
  let r := handlePayEndpoint encodeToken parseBody toISOString uuid randomHex sessionId
             stamp iat later now expiry xPaymentHeader body sessions in
  let written := handleRequest config "POST" r.1 in
  let credited :=
    statusCode written = 200
    /\ (GatewayHttpServer.body written ≫= JS.field "sessionId")
       = Some (JS.JStr sessionId)
    /\ (GatewayHttpServer.body written ≫= JS.field "amount") = Some (JS.JStr "100000")
    /\ PaywallGuard.getSessionBalance now r.2 sessionId
       = match sessions !! sessionId with
         | Some s => PaywallGuard.remainingBalance s
         | None => 0
         end + 100000
    /\ forall sid, sid <> sessionId -> r.2 !! sid = sessions !! sid in
  let refused (status : Z) (message : string) :=
    statusCode written = status
    /\ GatewayHttpServer.body written = Some (JS.JObj [ ("error", JS.JStr message) ])
    /\ r.2 = sessions in
  (forall h, xPaymentHeader = Some h -> h <> "" -> credited)
  /\ (JS.truthy xPaymentHeader = None -> body = "" ->
        refused 400 "No payment data provided")
  /\ (forall e, JS.truthy xPaymentHeader = None -> body <> "" ->
        parseBody body = inl e -> refused 500 "Internal server error")
  /\ (forall fields, JS.truthy xPaymentHeader = None -> body <> "" ->
        parseBody body = inr (JS.JObj fields) ->
        let paymentData :=
          match JS.assoc "xPayment" fields with
          | Some x => if JS.truthyJson x then Some x else JS.assoc "payment" fields
          | None => JS.assoc "payment" fields
          end in
        ((paymentData = None
          \/ exists v, paymentData = Some v /\ JS.truthyJson v = false) ->
           refused 400 "Invalid payment data")
        /\ (forall v, paymentData = Some v -> JS.truthyJson v = true -> credited)).
Proof.
  intros r written credited refused. subst r written credited refused.
  unfold handlePayEndpoint, handleRequest. rewrite andb_false_r.
  assert (Hcredit : forall paymentData receipt,
    receipt = PaywallGuard.verifyX402Payment uuid randomHex stamp paymentData 100000
                "base-sepolia" "placeholder-recipient" ->
    PaywallGuard.getSessionBalance now
      (PaywallGuard.recordAuthorization now sessions sessionId receipt 0) sessionId
    = match sessions !! sessionId with
      | Some s => PaywallGuard.remainingBalance s
      | None => 0
      end + 100000
    /\ forall sid, sid <> sessionId ->
         PaywallGuard.recordAuthorization now sessions sessionId receipt 0 !! sid
         = sessions !! sid).
  { intros paymentData receipt ->. split.
    - unfold PaywallGuard.recordAuthorization, PaywallGuard.getSessionBalance.
      rewrite lookup_insert_eq.
      destruct (sessions !! sessionId) as [s|]; simpl;
        (destruct (Z.ltb_spec (now + PaywallGuard.DAY) now);
         [unfold PaywallGuard.DAY in *; lia|]); lia.
    - intros sid Hsid. unfold PaywallGuard.recordAuthorization.
      now rewrite lookup_insert_ne by congruence. }
  split_and!.
  - intros h -> Hne.
    assert (JS.truthy (Some h) = Some h) as -> by (apply truthy_Some; auto).
    cbn [fst snd]. destruct (Hcredit (JS.JStr h) _ eq_refl) as [Hb Ho].
    split_and!; try reflexivity; assumption.
  - intros -> ->. simpl. split_and!; reflexivity.
  - intros e -> Hne He. rewrite He.
    destruct (String.eqb_spec body ""); [contradiction|]. simpl.
    split_and!; reflexivity.
  - intros fields -> Hne Hp. rewrite Hp.
    destruct (String.eqb_spec body ""); [contradiction|]. simpl negb. cbv iota.
    unfold JS.field at 1 2 3.
    destruct (match JS.assoc "xPayment" fields with
              | Some x => _
              | None => _
              end) as [v|]; cbv zeta; split.
    + intros [[=] | (v' & [= <-] & ->)]. simpl. split_and!; reflexivity.
    + intros v' [= <-] ->. cbn [fst snd negb].
      destruct (Hcredit v _ eq_refl) as [Hb Ho].
      split_and!; try reflexivity; assumption.
    + intros _. simpl. split_and!; reflexivity.
    + discriminate.
Qed.

End PayEndpointFacts.

(* ===================================================================== *)
(** * Instances                                                           *)
(* ===================================================================== *)

Section ForwardingWitnesses.
Import Samples.

Lemma listHandlers_entries_witness :
  exists entry,
    GatewayServer.listToolsHandler [echoTool] = JS.JObj [ ("tools", JS.JArr [entry]) ]
    /\ JS.field "description" entry = Some (JS.JStr "Tool from fs (fs)").
Proof.
  destruct (proj1 listHandlers_entries [echoTool]) as (entries & Hl & _ & Hi).
  destruct (Hi 0%nat echoTool eq_refl) as (entry & d & He & _ & _ & Hd & _ & _ & Hgen).
  exists entry. split; [injection Hl as <-; injection He as <-; reflexivity|].
  rewrite Hd.
  rewrite (proj1 (Hgen (or_introl eq_refl)) "fs" eq_refl ltac:(discriminate)).
  reflexivity.
Defined.

Lemma handlers_forward_witness :
  GatewayServer.callToolHandler registry echoUpstream "fs:echo" None
  = inr (JS.JObj [ ("tool", JS.JStr "echo"); ("arguments", JS.JObj []) ])
  /\ Resources.readResourceHandler resourceRegistry resourceUpstream "fs:file:///readme"
     = inr (JS.JObj [ ("uri", JS.JStr "file:///readme") ])
  /\ Prompts.getPromptHandler promptRegistry promptUpstream "fs:greet" None
     = inr (JS.JObj [ ("prompt", JS.JStr "greet"); ("arguments", JS.JObj []) ]).
Proof.
  destruct handlers_forward as (Htool & Hresource & Hprompt). split_and!.
  - apply Htool.
    exists echoTool, {| GatewayServer.client := Some echoClient;
                        GatewayServer.status := GatewayServer.connected |}, echoClient.
    split_and!; reflexivity.
  - apply Hresource. exists readme, servingConnection, servingClient.
    split_and!; reflexivity.
  - apply Hprompt. exists greeting, promptConnection, promptClient.
    split_and!; reflexivity.
Defined.

End ForwardingWitnesses.

Section VerificationWitnesses.
Import Config PaymentMiddleware Samples.

Lemma verifyPayment_outcomes_witness :
  (exists pricing,
     getToolPricing priceGateway "price" "quotes" = Some pricing
     /\ run approving (verifyPayment decodeSample priceGateway "price" "quotes"
                         (Some paidHeaders))
        = {| authorized := true; error := None;
             PaymentMiddleware.pricing :=
               Some {| amount := "$0.01"; method := method_x402 |} |})
  /\ (exists pricing,
        run approving (verifyPayment decodeSample priceGateway "price" "quotes"
                         (Some emptyPaymentHeaders))
        = paymentRequired pricing
        /\ x402 pricing = Some "$0.01")
  /\ run approving (verifyPayment decodeSample tieredGateway "get-docs" "docs"
                      (Some premiumHeaders))
     = {| authorized := true; error := None;
          PaymentMiddleware.pricing := Some {| amount := "0"; method := method_apiKey |} |}
  /\ run approving (verifyPayment decodeSample tieredGateway "get-docs" "docs"
                      (Some basicHeaders))
     = {| authorized := true; error := None;
          PaymentMiddleware.pricing :=
            Some {| amount := "$0.005"; method := method_apiKey |} |}
  /\ run approving (verifyPayment decodeSample tieredGateway "get-docs" "docs"
                      (Some trialHeaders))
     = paymentRequired tieredPricing.
Proof.
  split_and!.
  - destruct (proj1 (verifyPayment_outcomes decodeSample approving priceGateway "price"
                       "quotes" (Some paidHeaders)) eq_refl)
      as [[Hfree _] | [(pricing & h & k & kc & tiers & a & _ & Hh & Hk & _)
                      | (pricing & h & price & ph & pd & r & b & Hp & _)]].
    + discriminate Hfree.
    + injection Hh as <-. discriminate Hk.
    + exists pricing. split; [exact Hp | reflexivity].
  - destruct (proj1 (proj2 (verifyPayment_outcomes decodeSample approving priceGateway
                              "price" "quotes" (Some emptyPaymentHeaders))) eq_refl)
      as (pricing & _ & Hp & _ & Hr & _).
    exists pricing. split; [exact Hr|]. injection Hp as <-. reflexivity.
  - refine (proj1 (proj2 (proj2 (verifyPayment_outcomes decodeSample approving
              tieredGateway "get-docs" "docs" (Some premiumHeaders)))
              tieredPricing premiumHeaders "K"
              {| key := "K"; tier := "premium"; rateLimit := None |} _ "free"
              eq_refl eq_refl eq_refl eq_refl eq_refl eq_refl eq_refl eq_refl _)).
    discriminate.
  - refine (proj1 (proj2 (proj2 (verifyPayment_outcomes decodeSample approving
              tieredGateway "get-docs" "docs" (Some basicHeaders)))
              tieredPricing basicHeaders "B"
              {| key := "B"; tier := "basic"; rateLimit := None |} _ "$0.005"
              eq_refl eq_refl eq_refl eq_refl eq_refl eq_refl eq_refl eq_refl _)).
    discriminate.
  - destruct (proj1 (proj2 (verifyPayment_outcomes decodeSample approving tieredGateway
                              "get-docs" "docs" (Some trialHeaders))) eq_refl)
      as (pricing & _ & Hp & _ & Hr & _).
    rewrite Hr. injection Hp as <-. reflexivity.
Defined.

End VerificationWitnesses.

Section ForwardedHeaderWitnesses.
Import Config PaymentMiddleware Samples.

Lemma extractPaymentHeaders_filter_witness :
  extractPaymentHeaders (Some premiumHeaders) !! "X-ELIZA-API-KEY" = Some "K"
  /\ extractPaymentHeaders (Some mixedCaseKeyHeaders) = ∅.
Proof.
  destruct (extractPaymentHeaders_filter premiumHeaders) as (_ & H & _).
  split; [|reflexivity].
  apply H. split_and!; [|reflexivity|discriminate].
  do 3 apply list_elem_of_further. apply list_elem_of_here.
Defined.

Lemma payment_header_names_differ_witness :
  paymentHeaderOf capitalPaymentHeaders = Some "cGF5"
  /\ extractPaymentHeaders (Some capitalPaymentHeaders) !! "X-PAYMENT" = None.
Proof.
  refine (proj1 (payment_header_names_differ capitalPaymentHeaders "cGF5" eq_refl _)
            eq_refl).
  discriminate.
Defined.

Lemma facilitatorRequest_matches_challenge_witness :
  exists requirements,
    JS.field "paymentRequirements"
      (requestBody (facilitatorRequest priceGateway (JS.JObj []) "$0.01"))
    = Some requirements
    /\ JS.field "maxAmountRequired" requirements = Some (JS.JStr "10000")
    /\ JS.field "asset" requirements
       = Some (JS.JStr "0x036CbD53842c5426634e7929541eC2318f3dCF7e")
    /\ JS.field "payTo" requirements
       = Some (JS.JStr "0xAB00000000000000000000000000000000000001").
Proof.
  destruct (facilitatorRequest_matches_challenge priceGateway "price" "quotes"
              pricePricing "$0.01" (JS.JObj []) eq_refl eq_refl ltac:(discriminate))
    as (a & requirements & Ha & Hr & _ & _ & Hamount & Hasset & _ & _ & _ & _ & Hpay & _).
  exists requirements. injection Ha as <-.
  split; [exact Hr|]. split; [exact Hamount|].
  split; [exact (Hasset _ eq_refl) | exact (Hpay _ eq_refl)].
Defined.

Lemma apiKeyCache_last_wins_witness :
  apiKeyCache tieredGateway !! "B"
  = Some {| key := "B"; tier := "basic"; rateLimit := None |}
  /\ apiKeyCache tieredGateway !! "b" = None.
Proof.
  destruct (apiKeyCache_last_wins tieredGateway
              [ {| key := "K"; tier := "premium"; rateLimit := None |} ]
              [ {| key := "U"; tier := "trial"; rateLimit := None |} ]
              {| key := "B"; tier := "basic"; rateLimit := None |} eq_refl)
    as [Hlast Hnone].
  split.
  - apply Hlast. repeat constructor. discriminate.
  - apply Hnone; [discriminate | |]; repeat constructor; discriminate.
Defined.

End ForwardedHeaderWitnesses.

Section SymbolWitnesses.
Import PaymentMiddleware.

Lemma parseAmountToAtomicUnits_symbols_witness :
  parseAmountToAtomicUnits "-$5" = parseAmountToAtomicUnits "$5"
  /\ parseAmountToAtomicUnits "free" = "10000".
Proof.
  destruct parseAmountToAtomicUnits_symbols as [Hdrop Hnone]. split.
  - apply (Hdrop "" "$5" "-"%char); [reflexivity | discriminate].
  - apply Hnone. repeat constructor.
Defined.

Lemma calculateMarkup_NaN_witness :
  calculateMarkup "free" "20%" = "$NaN" /\ calculateMarkup "$0.10" "none" = "$NaN".
Proof.
  split.
  - apply (proj1 (calculateMarkup_NaN "free" "20%")). repeat constructor.
  - apply (proj2 (calculateMarkup_NaN "$0.10" "none")); [reflexivity|].
    repeat constructor.
Defined.

End SymbolWitnesses.

Section McpEndpointWitnesses.
Import GatewayHttpServer Samples.

Lemma mcp_endpoint_outcomes_witness :
  statusCode (handleRequest corsServer "POST"
                (inr (handleMcpEndpoint parseIssued (Some "Bearer dG9rZW4=")))) = 501
  /\ statusCode (handleRequest corsServer "POST"
                   (inr (handleMcpEndpoint parseIssued None))) = 401.
Proof.
  split.
  - destruct (mcp_endpoint_outcomes parseIssued corsServer "/mcp/tools/call" "POST"
                "tools/call" (Some "Bearer dG9rZW4=") eq_refl)
      as (_ & _ & _ & H & _).
    apply H. exists "dG9rZW4=", issuedPayload, (JS.JStr "http-session-1").
    split_and!; reflexivity.
  - destruct (mcp_endpoint_outcomes parseIssued corsServer "/mcp/tools/call" "POST"
                "tools/call" None eq_refl)
      as (_ & _ & _ & _ & H).
    apply H. intros (token & payload & sid & Ha & _). discriminate Ha.
Defined.

End McpEndpointWitnesses.

Section TransportWitnesses.
Import TransportFactory Samples.

Lemma legacy_command_is_stdio_witness :
  getTransportDisplayName legacyServer = "STDIO (npx)"
  /\ validateConfig legacyServer = []
  /\ exists childEnv,
       create hostEnv anyUrl legacyServer
       = inr (StdioClientTransport "npx" [ "-y"; "server-filesystem" ] childEnv None)
       /\ childEnv !! "HOME" = Some "/srv"
       /\ childEnv !! "PATH" = Some "/usr/bin".
Proof.
  destruct (legacy_command_is_stdio hostEnv anyUrl legacyServer "npx" eq_refl eq_refl
              ltac:(discriminate))
    as (_ & Hv & _ & Hd & _ & _ & childEnv & Hc & Hset & Hinherit).
  split; [exact Hd|]. split; [exact Hv|].
  exists childEnv. split; [exact Hc|]. split.
  - apply Hset. reflexivity.
  - rewrite Hinherit; reflexivity.
Defined.

Lemma validateConfig_complete_witness :
  validateConfig bareServer
  = [ "Transport configuration error: Error: Server bare has no transport configuration" ]
  /\ getTransportDisplayName bareServer = "Invalid".
Proof.
  destruct (validateConfig_complete hostEnv anyUrl bareServer) as (_ & _ & H).
  destruct (H eq_refl eq_refl) as (Hv & Hd & _).
  split; [exact Hv | exact Hd].
Defined.

End TransportWitnesses.

Section ConfigWitnesses.
Import ConfigManager Samples.

Lemma parseServersFromEnv_roundtrip_witness :
  parseServersFromEnv (Some "fs:npx:-y,server-filesystem;git:git-mcp") = inr envServers.
Proof.
  apply (parseServersFromEnv_roundtrip envServers); [discriminate|].
  repeat constructor.
Defined.

Lemma parseServersFromEnv_edges_witness :
  parseServersFromEnv (Some "fs") = inl (JS.mkError "Error" "Invalid server specification: fs")
  /\ parseServerSpec "fs:npx:-y:extra" = parseServerSpec "fs:npx:-y".
Proof.
  destruct parseServersFromEnv_edges as (_ & _ & Hbad & Hextra). split.
  - apply Hbad; [discriminate | reflexivity | reflexivity].
  - apply (Hextra "fs" "npx" "-y" "extra"); reflexivity.
Defined.

Lemma validateConfig_accepts_witness :
  validateConfig twoServers = None
  /\ validateConfig (twoServers ++ twoServers) <> None.
Proof.
  split.
  - apply validateConfig_accepts. split_and!.
    + apply NoDup_cons. split; [|apply NoDup_singleton].
      intros [= ]%list_elem_of_singleton.
    + repeat constructor; intros ns [= <-] _; reflexivity.
    + left. reflexivity.
  - intros H. apply validateConfig_accepts in H as (Hdup & _).
    apply NoDup_cons_1_1 in Hdup. apply Hdup.
    do 1 apply list_elem_of_further. apply list_elem_of_here.
Defined.

End ConfigWitnesses.

Section LoggerWitnesses.
Import Logger.

Lemma createLogger_levels_witness :
  prints "INFO" warn = true /\ prints "verbose" error = false.
Proof.
  destruct (createLogger_levels "INFO") as (_ & _ & _ & Hwarn & _).
  split; [|reflexivity].
  apply Hwarn. apply list_elem_of_further, list_elem_of_here.
Defined.

End LoggerWitnesses.

Section PaywallItemWitnesses.
Import PaywallGateway Samples.

Lemma paywall_tools_listed_witness :
  exists pricingTool authorizeTool,
    listToolsHandler [meteredServer] [echoTool]
    = JS.JObj [ ("tools", JS.JArr [ GatewayServer.listedTool echoTool;
                                    pricingTool; authorizeTool ]) ]
    /\ JS.field "name" authorizeTool = Some (JS.JStr "gateway:paywall:authorize").
Proof.
  destruct (proj1 (paywall_tools_listed [meteredServer] "alice" baseSepolia [echoTool]))
    as (pricingTool & authorizeTool & Hl & _ & Hn).
  - exists meteredServer. split; [now left | reflexivity].
  - exists pricingTool, authorizeTool. split; [exact Hl | exact Hn].
Defined.

Lemma readResource_paywall_witness :
  PaywallGuard.getSessionBalance 2000
    (readResourceHandler [meteredServer] "alice" baseSepolia resourceRegistry
       resourceUpstream 2000 2000 "fs:file:///readme" funded).2 "alice"
  = 100000 - 300
  /\ exists e,
       (readResourceHandler [meteredServer] "alice" baseSepolia resourceRegistry
          resourceUpstream 2000 2000 "fs:file:///readme" ∅).1 = inl e
       /\ message e = "Payment required for resource 'file:///readme': 300 micro-USDC".
Proof.
  split.
  - destruct (readResource_paywall [meteredServer] "alice" baseSepolia resourceRegistry
                resourceUpstream 2000 2000 "fs:file:///readme" funded readme
                servingConnection meteredServer 300
                eq_refl eq_refl eq_refl eq_refl eq_refl) as [_ H].
    destruct (H ltac:(vm_compute; discriminate)) as [Hbal _]. exact Hbal.
  - destruct (readResource_paywall [meteredServer] "alice" baseSepolia resourceRegistry
                resourceUpstream 2000 2000 "fs:file:///readme" ∅ readme
                servingConnection meteredServer 300
                eq_refl eq_refl eq_refl eq_refl eq_refl) as [H _].
    destruct (H ltac:(vm_compute; reflexivity)) as [He _].
    eexists. split; [exact He | reflexivity].
Defined.

Lemma getPrompt_paywall_witness :
  PaywallGuard.getSessionBalance 2000
    (getPromptHandler [meteredServer] "alice" baseSepolia promptRegistry
       promptUpstream 2000 2000 "fs:greet" None funded).2 "alice"
  = 100000 - 40
  /\ exists e,
       (getPromptHandler [meteredServer] "alice" baseSepolia promptRegistry
          promptUpstream 2000 2000 "fs:greet" None ∅).1 = inl e
       /\ message e = "Payment required for prompt 'greet': 40 micro-USDC".
Proof.
  split.
  - destruct (getPrompt_paywall [meteredServer] "alice" baseSepolia promptRegistry
                promptUpstream 2000 2000 "fs:greet" None funded greeting
                promptConnection meteredServer 40
                eq_refl eq_refl eq_refl eq_refl eq_refl) as [_ H].
    destruct (H ltac:(vm_compute; discriminate)) as [Hbal _]. exact Hbal.
  - destruct (getPrompt_paywall [meteredServer] "alice" baseSepolia promptRegistry
                promptUpstream 2000 2000 "fs:greet" None ∅ greeting
                promptConnection meteredServer 40
                eq_refl eq_refl eq_refl eq_refl eq_refl) as [H _].
    destruct (H ltac:(vm_compute; reflexivity)) as [He _].
    eexists. split; [exact He | reflexivity].
Defined.

End PaywallItemWitnesses.

Section PayEndpointWitnesses.
Import GatewayHttpServer Samples.

Lemma pay_endpoint_outcomes_witness :
  let pay := handlePayEndpoint encodeIssued parseTwoBodies fixedDate "u" "ab"
               "http-session-1" 1000 1000 1000 1000 1000 in
  statusCode (handleRequest corsServer "POST" (pay (Some "cGF5") "" ∅).1) = 200
  /\ PaywallGuard.getSessionBalance 1000 (pay (Some "cGF5") "" ∅).2 "http-session-1"
     = 0 + 100000
  /\ statusCode (handleRequest corsServer "POST" (pay None "{}" ∅).1) = 400
  /\ statusCode (handleRequest corsServer "POST" (pay None paymentBody ∅).1) = 200.
Proof.
  destruct (pay_endpoint_outcomes encodeIssued parseTwoBodies fixedDate corsServer
              "u" "ab" "http-session-1" 1000 1000 1000 1000 1000 (Some "cGF5") "" ∅)
    as (Hheader & _).
  destruct (pay_endpoint_outcomes encodeIssued parseTwoBodies fixedDate corsServer
              "u" "ab" "http-session-1" 1000 1000 1000 1000 1000 None "{}" ∅)
    as (_ & _ & _ & Hempty).
  destruct (pay_endpoint_outcomes encodeIssued parseTwoBodies fixedDate corsServer
              "u" "ab" "http-session-1" 1000 1000 1000 1000 1000 None paymentBody ∅)
    as (_ & _ & _ & Hbody).
  destruct (Hheader "cGF5" eq_refl ltac:(discriminate)) as (Hs & _ & _ & Hb & _).
  destruct (Hempty [] eq_refl ltac:(discriminate) eq_refl) as [Hinvalid _].
  destruct (Hbody [ ("payment", JS.JStr "cGF5") ] eq_refl ltac:(discriminate) eq_refl)
    as [_ Hpaid].
  split; [exact Hs|]. split; [exact Hb|]. split.
  - exact (proj1 (Hinvalid (or_introl eq_refl))).
  - exact (proj1 (Hpaid (JS.JStr "cGF5") eq_refl eq_refl)).
Defined.

End PayEndpointWitnesses.
